(** * TinyTorch: the [Tensor] class of [tinytorch/core/tensor.py]

    A shallow embedding of the [Tensor] wrapper and of the part of the
    numeric array backend (NumPy) that the wrapper calls, followed by the
    properties of the wrapper.

    Layout of the development:
    - [Py]      : Python exceptions, the error monad, sequence subscripts;
    - floats    : IEEE-754 binary32 / binary64 values ([SpecFloat]);
    - [ndarray] : a backend array, as dtype + shape + row-major contents;
    - [np]      : the backend functions the class calls;
    - [tensor]  : the methods of [class Tensor], one definition per method;
    - the properties. *)

From Stdlib Require Import ZArith List String Ascii Lia Bool Permutation.
From Stdlib Require Import DecimalString.
From Stdlib Require Import Floats.SpecFloat.
From stdpp Require Import base list.
Import ListNotations.

#[local] Open Scope Z_scope.

(* ===================================================================== *)
(** ** Python: exceptions, results, subscripts                            *)
(* ===================================================================== *)

Module Py.

(** The exception classes that can leave a [Tensor] method. [AxisError]
    is the backend's (it derives from both ValueError and IndexError). *)
Inductive exn_kind : Type :=
| TypeError | ValueError | IndexError | ZeroDivisionError
| OverflowError | AxisError.

Record exn : Type := Exn { exn_type : exn_kind; exn_msg : string }.

(** The outcome of a call: a value, or a raised exception. *)
Inductive result (A : Type) : Type :=
| Ok (a : A)
| Raise (e : exn).
Arguments Ok {A} a.
Arguments Raise {A} e.

Definition bind {A B} (m : result A) (k : A -> result B) : result B :=
  match m with
  | Ok a => k a
  | Raise e => Raise e
  end.

Definition raise {A} (k : exn_kind) (msg : string) : result A :=
  Raise (Exn k msg).

(** [str(n)] for a Python int. *)
Definition str_int (z : Z) : string := NilZero.string_of_int (Z.to_int z).

(** A subscript [i] on a sequence of length [n]: negative subscripts
    count from the end; [None] when out of range. *)
Definition norm_index (n : nat) (i : Z) : option nat :=
  if (0 <=? i) && (i <? Z.of_nat n) then Some (Z.to_nat i)
  else if (- Z.of_nat n <=? i) && (i <? 0) then Some (Z.to_nat (i + Z.of_nat n))
  else None.

(** A Python int that fits the machine index type ([Py_ssize_t], 64 bits). *)
Definition index_sized (i : Z) : bool :=
  (-9223372036854775808 <=? i) && (i <? 9223372036854775808).

(** The IndexError for a subscript [i] that selects no element of a
    sequence: an int beyond the machine index is refused as such, any
    other is out of range. (A subscript that is within the range of an
    existing sequence always fits the machine index.) *)
Definition no_element {A} (what : string) (i : Z) : result A :=
  if index_sized i then raise IndexError (what ++ " out of range")
  else raise IndexError "cannot fit 'int' into an index-sized integer".

(** [l[i]] on a list. *)
Definition list_getitem {A} (l : list A) (i : Z) : result A :=
  match norm_index (length l) i with
  | Some k =>
      match l !! k with
      | Some x => Ok x
      | None => no_element "list index" i
      end
  | None => no_element "list index" i
  end.

(** [l[i] = x] on a list. *)
Definition list_setitem {A} (l : list A) (i : Z) (x : A) : result (list A) :=
  match norm_index (length l) i with
  | Some k => Ok (<[k := x]> l)
  | None => no_element "list assignment index" i
  end.

(** [t[i]] on a tuple. *)
Definition tuple_getitem {A} (l : list A) (i : Z) : result A :=
  match norm_index (length l) i with
  | Some k =>
      match l !! k with
      | Some x => Ok x
      | None => no_element "tuple index" i
      end
  | None => no_element "tuple index" i
  end.

(** A list subscript that may be [None] (an omitted argument). *)
Definition list_getitem_opt {A} (l : list A) (i : option Z) : result A :=
  match i with
  | Some i => list_getitem l i
  | None => raise TypeError "list indices must be integers or slices, not NoneType"
  end.

Definition list_setitem_opt {A} (l : list A) (i : option Z) (x : A)
  : result (list A) :=
  match i with
  | Some i => list_setitem l i x
  | None => raise TypeError "list indices must be integers or slices, not NoneType"
  end.

(** [a // b] on ints: floor division, [ZeroDivisionError] on [b = 0]. *)
Definition floordiv (a b : Z) : result Z :=
  if b =? 0 then raise ZeroDivisionError "integer division or modulo by zero"
  else Ok (a / b).

(** [needle in haystack] on strings. *)
Fixpoint contains (needle hay : string) : bool :=
  if String.prefix needle hay then true
  else match hay with
       | EmptyString => false
       | String _ hay' => contains needle hay'
       end.

End Py.

Export Py.

Declare Scope py_scope.
Notation "'let!' x ':=' m 'in' k" := (Py.bind m (fun x => k))
  (at level 10, x name, m at level 100, k at level 200) : py_scope.
Notation "'let!' ' p ':=' m 'in' k" := (Py.bind m (fun p => k))
  (at level 10, p pattern, m at level 100, k at level 200) : py_scope.
#[local] Open Scope py_scope.

(* ===================================================================== *)
(** ** Floating-point scalars                                             *)
(* ===================================================================== *)

(** [np.float32] is IEEE-754 binary32 (24-bit significand, emax 128) and a
    Python [float] is binary64; both are values of [spec_float], with the
    operations of [SpecFloat] at the format's precision (round to nearest,
    ties to even). *)

Inductive DType : Type := float32 | float64.

Definition dtype_eqb (d1 d2 : DType) : bool :=
  match d1, d2 with
  | float32, float32 | float64, float64 => true
  | _, _ => false
  end.

Definition prec_of (d : DType) : Z := match d with float32 => 24 | float64 => 53 end.
Definition emax_of (d : DType) : Z := match d with float32 => 128 | float64 => 1024 end.

(** [dtype.itemsize], in bytes. *)
Definition itemsize (d : DType) : nat := match d with float32 => 4 | float64 => 8 end.

(** Type promotion between the two float kinds. *)
Definition result_type (d1 d2 : DType) : DType :=
  match d1, d2 with
  | float32, float32 => float32
  | _, _ => float64
  end.

(** Rounding of a float to the format [d] (exact when widening). *)
Definition cast (d : DType) (x : spec_float) : spec_float :=
  match x with
  | S754_finite s m e =>
      binary_normalize (prec_of d) (emax_of d) (cond_Zopp s (Zpos m)) e s
  | _ => x
  end.

Definition fadd (d : DType) := SFadd (prec_of d) (emax_of d).
Definition fsub (d : DType) := SFsub (prec_of d) (emax_of d).
Definition fmul (d : DType) := SFmul (prec_of d) (emax_of d).
Definition fdiv (d : DType) := SFdiv (prec_of d) (emax_of d).

Definition fzero : spec_float := S754_zero false.

(** [np.maximum] on two scalars: a NaN operand wins; of two equal
    operands the first is kept. *)
Definition fmax (x y : spec_float) : spec_float :=
  match x, y with
  | S754_nan, _ => S754_nan
  | _, S754_nan => S754_nan
  | _, _ => if SFltb x y then y else x
  end.

(** [float(n)] for a Python int: correctly rounded to binary64,
    [OverflowError] when out of range. *)
Definition float_of_int (z : Z) : result spec_float :=
  match binary_normalize 53 1024 z 0 false with
  | S754_infinity _ => raise OverflowError "int too large to convert to float"
  | x => Ok x
  end.

(** An int literal as a float32 (through the C double, then rounded). *)
Definition f32 (z : Z) : spec_float :=
  cast float32 (binary_normalize 53 1024 z 0 false).

(* ===================================================================== *)
(** ** Backend arrays                                                     *)
(* ===================================================================== *)

(** A backend array is represented by its dtype, its shape and its
    contents in row-major (C) order. Views and strides of the backend are
    not observable through [Tensor], whose constructor copies, so an array
    stands for its logical contents. A NumPy scalar ([np.float32(x)], as
    returned by [np.dot] on vectors or by a full reduction) is represented
    by the 0-dimensional array holding it: the two convert identically
    under [np.array]. Index arithmetic is over unbounded naturals. *)
Record ndarray : Type := mk_ndarray {
  nd_dtype : DType;
  nd_shape : list nat;
  nd_data  : list spec_float
}.

(** Number of elements of a shape. *)
Definition numel (s : list nat) : nat := fold_right Nat.mul 1%nat s.

(** Well-formed: as many elements as the shape says. *)
Definition wf (a : ndarray) : Prop := length (nd_data a) = numel (nd_shape a).

Definition wfb (a : ndarray) : bool := Nat.eqb (length (nd_data a)) (numel (nd_shape a)).

(** Row-major strides (in elements) of a shape. *)
Fixpoint strides (s : list nat) : list nat :=
  match s with
  | [] => []
  | _ :: s' => numel s' :: strides s'
  end.

(** Multi-index of the flat position [k] in shape [s]. *)
Fixpoint unravel (s : list nat) (k : nat) : list nat :=
  match s with
  | [] => []
  | _ :: s' => (k / numel s')%nat :: unravel s' (k mod numel s')%nat
  end.

(** Offset of a multi-index under the given strides. *)
Fixpoint dotp (idx st : list nat) : nat :=
  match idx, st with
  | i :: idx', t :: st' => (i * t + dotp idx' st')%nat
  | _, _ => 0%nat
  end.

(** The contents read through shape [s] and strides [st]: the elements in
    row-major order of [s], each fetched at its strided offset. *)
Definition gather (s st : list nat) (d : list spec_float) : list spec_float :=
  map (fun k => nth (dotp (unravel s k) st) d fzero) (seq 0 (numel s)).

(** The [i]-th block of [len] consecutive elements. *)
Definition chunk (i len : nat) (d : list spec_float) : list spec_float :=
  firstn len (skipn (i * len) d).

(* ===================================================================== *)
(** ** The Tensor object and Python values                                *)
(* ===================================================================== *)

(** The instance attributes set by [Tensor.__init__]. *)
Record Tensor : Type := mkTensor {
  data  : ndarray;
  shape : list nat;
  size  : nat;
  dtype : DType
}.

(** The Python values that reach the constructor and the operators: ints,
    floats, nested lists or tuples, backend arrays (and backend scalars, as
    0-d arrays), and Tensor instances. *)
#[warnings="-register-all"]
Inductive pyobj : Type :=
| PyInt (z : Z)
| PyFloat (x : spec_float)
| PySeq (l : list pyobj)
| NpArray (a : ndarray)
| TensorObj (t : Tensor).

Definition shape_Z (s : list nat) : list Z := map Z.of_nat s.

(* ===================================================================== *)
(** ** The backend functions called by [Tensor]                           *)
(* ===================================================================== *)

Module np.

Definition ndim (a : ndarray) : nat := length (nd_shape a).

(** [a.size]. *)
Definition size (a : ndarray) : nat := numel (nd_shape a).

(** [a.nbytes = a.size * a.itemsize]. *)
Definition nbytes (a : ndarray) : nat := (size a * itemsize (nd_dtype a))%nat.

(** [a.astype(d)]: a copy, converted when the dtype changes. *)
Definition astype (d : DType) (a : ndarray) : ndarray :=
  if dtype_eqb d (nd_dtype a) then a
  else mk_ndarray d (nd_shape a) (map (cast d) (nd_data a)).

(** The largest value of the backend's index type ([npy_intp], 64 bits). *)
Definition max_intp : Z := 9223372036854775807.

(** Arithmetic in the backend's default integer type, int64, wraps around. *)
Definition wrap64 (z : Z) : Z :=
  (z + 9223372036854775808) mod 18446744073709551616 - 9223372036854775808.

(** [np.prod] of a tuple of ints that each fit an int64 (the only ints the
    backend accepts as extents): the tuple becomes an int64 array and the
    product is taken in that type, so it wraps around without an error. A
    tuple holding an int beyond int64 gets another element type and is
    outside this definition. *)
Definition prod (l : list Z) : Z := fold_left (fun acc d => wrap64 (acc * d)) l 1.

(** Shapes as the backend prints them in its messages: [(2,3)], [(4,)].
    A negative entry stands for an axis to be filled in: it reads
    [newaxis], and is left out altogether in leading position. *)
Fixpoint join_dims (l : list Z) : string :=
  match l with
  | [] => ""%string
  | z :: l' =>
      ("," ++ (if Z.ltb z 0 then "newaxis" else str_int z) ++ join_dims l')%string
  end.

Fixpoint skip_newaxis (l : list Z) : list Z :=
  match l with
  | [] => []
  | z :: l' => if z <? 0 then skip_newaxis l' else l
  end.

Definition repr_shape (l : list Z) : string :=
  match skip_newaxis l with
  | [] => "()"%string
  | z :: rest =>
      if Nat.eqb (length l) 1 then ("(" ++ str_int z ++ ",)")%string
      else ("(" ++ str_int z ++ join_dims rest ++ ")")%string
  end.

Fixpoint shape_eqb (s1 s2 : list nat) : bool :=
  match s1, s2 with
  | [], [] => true
  | d1 :: s1', d2 :: s2' => Nat.eqb d1 d2 && shape_eqb s1' s2'
  | _, _ => false
  end.

(** *** Array construction *)

(** [np.array] first discovers the shape: it walks the nested sequences
    depth first, left to right, and keeps the depth [dc_max] of the
    result, the extents [dc_shape], whether a leaf has fixed the depth
    ([dc_reached]) and whether the nesting is ragged ([dc_ragged]). The
    first path down to a leaf records the extents; everything met later is
    compared with them, and a difference cuts the depth back to where it
    occurs. (The backend's limit on the nesting depth is not modelled.) *)
Record discovery : Type := mk_discovery {
  dc_max : option nat;
  dc_shape : list nat;
  dc_reached : bool;
  dc_ragged : bool
}.

Definition set_ragged (st : discovery) : discovery :=
  mk_discovery (dc_max st) (dc_shape st) (dc_reached st) true.

(** Writing extent [v] at depth [pos]. *)
Definition store (pos v : nat) (l : list nat) : list nat :=
  if Nat.ltb pos (length l) then <[pos := v]> l
  else (l ++ repeat 0%nat (pos - length l) ++ [v])%list.

Fixpoint record (pos : nat) (new out : list nat) : list nat :=
  match new with
  | [] => out
  | d :: new' => record (S pos) new' (store pos d out)
  end.

(** The depth of the first extent of [new] that differs from the recorded
    one. *)
Fixpoint first_clash (pos : nat) (new out : list nat) : option nat :=
  match new with
  | [] => None
  | d :: new' =>
      if Nat.eqb d (nth pos out 0%nat) then first_clash (S pos) new' out
      else Some pos
  end.

(** One object with extents [new] met at depth [curr]: a sequence
    ([sequence = true], [new] its length) or a leaf (a scalar, [new = []],
    or an array with its shape). Returns the new state and whether the
    object fits what was seen so far. *)
Definition update_shape (curr : nat) (new : list nat) (sequence : bool)
    (st : discovery) : discovery * bool :=
  let deep := (curr + length new)%nat in
  let fits := match dc_max st with Some m => Nat.leb deep m | None => true end in
  let new' := match dc_max st with Some m => firstn (m - curr)%nat new | None => new end in
  let shrink :=
    fits && negb sequence
    && negb (match dc_max st with Some m => Nat.eqb m deep | None => false end) in
  let max1 := if shrink then Some deep else dc_max st in
  let ok1 := fits && negb (shrink && dc_reached st) in
  if dc_reached st then
    match first_clash curr new' (dc_shape st) with
    | Some pos => (mk_discovery (Some pos) (dc_shape st) true (dc_ragged st), false)
    | None => (mk_discovery max1 (dc_shape st) true (dc_ragged st), ok1)
    end
  else
    (mk_discovery max1 (record curr new' (dc_shape st)) (negb sequence) (dc_ragged st),
     ok1).

(** A leaf at depth [curr]. *)
Definition visit_leaf (curr : nat) (new : list nat) (st : discovery) : discovery :=
  let r := update_shape curr new false st in
  if snd r then fst r else set_ragged (fst r).

(** The walk. A sequence met at the depth already fixed for the leaves is
    taken as a leaf and makes the nesting ragged; one whose length differs
    from the recorded extent is not entered; an empty one fixes the
    depth. Python numbers and arbitrary objects are scalar leaves. *)
Fixpoint visit (curr : nat) (o : pyobj) (st : discovery) : discovery :=
  match o with
  | PyInt _ | PyFloat _ | TensorObj _ => visit_leaf curr [] st
  | NpArray a => visit_leaf curr (nd_shape a) st
  | PySeq l =>
      if match dc_max st with Some m => Nat.eqb curr m | None => false end
      then set_ragged (visit_leaf curr [] st)
      else
        let r := update_shape curr [length l] true st in
        if negb (snd r) then set_ragged (fst r)
        else
          match l with
          | [] => mk_discovery (Some (S curr)) (dc_shape (fst r)) true (dc_ragged (fst r))
          | _ => fold_left (fun st o => visit (S curr) o st) l (fst r)
          end
  end.

Definition discovered (o : pyobj) : discovery :=
  visit 0 o (mk_discovery None [] false false).

(** A shape as Python prints a tuple: [()], [(2,)], [(2, 3)]. *)
Fixpoint join_tuple (l : list nat) : string :=
  match l with
  | [] => ""%string
  | [d] => str_int (Z.of_nat d)
  | d :: l' => (str_int (Z.of_nat d) ++ ", " ++ join_tuple l')%string
  end.

Definition repr_tuple (l : list nat) : string :=
  match l with
  | [d] => ("(" ++ str_int (Z.of_nat d) ++ ",)")%string
  | _ => ("(" ++ join_tuple l ++ ")")%string
  end.

(** The error for a ragged nesting: it tells the depth down to which the
    extents agree, and those extents. *)
Definition inhomogeneous (o : pyobj) : exn :=
  let st := discovered o in
  let nd := match dc_max st with Some m => m | None => 0%nat end in
  Exn ValueError
    ("setting an array element with a sequence. The requested array has an inhomogeneous shape after "
     ++ str_int (Z.of_nat nd) ++ " dimensions. The detected shape was "
     ++ repr_tuple (firstn nd (dc_shape st)) ++ " + inhomogeneous part.").

(** A sequence of sub-arrays becomes one array with a new leading axis;
    the sub-arrays must agree in shape, or the nesting is [ragged]. The
    empty sequence is the empty float64 vector. *)
Definition stack (ragged : exn) (l : list ndarray) : result ndarray :=
  match l with
  | [] => Ok (mk_ndarray float64 [0%nat] [])
  | a :: l' =>
      if forallb (fun b => shape_eqb (nd_shape b) (nd_shape a)) l' then
        let d := fold_right (fun b acc => result_type (nd_dtype b) acc) (nd_dtype a) l' in
        Ok (mk_ndarray d (length l :: nd_shape a)
              (concat (map (fun b => nd_data (astype d b)) l)))
      else Raise ragged
  end.

(** The conversion of the elements, which follows the discovery of the
    shape. Python numbers are 64-bit leaves (an int is held by its
    conversion to a double, which is what every float operation on it
    sees); arrays keep their dtype. An arbitrary object such as a Tensor
    is a scalar leaf: [Tensor] defines [__getitem__] but neither
    [__len__], [__array__] nor [__float__], so it is neither unpacked nor
    convertible, and [on_object] is raised. *)
Fixpoint discover (ragged on_object : exn) (o : pyobj) : result ndarray :=
  match o with
  | PyInt z => let! x := float_of_int z in Ok (mk_ndarray float64 [] [x])
  | PyFloat x => Ok (mk_ndarray float64 [] [x])
  | NpArray a => Ok a
  | TensorObj _ => Raise on_object
  | PySeq l =>
      let! subs :=
        (fix each (l : list pyobj) : result (list ndarray) :=
           match l with
           | [] => Ok []
           | o :: r => let! a := discover ragged on_object o in
                       let! r' := each r in Ok (a :: r')
           end) l in
      stack ragged subs
  end.

(** [np.array(obj, dtype=dt)]; [dt = None] keeps the discovered dtype. A
    ragged nesting is refused before any element is converted. With a
    float dtype an object leaf cannot be stored. Without one the backend
    would box it in an object array, which has no representation here and
    fails at its first numeric use; that failure is reported at once. *)
Definition array (obj : pyobj) (dt : option DType) : result ndarray :=
  if dc_ragged (discovered obj) then Raise (inhomogeneous obj)
  else
    match dt with
    | Some d =>
        let! a := discover (inhomogeneous obj)
                    (Exn ValueError "setting an array element with a sequence.") obj in
        Ok (astype d a)
    | None =>
        discover (inhomogeneous obj)
          (Exn TypeError "unsupported operand type(s): 'float' and 'Tensor'") obj
    end.

(** *** Broadcasting and element-wise arithmetic *)

(** Broadcast of two shapes given last axis first. *)
Fixpoint broadcast_rev (r1 r2 : list nat) : option (list nat) :=
  match r1, r2 with
  | [], r => Some r
  | r, [] => Some r
  | d1 :: r1', d2 :: r2' =>
      match broadcast_rev r1' r2' with
      | None => None
      | Some r =>
          if Nat.eqb d1 d2 then Some (d1 :: r)
          else if Nat.eqb d1 1 then Some (d2 :: r)
          else if Nat.eqb d2 1 then Some (d1 :: r)
          else None
      end
  end.

Definition broadcast_shapes (s1 s2 : list nat) : option (list nat) :=
  option_map (@rev nat) (broadcast_rev (rev s1) (rev s2)).

(** Strides that read an array of shape [s_in] as if it had the
    broadcast shape [s_out]: stride 0 along added and stretched axes. *)
Definition bstrides (s_out s_in : list nat) : list nat :=
  (repeat 0%nat (length s_out - length s_in)
   ++ map (fun dt => if Nat.eqb (fst dt) 1 then 0%nat else snd dt)
        (combine s_in (strides s_in)))%list.

Definition broadcast_to (s_out : list nat) (a : ndarray) : list spec_float :=
  gather s_out (bstrides s_out (nd_shape a)) (nd_data a).

(** A binary ufunc on two arrays. *)
Definition ufunc2 (f : DType -> spec_float -> spec_float -> spec_float)
    (a b : ndarray) : result ndarray :=
  match broadcast_shapes (nd_shape a) (nd_shape b) with
  | None =>
      raise ValueError
        ("operands could not be broadcast together with shapes "
         ++ repr_shape (shape_Z (nd_shape a)) ++ " "
         ++ repr_shape (shape_Z (nd_shape b)) ++ " ")
  | Some s =>
      let d := result_type (nd_dtype a) (nd_dtype b) in
      Ok (mk_ndarray d s
            (map (fun xy => f d (fst xy) (snd xy))
               (combine (broadcast_to s (astype d a))
                        (broadcast_to s (astype d b)))))
  end.

(** [a (op) other] for an array [a] and a Python value: a Python number
    is a weak scalar and takes the array's dtype; anything else goes
    through [np.array]. *)
Definition binop (f : DType -> spec_float -> spec_float -> spec_float)
    (a : ndarray) (other : pyobj) : result ndarray :=
  match other with
  | PyInt z =>
      let! x := float_of_int z in
      ufunc2 f a (mk_ndarray (nd_dtype a) [] [cast (nd_dtype a) x])
  | PyFloat x =>
      ufunc2 f a (mk_ndarray (nd_dtype a) [] [cast (nd_dtype a) x])
  | _ =>
      let! b := array other None in ufunc2 f a b
  end.

Definition add := ufunc2 fadd.
Definition subtract := ufunc2 fsub.
Definition multiply := ufunc2 fmul.
Definition divide := ufunc2 fdiv.

(** *** Inner products and matrix multiplication *)

(** The inner product of two vectors as this development evaluates it: an
    accumulator that starts at zero and adds the products in index order,
    every operation rounded to the dtype. The backend hands inner products
    to its BLAS, which is free to group the additions otherwise, to fuse a
    product with an addition, or to accumulate more precisely, and does so
    differently for [np.dot] and for [np.matmul]; the value of a cell is
    therefore the backend's only where the arithmetic is exact. The
    properties of [matmul] proved below concern shapes, errors and the
    invariant, never the rounding of a cell. *)
Definition kernel (d : DType) (u v : list spec_float) : spec_float :=
  fold_left (fun acc xy => fadd d acc (fmul d (fst xy) (snd xy)))
    (combine u v) fzero.

(** Column [j] of a row-major [K x M] matrix. *)
Definition column (K M j : nat) (mat : list spec_float) : list spec_float :=
  map (fun k => nth (k * M + j)%nat mat fzero) (seq 0 K).

(** The product of a row-major [n x K] by a [K x m] matrix. *)
Definition mat_mul (d : DType) (n K m : nat) (A B : list spec_float)
  : list spec_float :=
  flat_map (fun i => map (fun j => kernel d (chunk i K A) (column K m j B))
                       (seq 0 m))
           (seq 0 n).

(** A shape of rank >= 2 as (leading axes, last-but-one, last). *)
Definition split_last2 (s : list nat) : option (list nat * nat * nat) :=
  match rev s with
  | m :: n :: b => Some (rev b, n, m)
  | _ => None
  end.

Definition too_few_dims (operand : Z) : exn :=
  Exn ValueError
    ("matmul: Input operand " ++ str_int operand
     ++ " does not have enough dimensions (has 0, gufunc core with signature (n?,k),(k,m?)->(n?,m?) requires 1)").

Definition core_mismatch (ka kb : nat) : exn :=
  Exn ValueError
    ("matmul: Input operand 1 has a mismatch in its core dimension 0, with gufunc signature (n?,k),(k,m?)->(n?,m?) (size "
     ++ str_int (Z.of_nat kb) ++ " is different from "
     ++ str_int (Z.of_nat ka) ++ ")").

(** [np.matmul(a, b)]: a vector operand is promoted to a matrix (a row on
    the left, a column on the right) and the added axis is dropped from
    the result; the last two axes are multiplied as matrices and the
    leading axes are broadcast. *)
Definition matmul (a b : ndarray) : result ndarray :=
  match nd_shape a, nd_shape b with
  | [], _ => Raise (too_few_dims 0)
  | _, [] => Raise (too_few_dims 1)
  | sa, sb =>
      let sa2 := match sa with [k] => [1%nat; k] | _ => sa end in
      let sb2 := match sb with [k] => [k; 1%nat] | _ => sb end in
      match split_last2 sa2, split_last2 sb2 with
      | Some (ba, n, ka), Some (bb, kb, m) =>
          if negb (Nat.eqb ka kb) then Raise (core_mismatch ka kb)
          else
            match broadcast_shapes ba bb with
            | None =>
                raise ValueError
                  "operands could not be broadcast together with remapped shapes [original->remapped]"
            | Some batch =>
                let d := result_type (nd_dtype a) (nd_dtype b) in
                let A := nd_data (astype d a) in
                let B := nd_data (astype d b) in
                let core :=
                  ((if Nat.eqb (ndim a) 1 then [] else [n])
                   ++ (if Nat.eqb (ndim b) 1 then [] else [m]))%list in
                Ok (mk_ndarray d (batch ++ core)
                      (flat_map
                         (fun k =>
                            let idx := unravel batch k in
                            mat_mul d n ka m
                              (chunk (dotp idx (bstrides batch ba)) (n * ka) A)
                              (chunk (dotp idx (bstrides batch bb)) (kb * m) B))
                         (seq 0 (numel batch))))
            end
      | _, _ => raise ValueError "matmul: operand without a core dimension"
      end
  end.

Definition not_aligned (sa sb : list nat) (ka kb : nat) : exn :=
  Exn ValueError
    ("shapes " ++ repr_shape (shape_Z sa) ++ " and " ++ repr_shape (shape_Z sb)
     ++ " not aligned: " ++ str_int (Z.of_nat ka)
     ++ " (dim " ++ str_int (Z.of_nat (length sa - 1)) ++ ") != "
     ++ str_int (Z.of_nat kb)
     ++ " (dim " ++ str_int (Z.of_nat (length sb - 2)) ++ ")").
(* [length sb - 2] is 0 for a vector [sb], its only axis. *)

(** [np.dot(a, b)]: scalar multiplication when an operand is 0-d; the
    inner product of two vectors; otherwise the sum over the last axis of
    [a] and the last-but-one axis of [b] (the only axis of a vector
    [b]). The inner product of two vectors is a backend scalar. *)
Definition dot (a b : ndarray) : result ndarray :=
  let d := result_type (nd_dtype a) (nd_dtype b) in
  let A := nd_data (astype d a) in
  let B := nd_data (astype d b) in
  match rev (nd_shape a), nd_shape b with
  | [], _ => multiply a b
  | _, [] => multiply a b
  | ka :: pa, [kb] =>
      if Nat.eqb ka kb then
        Ok (mk_ndarray d (rev pa)
              (map (fun i => kernel d (chunk i ka A) B) (seq 0 (numel (rev pa)))))
      else Raise (not_aligned (nd_shape a) [kb] ka kb)
  | ka :: pa, sb =>
      match split_last2 sb with
      | Some (pb, kb, m) =>
          if Nat.eqb ka kb then
            Ok (mk_ndarray d (rev pa ++ pb ++ [m])
                  (flat_map
                     (fun i =>
                        flat_map
                          (fun j =>
                             map (fun c => kernel d (chunk i ka A)
                                             (column kb m c (chunk j (kb * m) B)))
                                 (seq 0 m))
                          (seq 0 (numel pb)))
                     (seq 0 (numel (rev pa)))))
          else Raise (not_aligned (nd_shape a) sb ka kb)
      | None => raise ValueError "dot: operand without a core dimension"
      end
  end.

(** *** Basic indexing *)

(** One component of a subscript: an int (one that fits the index type),
    or the full slice [:]. *)
Inductive index : Type := Idx (i : Z) | Slice_all.

Definition too_many_indices (nd n : nat) : exn :=
  Exn IndexError
    ("too many indices for array: array is " ++ str_int (Z.of_nat nd)
     ++ "-dimensional, but " ++ str_int (Z.of_nat n) ++ " were indexed").

(** The view selected by a subscript, as (offset, shape, strides);
    [too_many] is what a subscript longer than the shape raises. *)
Fixpoint index_view (too_many : exn) (key : list index) (axis : nat)
    (s st : list nat) : result (nat * list nat * list nat) :=
  match key, s, st with
  | [], _, _ => Ok (0%nat, s, st)
  | Idx i :: key', n :: s', t :: st' =>
      match norm_index n i with
      | Some k =>
          let! v := index_view too_many key' (S axis) s' st' in
          Ok ((k * t + fst (fst v))%nat, snd (fst v), snd v)
      | None =>
          raise IndexError
            ("index " ++ str_int i ++ " is out of bounds for axis "
             ++ str_int (Z.of_nat axis) ++ " with size " ++ str_int (Z.of_nat n))
      end
  | Slice_all :: key', n :: s', t :: st' =>
      let! v := index_view too_many key' (S axis) s' st' in
      Ok (fst (fst v), n :: snd (fst v), t :: snd v)
  | _ :: _, _, _ => Raise too_many
  end.

(** [a[key]] for a subscript made of ints and full slices: the number of
    components is checked first, then each int against its axis, in
    order. *)
Definition getitem (a : ndarray) (key : list index) : result ndarray :=
  let too_many := too_many_indices (ndim a) (length key) in
  if Nat.ltb (ndim a) (length key)
  then Raise too_many
  else
    let! v := index_view too_many key 0 (nd_shape a) (strides (nd_shape a)) in
    Ok (mk_ndarray (nd_dtype a) (snd (fst v))
          (gather (snd (fst v)) (snd v) (skipn (fst (fst v)) (nd_data a)))).

(** *** Shape manipulation *)

Definition reshape_mismatch (a : ndarray) (newshape : list Z) : exn :=
  Exn ValueError
    ("cannot reshape array of size " ++ str_int (Z.of_nat (size a))
     ++ " into shape " ++ repr_shape newshape).

(** The scan of the requested extents, in order: the product [s_known] of
    the non-negative ones, taken in the index type (an overflow is
    reported as a mismatch), and whether a negative one, the unknown
    extent, was met (a second one is an error). *)
Fixpoint known_size (mismatch : exn) (dims : list Z) (s_known : Z) (unknown : bool)
  : result (Z * bool) :=
  match dims with
  | [] => Ok (s_known, unknown)
  | d :: dims' =>
      if d <? 0 then
        if unknown then raise ValueError "can only specify one unknown dimension"
        else known_size mismatch dims' s_known true
      else if max_intp <? s_known * d then Raise mismatch
      else known_size mismatch dims' (s_known * d) unknown
  end.

(** The size in bytes that the backend computes for a shape before it
    makes an array of it: the item size times the extents, an extent of 0
    counting as 1. *)
Definition alloc_bytes (d : DType) (s : list Z) : Z :=
  Z.of_nat (itemsize d) * fold_right Z.mul 1 (List.filter (fun x => negb (x =? 0)) s).

(** The largest number of axes of an array ([NPY_MAXDIMS]; it was 32
    before version 2 of the backend). *)
Definition maxdims : nat := 64.

(** [a.reshape(newshape)]: there must be no more axes than the backend
    supports and every entry must fit the index type; a negative entry
    stands for the unknown extent and at most one is allowed; the element
    count must be preserved; and the new shape must be within the size
    the backend can address. The contents keep their row-major order. *)
Definition reshape (a : ndarray) (newshape : list Z) : result ndarray :=
  if Nat.ltb maxdims (length newshape)
  then raise ValueError
         ("maximum supported dimension for an ndarray is currently "
          ++ str_int (Z.of_nat maxdims) ++ ", found "
          ++ str_int (Z.of_nat (length newshape)))
  else if negb (forallb index_sized newshape)
  then raise ValueError "Maximum allowed dimension exceeded"
  else
    let mismatch := reshape_mismatch a newshape in
    let n := Z.of_nat (size a) in
    let! ku := known_size mismatch newshape 1 false in
    let! dims :=
      (if snd ku then
         if (fst ku =? 0) || negb (n mod fst ku =? 0) then Raise mismatch
         else Ok (map (fun d => if d <? 0 then n / fst ku else d) newshape)
       else if n =? fst ku then Ok newshape else Raise mismatch) in
    if alloc_bytes (nd_dtype a) dims <=? max_intp
    then Ok (mk_ndarray (nd_dtype a) (map Z.to_nat dims) (nd_data a))
    else raise ValueError
           "array is too big; `arr.size * arr.dtype.itemsize` is larger than the maximum possible size.".

(** [np.transpose(a, axes)]: axis [i] of the result is axis [axes[i]] of
    [a]; [axes] must be a permutation of the axes of [a]. *)
Definition transpose (a : ndarray) (axes : list nat) : result ndarray :=
  if negb (Nat.eqb (length axes) (ndim a))
  then raise ValueError "axes don't match array"
  else if existsb (fun ax => Nat.leb (ndim a) ax) axes
  then raise AxisError "axis is out of bounds for array"
  else if negb (bool_decide (NoDup axes))
  then raise ValueError "repeated axis in transpose"
  else
    let s' := map (fun ax => nth ax (nd_shape a) 0%nat) axes in
    let st' := map (fun ax => nth ax (strides (nd_shape a)) 0%nat) axes in
    Ok (mk_ndarray (nd_dtype a) s' (gather s' st' (nd_data a))).

(** *** Reductions *)

(** The [axis] argument: [None], an int, or a tuple of ints. *)
Inductive axis_arg : Type :=
| AxisNone
| AxisInt (z : Z)
| AxisTuple (l : list Z).

Definition axis_error (z : Z) (nd : nat) : exn :=
  Exn AxisError
    ("axis " ++ str_int z ++ " is out of bounds for array of dimension "
     ++ str_int (Z.of_nat nd)).

Fixpoint norm_axes (nd : nat) (l : list Z) : result (list nat) :=
  match l with
  | [] => Ok []
  | z :: l' =>
      match norm_index nd z with
      | None => Raise (axis_error z nd)
      | Some k => let! r := norm_axes nd l' in Ok (k :: r)
      end
  end.

(** The axes to reduce, as [ufunc.reduce] validates its [axis] argument
    (ints that fit a C int). On a 0-d array the ints 0 and -1 are let
    through, for backward compatibility, and reduce over no axis. *)
Definition reduced_axes (nd : nat) (axis : axis_arg) : result (list nat) :=
  match axis with
  | AxisNone => Ok (seq 0 nd)
  | AxisInt z =>
      if Nat.eqb nd 0 && ((z =? 0) || (z =? -1)) then Ok []
      else norm_axes nd [z]
  | AxisTuple l =>
      let! r := norm_axes nd l in
      if bool_decide (NoDup r) then Ok r
      else raise ValueError "duplicate value in 'axis'"
  end.

(** The axes along which [np.mean] counts the elements before it sums:
    each one must be in range, on a 0-d array as well. *)
Definition counted_axes (nd : nat) (axis : axis_arg) : result (list nat) :=
  match axis with
  | AxisNone => Ok (seq 0 nd)
  | AxisInt z => norm_axes nd [z]
  | AxisTuple l => norm_axes nd l
  end.

(** A reduction with the per-cell function [f]: every cell of the result
    receives the elements it summarises, in row-major order of the
    reduced axes. With [keepdims] the reduced axes stay, with extent 1. *)
Definition reduce (f : list spec_float -> spec_float) (axes : list nat)
    (keepdims : bool) (a : ndarray) : ndarray :=
  let s := nd_shape a in
  let st := strides s in
  let is_red i := existsb (Nat.eqb i) axes in
  let all := seq 0 (length s) in
  let kept := List.filter (fun i => negb (is_red i)) all in
  let red := List.filter is_red all in
  let ks := map (fun i => nth i s 0%nat) kept in
  let kst := map (fun i => nth i st 0%nat) kept in
  let rs := map (fun i => nth i s 0%nat) red in
  let rst := map (fun i => nth i st 0%nat) red in
  let cell o :=
    f (map (fun r => nth (dotp (unravel ks o) kst + dotp (unravel rs r) rst)%nat
                       (nd_data a) fzero)
           (seq 0 (numel rs))) in
  mk_ndarray (nd_dtype a)
    (if keepdims then map (fun i => if is_red i then 1%nat else nth i s 0%nat) all
     else ks)
    (map cell (seq 0 (numel ks))).

(** Number of elements folded into each cell. *)
Definition reduced_count (axes : list nat) (a : ndarray) : nat :=
  numel (map (fun i => nth i (nd_shape a) 0%nat)
           (List.filter (fun i => existsb (Nat.eqb i) axes) (seq 0 (ndim a)))).

(** The sum of the elements of a cell, added in order from zero, and
    their maximum. As for inner products, the backend groups the additions
    of a long sum in its own way (in blocks, pairwise), and which of two
    zeros of opposite sign is their maximum is its choice: the values below
    are the backend's where the additions are exact and the zeros are not
    mixed. The properties of the reductions proved below concern shapes and
    errors, and the values of small integer examples. *)
Definition sum_cell (d : DType) (l : list spec_float) : spec_float :=
  fold_left (fadd d) l fzero.

Definition max_cell (l : list spec_float) : spec_float :=
  match l with
  | [] => fzero
  | x :: l' => fold_left fmax l' x
  end.

(** [np.sum(a, axis=axis, keepdims=keepdims)]. *)
Definition sum (a : ndarray) (axis : axis_arg) (keepdims : bool) : result ndarray :=
  let! axes := reduced_axes (ndim a) axis in
  Ok (reduce (sum_cell (nd_dtype a)) axes keepdims a).

(** [np.mean]: the sum divided by the number of reduced elements (NaN,
    with a warning only, when there are none). *)
Definition mean (a : ndarray) (axis : axis_arg) (keepdims : bool) : result ndarray :=
  let! _ := counted_axes (ndim a) axis in
  let! axes := reduced_axes (ndim a) axis in
  let d := nd_dtype a in
  let n := cast d (binary_normalize 53 1024 (Z.of_nat (reduced_count axes a)) 0 false) in
  Ok (reduce (fun l => fdiv d (sum_cell d l) n) axes keepdims a).

(** [np.max]: the maximum has no identity, so reducing along an axis of
    extent 0 is an error. *)
Definition max (a : ndarray) (axis : axis_arg) (keepdims : bool) : result ndarray :=
  let! axes := reduced_axes (ndim a) axis in
  if Nat.eqb (reduced_count axes a) 0
  then raise ValueError
         "zero-size array to reduction operation maximum which has no identity"
  else Ok (reduce max_cell axes keepdims a).

End np.

(* ===================================================================== *)
(** ** [class Tensor]                                                     *)
(* ===================================================================== *)

Module tensor.

(** [Tensor(data)]. *)
Definition __init__ (d : pyobj) : result Tensor :=
  let! a := np.array d (Some float32) in
  Ok {| data := a; shape := nd_shape a; size := np.size a; dtype := nd_dtype a |}.

(** [numpy()]. *)
Definition numpy (self : Tensor) : ndarray := data self.

Definition memory_footprint (self : Tensor) : nat := np.nbytes (data self).

(** The four operators: a Tensor operand is unwrapped and the result
    wrapped; any other operand is handed to the backend as it is. *)
Definition __add__ (self : Tensor) (other : pyobj) : result pyobj :=
  match other with
  | TensorObj o =>
      let! r := np.add (data self) (data o) in
      let! t := __init__ (NpArray r) in Ok (TensorObj t)
  | _ =>
      let! r := np.binop fadd (data self) other in Ok (NpArray r)
  end.

Definition __sub__ (self : Tensor) (other : pyobj) : result pyobj :=
  match other with
  | TensorObj o =>
      let! r := np.subtract (data self) (data o) in
      let! t := __init__ (NpArray r) in Ok (TensorObj t)
  | _ =>
      let! r := np.binop fsub (data self) other in Ok (NpArray r)
  end.

Definition __mul__ (self : Tensor) (other : pyobj) : result pyobj :=
  match other with
  | TensorObj o =>
      let! r := np.multiply (data self) (data o) in
      let! t := __init__ (NpArray r) in Ok (TensorObj t)
  | _ =>
      let! r := np.binop fmul (data self) other in Ok (NpArray r)
  end.

Definition __truediv__ (self : Tensor) (other : pyobj) : result pyobj :=
  match other with
  | TensorObj o =>
      let! r := np.divide (data self) (data o) in
      let! t := __init__ (NpArray r) in Ok (TensorObj t)
  | _ =>
      let! r := np.binop fdiv (data self) other in
      let! t := __init__ (NpArray r) in Ok (TensorObj t)
  end.

(** [for x in xs: body], threading the loop state. *)
Fixpoint for_in {A S : Type} (xs : list A) (body : A -> S -> result S) (s : S)
  : result S :=
  match xs with
  | [] => Ok s
  | x :: xs' => let! s' := body x s in for_in xs' body s'
  end.

Definition range (n : nat) : list Z := map Z.of_nat (seq 0 n).

(** The branch of [matmul] taken when [self.data.shape == (2,2)]: one
    [np.dot] of a row of [self] with a column of [other] per cell,
    collected in a list that is then reshaped to 2x2. *)
Definition matmul_2x2 (self other : Tensor) : result Tensor :=
  let! lst :=
    for_in (range 2)
      (fun i lst =>
         for_in (range 2)
           (fun j lst =>
              let! row := np.getitem (data self) [np.Idx i; np.Slice_all] in
              let! col := np.getitem (data other) [np.Slice_all; np.Idx j] in
              let! result := np.dot row col in
              Ok (lst ++ [NpArray result])%list)
           lst)
      [] in
  let! arr := np.array (PySeq lst) None in
  let! arr' := np.reshape arr [2; 2] in
  __init__ (NpArray arr').

Definition matmul (self : Tensor) (other : pyobj) : result Tensor :=
  match other with
  | TensorObj o =>
      if Nat.eqb (np.ndim (data o)) 0 then
        let! p := __mul__ self other in __init__ p
      else if Nat.eqb (np.ndim (data o)) 1 then
        let! r := np.matmul (data self) (data o) in __init__ (NpArray r)
      else
        let! k1 := tuple_getitem (shape self) (-1) in
        let! k2 := tuple_getitem (shape o) (-2) in
        if negb (Nat.eqb k1 k2) then
          raise ValueError
            ("Inner dimensions must match. " ++ str_int (Z.of_nat k1)
             ++ " ≠ " ++ str_int (Z.of_nat k2))
        else if np.shape_eqb (nd_shape (data self)) [2%nat; 2%nat] then
          matmul_2x2 self o
        else
          let! r := np.matmul (data self) (data o) in __init__ (NpArray r)
  | _ => raise TypeError "Both elements must be tensors"
  end.

Definition __matmul__ (self : Tensor) (other : pyobj) : result Tensor :=
  matmul self other.

(** [t[key]], for subscripts made of ints and full slices. *)
Definition __getitem__ (self : Tensor) (key : list np.index) : result Tensor :=
  let! v := np.getitem (data self) key in
  let! c := np.array (NpArray v) None in
  __init__ (NpArray c).

(** One positional argument of [reshape]: an int, or a tuple/list. *)
Inductive arg : Type := ArgInt (z : Z) | ArgSeq (l : list Z).

Definition is_minus_one (a : arg) : bool :=
  match a with ArgInt z => z =? -1 | ArgSeq _ => false end.

(** [size // x]. *)
Definition floordiv_arg (n : Z) (a : arg) : result Z :=
  match a with
  | ArgInt z => floordiv n z
  | ArgSeq _ => raise TypeError "unsupported operand type(s) for //: 'int' and 'tuple'"
  end.

(** An argument as the Python value it is. *)
Definition arg_obj (a : arg) : pyobj :=
  match a with
  | ArgInt z => PyInt z
  | ArgSeq l => PySeq (map PyInt l)
  end.

(** The ints of a shape tuple that starts with an int, as [np.prod], the
    first to read it, takes them; a tuple or list among the ints makes
    the nesting [ragged]. *)
Fixpoint ints_of (ragged : exn) (shape : list arg) : result (list Z) :=
  match shape with
  | [] => Ok []
  | ArgInt z :: r => let! r' := ints_of ragged r in Ok (z :: r')
  | ArgSeq _ :: _ => Raise ragged
  end.

Definition reshape (self : Tensor) (args : list arg) : result Tensor :=
  let shape := args in
  let! first := tuple_getitem shape 0 in
  let shape := match first with ArgSeq l => map ArgInt l | ArgInt _ => shape end in
  let! last := tuple_getitem shape (-1) in
  let! shape :=
    (if is_minus_one last then
       let! s0 := tuple_getitem shape 0 in
       let! unknown_dim := floordiv_arg (Z.of_nat (size self)) s0 in
       Ok [s0; ArgInt unknown_dim]
     else Ok shape) in
  let! dims := ints_of (np.inhomogeneous (PySeq (map arg_obj shape))) shape in
  if negb (Z.of_nat (np.size (data self)) =? np.prod dims) then
    raise ValueError
      ("Total elements must match. " ++ str_int (Z.of_nat (np.size (data self)))
       ++ " ≠ " ++ str_int (np.prod dims))
  else
    let! r := np.reshape (data self) dims in __init__ (NpArray r).

Definition transpose (self : Tensor) (dim0 dim1 : option Z) : result Tensor :=
  let axes := seq 0 (length (shape self)) in
  if Nat.eqb (length axes) 1 then Ok self
  else
    match dim0, dim1 with
    | None, None =>
        let! x := list_getitem axes (-1) in
        let! y := list_getitem axes (-2) in
        let! axes := list_setitem axes (-2) x in
        let! axes := list_setitem axes (-1) y in
        let! r := np.transpose (data self) axes in __init__ (NpArray r)
    | _, _ =>
        let! x := list_getitem_opt axes dim1 in
        let! y := list_getitem_opt axes dim0 in
        let! axes := list_setitem_opt axes dim0 x in
        let! axes := list_setitem_opt axes dim1 y in
        let! r := np.transpose (data self) axes in __init__ (NpArray r)
    end.

Definition sum (self : Tensor) (axis : np.axis_arg) (keepdims : bool)
  : result Tensor :=
  let! r := np.sum (data self) axis keepdims in __init__ (NpArray r).

Definition mean (self : Tensor) (axis : np.axis_arg) (keepdims : bool)
  : result Tensor :=
  let! result := np.mean (data self) axis keepdims in __init__ (NpArray result).

Definition max (self : Tensor) (axis : np.axis_arg) (keepdims : bool)
  : result Tensor :=
  let! result := np.max (data self) axis keepdims in __init__ (NpArray result).

End tensor.

(** A Tensor as the constructor leaves it. *)
Definition valid (t : Tensor) : Prop :=
  wf (data t) /\ nd_dtype (data t) = float32 /\
  shape t = nd_shape (data t) /\ size t = np.size (data t) /\ dtype t = float32.

(** A Python value whose backend arrays are all well-formed. *)
Fixpoint obj_wf (o : pyobj) : Prop :=
  match o with
  | NpArray a => wf a
  | PySeq l =>
      (fix all (l : list pyobj) : Prop :=
         match l with
         | [] => True
         | o :: r => obj_wf o /\ all r
         end) l
  | _ => True
  end.

(** [Tensor([z1, ..., zn])] arguments: a list of int literals. *)
Definition ints (l : list Z) : pyobj := PySeq (map PyInt l).

(** The method call [e.m(...)] on the result of an expression [e]. *)
Notation "e '|>' m" := (Py.bind e m) (at level 50, left associativity) : py_scope.

(** A float32 tensor with the given shape and int contents, spelled out. *)
Definition lit (s : list nat) (l : list Z) : Tensor :=
  mkTensor (mk_ndarray float32 s (map f32 l)) s (numel s) float32.

(** [Tensor([[1,2],[3,4]])] *)
Definition t_1234 : Tensor := lit [2%nat; 2%nat] [1; 2; 3; 4].
(** [Tensor([1,2,3])] *)
Definition t_123 : Tensor := lit [3%nat] [1; 2; 3].
(** [Tensor(list(range(6)))] *)
Definition t_range6 : Tensor := lit [6%nat] [0; 1; 2; 3; 4; 5].
(** [Tensor(5)], of rank 0 *)
Definition t_scalar : Tensor := lit [] [5].
(** [Tensor([])], with no element *)
Definition t_empty : Tensor := lit [0%nat] [].
(** [Tensor([[1,2],[3,4],[5,6]])], of shape (3,2) *)
Definition t_3x2 : Tensor := lit [3%nat; 2%nat] [1; 2; 3; 4; 5; 6].

(** An axis pair accepted by [transpose] on a tensor of rank [n]: both
    omitted, or both subscripts of a list of length [n]. *)
Definition axis_pair (n : nat) (dim0 dim1 : option Z) : Prop :=
  match dim0, dim1 with
  | None, None => True
  | Some i, Some j =>
      - Z.of_nat n <= i < Z.of_nat n /\ - Z.of_nat n <= j < Z.of_nat n
  | _, _ => False
  end.

(** Reading a list through a list of positions, as [np.transpose] reads
    the shape and the strides through [axes]. *)
Definition permute (axes l : list nat) : list nat :=
  map (fun ax => nth ax l 0%nat) axes.

(** [axes] lists the [n] axes in an order that is its own inverse. *)
Record involution (n : nat) (axes : list nat) : Prop := {
  inv_length : length axes = n;
  inv_bound : forall i, (i < n)%nat -> (nth i axes 0 < n)%nat;
  inv_twice : forall i, (i < n)%nat -> nth (nth i axes 0%nat) axes 0%nat = i
}.

(** The axis list after [axes[i], axes[j] = axes[j], axes[i]] on
    [list(range(n))]. *)
Definition swapped (n i j : nat) : list nat :=
  <[j := i]> (<[i := j]> (seq 0 n)).

(** A shape of non-negative integers. *)
Definition nonneg (s : list Z) : Prop := Forall (fun d => 0 <= d) s.

(** The two ways of passing the target shape [s] to [reshape]: one tuple,
    or one argument per dimension. *)
Inductive spelled (s : list Z) : list tensor.arg -> Prop :=
| spelled_tuple : spelled s [tensor.ArgSeq s]
| spelled_flat : spelled s (map tensor.ArgInt s).

(** A subscript whose ints all fit the backend's index type. *)
Definition machine_key (key : list np.index) : Prop :=
  Forall (fun ix => match ix with
                    | np.Idx i => index_sized i = true
                    | np.Slice_all => True
                    end) key.

(** An int that fits a C [int], as the backend reads an [axis] argument. *)
Definition c_int (z : Z) : bool := (-2147483648 <=? z) && (z <? 2147483648).

(** Ints that fit the backend's default integer and index type, int64. *)
Definition int64s (s : list Z) : Prop := Forall (fun d => index_sized d = true) s.

(** A shape that a float32 array can have: at most 32 axes (the limit of
    the older versions of the backend, 64 since), and a size in bytes, an
    extent of 0 counting as 1, within the backend's index type. *)
Definition allocatable (s : list Z) : Prop :=
  (length s <= 32)%nat /\ np.alloc_bytes float32 s <= np.max_intp.

(** [f] applied to the elements of two lists, position by position. *)
Definition pointwise (f : spec_float -> spec_float -> spec_float)
    (l1 l2 : list spec_float) : list spec_float :=
  map (fun xy => f (fst xy) (snd xy)) (combine l1 l2).

(** A Python int that [float()] accepts (no [OverflowError]). *)
Definition convertible (z : Z) : Prop := exists x, float_of_int z = Ok x.

(** [Tensor([[...], ..., [...]])] arguments: a list of lists of ints. *)
Definition rows_obj (rows : list (list Z)) : pyobj := PySeq (map ints rows).

(** A shape with axis [k] removed, and with axis [k] of extent 1. *)
Definition drop_axis (k : nat) (s : list nat) : list nat :=
  (firstn k s ++ skipn (S k) s)%list.
Definition unit_axis (k : nat) (s : list nat) : list nat :=
  (firstn k s ++ 1%nat :: skipn (S k) s)%list.

(** A Python number as the backend's operators take it next to a float32
    array: an int (through [float()]) or a float, rounded to float32. *)
Definition weak_scalar (o : pyobj) (c : spec_float) : Prop :=
  (exists z x, o = PyInt z /\ float_of_int z = Ok x /\ c = cast float32 x) \/
  (exists x, o = PyFloat x /\ c = cast float32 x).

(** The float32 Tensor of the given shape and contents. *)
Definition tensor_of (s : list nat) (l : list spec_float) : Tensor :=
  mkTensor (mk_ndarray float32 s l) s (numel s) float32.

(** Arguments of [reshape] that start with the int [d0] and end with
    [-1], in either spelling. *)
Definition trailing_wildcard (d0 : Z) (args : list tensor.arg) : Prop :=
  (exists mid, args = (tensor.ArgInt d0 :: mid ++ [tensor.ArgInt (-1)])%list) \/
  (exists l, args = [tensor.ArgSeq (d0 :: l ++ [-1])]).

(* ===================================================================== *)
(** ** The error monad                                                    *)
(* ===================================================================== *)

Lemma bind_Ok_inv {A B} (m : result A) (k : A -> result B) (b : B) :
  Py.bind m k = Ok b -> exists a, m = Ok a /\ k a = Ok b.
Proof. destruct m as [a|e]; cbn; [eauto | discriminate]. Qed.

(** A subscript that selects no element raises. *)
Lemma no_element_raises {A} (what : string) (i : Z) (x : A) :
  no_element what i <> Ok x.
Proof. unfold no_element. destruct (index_sized i); discriminate. Qed.

(** Invert a successful chain of binds in hypothesis [H]. *)
Ltac inv_bind H :=
  repeat
    (let a := fresh "a" in
     let Ha := fresh "Ha" in
     apply bind_Ok_inv in H; destruct H as (a & Ha & H)).

(* ===================================================================== *)
(** ** The constructor                                                    *)
(* ===================================================================== *)

(** An array on its own is never ragged: [np.array] copies it. *)
Lemma array_ndarray (a : ndarray) (dt : option DType) :
  np.array (NpArray a) dt
  = Ok (match dt with Some d => np.astype d a | None => a end).
Proof. destruct dt; reflexivity. Qed.

(** What [np.array] returns is what the conversion of the elements
    returns. *)
Lemma array_Ok (o : pyobj) (dt : option DType) (a : ndarray) :
  np.array o dt = Ok a ->
  exists e1 e2 b, np.discover e1 e2 o = Ok b /\
    a = match dt with Some d => np.astype d b | None => b end.
Proof.
  unfold np.array. destruct (np.dc_ragged _); [discriminate|].
  destruct dt as [d|].
  - intros H. apply bind_Ok_inv in H. destruct H as (b & Hb & [= <-]). eauto.
  - intros H. eauto.
Qed.

Lemma init_array (a : ndarray) :
  nd_dtype a = float32 ->
  tensor.__init__ (NpArray a) = Ok (mkTensor a (nd_shape a) (np.size a) float32).
Proof.
  intros Hd. destruct a as [d s l]. cbn in Hd. subst d. reflexivity.
Qed.

Lemma init_fields (o : pyobj) (t : Tensor) :
  tensor.__init__ o = Ok t ->
  nd_dtype (data t) = float32 /\ shape t = nd_shape (data t) /\
  size t = np.size (data t) /\ dtype t = float32.
Proof.
  unfold tensor.__init__. intros H.
  apply bind_Ok_inv in H. destruct H as (a' & Ha & [= <-]).
  apply array_Ok in Ha. destruct Ha as (e1 & e2 & a & _ & ->). cbn.
  assert (nd_dtype (np.astype float32 a) = float32) as ->; [|auto].
  unfold np.astype. destruct (nd_dtype a) eqn:E; cbn; auto.
Qed.

Lemma numel_cons (d : nat) (s : list nat) : numel (d :: s) = (d * numel s)%nat.
Proof. reflexivity. Qed.

Lemma shape_eqb_eq (s1 s2 : list nat) : np.shape_eqb s1 s2 = true -> s1 = s2.
Proof.
  revert s2. induction s1 as [|d s1 IH]; intros [|d' s2]; cbn; try discriminate;
    [reflexivity|].
  intros H. apply andb_prop in H. destruct H as [Hd Hs].
  apply Nat.eqb_eq in Hd. f_equal; auto.
Qed.

Lemma astype_shape (d : DType) (a : ndarray) : nd_shape (np.astype d a) = nd_shape a.
Proof. unfold np.astype. now destruct (dtype_eqb _ _). Qed.

Lemma astype_length (d : DType) (a : ndarray) :
  length (nd_data (np.astype d a)) = length (nd_data a).
Proof. unfold np.astype. destruct (dtype_eqb _ _); cbn; [|rewrite length_map]; reflexivity. Qed.

Lemma astype_dtype (d : DType) (a : ndarray) : nd_dtype (np.astype d a) = d.
Proof.
  unfold np.astype. destruct d, (nd_dtype a) eqn:E; cbn; auto.
Qed.

Lemma astype_wf (d : DType) (a : ndarray) : wf a -> wf (np.astype d a).
Proof. unfold wf. now rewrite astype_shape, astype_length. Qed.

Lemma concat_length_const (d : DType) (l : list ndarray) (s : list nat) :
  Forall wf l -> Forall (fun b => nd_shape b = s) l ->
  length (concat (map (fun b => nd_data (np.astype d b)) l))
  = (length l * numel s)%nat.
Proof.
  intros Hw Hs. induction l as [|b l IH]; [reflexivity|].
  inversion Hw as [|? ? Hb Hl]; inversion Hs as [|? ? Hsb Hsl]; subst.
  cbn [map concat length]. rewrite length_app, astype_length, IH by assumption.
  rewrite Hb. lia.
Qed.

(** Stacking well-formed arrays gives a well-formed array. *)
Lemma stack_wf (e : exn) (l : list ndarray) (a : ndarray) :
  Forall wf l -> np.stack e l = Ok a -> wf a.
Proof.
  intros Hw. unfold np.stack. destruct l as [|b l]; [intros [= <-]; reflexivity|].
  destruct (forallb _ l) eqn:E; [|discriminate]. intros [= <-].
  unfold wf. cbn [nd_data nd_shape]. rewrite numel_cons.
  apply (concat_length_const _ (b :: l)); [assumption|].
  constructor; [reflexivity|].
  apply List.Forall_forall. intros x Hx.
  rewrite forallb_forall in E. now apply shape_eqb_eq, E.
Qed.

(** Discovery keeps arrays well-formed. *)
Lemma discover_wf (e e' : exn) (o : pyobj) (a : ndarray) :
  obj_wf o -> np.discover e e' o = Ok a -> wf a.
Proof.
  revert o a. fix IH 1. intros [z|x|l|b|t] a Ho; cbn [np.discover].
  - destruct (float_of_int z); cbn; [|discriminate]. now intros [= <-].
  - now intros [= <-].
  - intros H. apply bind_Ok_inv in H. destruct H as (subs & Hsubs & Hst).
    apply (stack_wf e subs); [|assumption]. clear Hst a.
    revert subs Ho Hsubs. induction l as [|o l IHl]; intros subs Ho Hsubs.
    + injection Hsubs as <-. constructor.
    + cbn in Ho. destruct Ho as [Ho Hl].
      apply bind_Ok_inv in Hsubs. destruct Hsubs as (a0 & Ha0 & Hsubs).
      apply bind_Ok_inv in Hsubs. destruct Hsubs as (r & Hr & [= <-]).
      constructor; [exact (IH o a0 Ho Ha0) | exact (IHl r Hl Hr)].
  - now intros [= <-].
  - discriminate.
Qed.

(** The constructor establishes [valid]: every Tensor it returns is a
    well-formed float32 array with its shape and size recorded. *)
Lemma init_valid (o : pyobj) (t : Tensor) :
  obj_wf o -> tensor.__init__ o = Ok t -> valid t.
Proof.
  intros Ho H. pose proof (init_fields o t H) as (Hd & Hs & Hn & Hdt).
  repeat split; try assumption.
  unfold tensor.__init__ in H.
  apply bind_Ok_inv in H. destruct H as (a & Ha & [= <-]). cbn [data].
  apply array_Ok in Ha. destruct Ha as (e1 & e2 & b & Hb & ->).
  apply astype_wf. eapply discover_wf; eassumption.
Qed.

Lemma valid_init (t : Tensor) :
  valid t -> tensor.__init__ (NpArray (data t)) = Ok t.
Proof.
  intros (_ & Hd & Hs & Hn & Hdt). rewrite init_array by assumption.
  destruct t; cbn in *; subst; reflexivity.
Qed.

Lemma lit_valid (s : list nat) (l : list Z) :
  length l = numel s -> valid (lit s l).
Proof.
  intros H. unfold valid, lit, wf; cbn. rewrite length_map. auto.
Qed.

Lemma t_1234_init : tensor.__init__ (PySeq [ints [1; 2]; ints [3; 4]]) = Ok t_1234.
Proof. vm_compute. reflexivity. Qed.

Lemma t_123_init : tensor.__init__ (ints [1; 2; 3]) = Ok t_123.
Proof. vm_compute. reflexivity. Qed.

Lemma t_range6_init : tensor.__init__ (ints [0; 1; 2; 3; 4; 5]) = Ok t_range6.
Proof. vm_compute. reflexivity. Qed.

Lemma t_scalar_init : tensor.__init__ (PyInt 5) = Ok t_scalar.
Proof. vm_compute. reflexivity. Qed.

Lemma t_empty_init : tensor.__init__ (PySeq []) = Ok t_empty.
Proof. vm_compute. reflexivity. Qed.

(* ===================================================================== *)
(** ** The backend model on known values                                  *)
(* ===================================================================== *)

(** [Tensor([1,2,3]) * Tensor([2,2,2])] is [2,4,6], of shape (3,). *)
Example mul_elementwise :
  tensor.__mul__ t_123 (TensorObj (lit [3%nat] [2; 2; 2]))
  = Ok (TensorObj (lit [3%nat] [2; 4; 6])).
Proof. vm_compute. reflexivity. Qed.

(** A column (2,1) plus a row (3,) broadcasts to (2,3). *)
Example add_broadcast :
  tensor.__add__ (lit [2%nat; 1%nat] [10; 20]) (TensorObj t_123)
  = Ok (TensorObj (lit [2%nat; 3%nat] [11; 12; 13; 21; 22; 23])).
Proof. vm_compute. reflexivity. Qed.

(** Shapes (2,) and (3,) do not broadcast. *)
Example add_mismatch :
  tensor.__add__ t_123 (TensorObj (lit [2%nat] [1; 2]))
  = Raise (Exn ValueError
             "operands could not be broadcast together with shapes (3,) (2,) ").
Proof. vm_compute. reflexivity. Qed.

(** [[1,2,3],[4,5,6]] @ [[1,2],[3,4],[5,6]] = [[22,28],[49,64]]. *)
Example matmul_general :
  tensor.matmul (lit [2%nat; 3%nat] [1; 2; 3; 4; 5; 6]) (TensorObj t_3x2)
  = Ok (lit [2%nat; 2%nat] [22; 28; 49; 64]).
Proof. vm_compute. reflexivity. Qed.

(** [[1,2],[3,4]] @ [1,2] = [5,11]: a vector operand. *)
Example matmul_vector :
  tensor.matmul t_1234 (TensorObj (lit [2%nat] [1; 2]))
  = Ok (lit [2%nat] [5; 11]).
Proof. vm_compute. reflexivity. Qed.

(** A batch (2,1,2) of row vectors against one (2,2) matrix. *)
Example matmul_batched :
  tensor.matmul (lit [2%nat; 1%nat; 2%nat] [1; 0; 0; 1]) (TensorObj t_1234)
  = Ok (lit [2%nat; 1%nat; 2%nat] [1; 2; 3; 4]).
Proof. vm_compute. reflexivity. Qed.

(** Exchanging axes 0 and 2 of [arange(24).reshape(2,3,4)]: the element at
    [i,j,k] of the result is the one at [k,j,i]. *)
Example transpose_3d :
  tensor.transpose (lit [2%nat; 3%nat; 4%nat] (tensor.range 24)) (Some 0) (Some 2)
  = Ok (lit [4%nat; 3%nat; 2%nat]
          [0; 12; 4; 16; 8; 20; 1; 13; 5; 17; 9; 21;
           2; 14; 6; 18; 10; 22; 3; 15; 7; 19; 11; 23]).
Proof. vm_compute. reflexivity. Qed.

(** Reductions of [[1,2],[3,4],[5,6]] along its last axis and in full. *)
Example reduce_3x2 :
  tensor.sum t_3x2 (np.AxisInt (-1)) false = Ok (lit [3%nat] [3; 7; 11]) /\
  tensor.max t_3x2 (np.AxisInt 0) false = Ok (lit [2%nat] [5; 6]) /\
  tensor.mean t_3x2 (np.AxisInt 0) true = Ok (lit [1%nat; 2%nat] [3; 4]) /\
  tensor.sum t_3x2 np.AxisNone false = Ok (lit [] [21]) /\
  tensor.sum t_3x2 (np.AxisTuple [0; 1]) true = Ok (lit [1%nat; 1%nat] [21]).
Proof. repeat split; vm_compute; reflexivity. Qed.

(** Subscripts: [t[1]] is a row, [t[2,0]] an element. *)
Example getitem_3x2 :
  tensor.__getitem__ t_3x2 [np.Idx 1] = Ok (lit [2%nat] [3; 4]) /\
  tensor.__getitem__ t_3x2 [np.Idx 2; np.Idx 0] = Ok (lit [] [5]) /\
  tensor.__getitem__ t_3x2 [np.Slice_all; np.Idx (-1)] = Ok (lit [3%nat] [2; 4; 6]) /\
  tensor.__getitem__ t_3x2 [np.Idx 3]
  = Raise (Exn IndexError "index 3 is out of bounds for axis 0 with size 3").
Proof. repeat split; vm_compute; reflexivity. Qed.

(* ===================================================================== *)
(** ** Diagnostics                                                        *)
(* ===================================================================== *)

(** C9. For every Tensor [t], [t.memory_footprint()] is exactly
    [t.size * 4] bytes. *)
Theorem memory_footprint_size (t : Tensor) :
  valid t -> tensor.memory_footprint t = (size t * 4)%nat.
Proof.
  intros (_ & Hd & _ & Hn & _).
  unfold tensor.memory_footprint, np.nbytes. rewrite Hd, Hn. reflexivity.
Qed.

Lemma memory_footprint_size_witness :
  valid t_1234 /\ tensor.memory_footprint t_1234 = (size t_1234 * 4)%nat.
Proof.
  split; [repeat split | apply (memory_footprint_size t_1234); repeat split].
Defined.

(* ===================================================================== *)
(** ** Transpose of a scalar                                              *)
(* ===================================================================== *)

(** C10. For every rank-0 Tensor [t], [t.transpose()] with no arguments
    raises an index-out-of-range error: the early return covers rank 1
    only, and the default branch subscripts the empty axis list. *)
Theorem transpose_scalar_raises (t : Tensor) :
  shape t = [] ->
  tensor.transpose t None None = Raise (Exn IndexError "list index out of range").
Proof.
  intros Hs. unfold tensor.transpose. rewrite Hs. reflexivity.
Qed.

Lemma transpose_scalar_raises_witness :
  shape t_scalar = [] /\
  tensor.transpose t_scalar None None
  = Raise (Exn IndexError "list index out of range").
Proof.
  split; [reflexivity | apply (transpose_scalar_raises t_scalar); reflexivity].
Defined.

(* ===================================================================== *)
(** ** Element-wise operators                                             *)
(* ===================================================================== *)

(** With an operand that is not a Tensor, [+], [-] and [*] hand back what
    the backend returns: never a Tensor. *)
Lemma raw_operand_bare_array (t : Tensor) (x : pyobj) (r : pyobj) :
  (forall o, x <> TensorObj o) ->
  tensor.__add__ t x = Ok r \/ tensor.__sub__ t x = Ok r \/ tensor.__mul__ t x = Ok r ->
  exists a, r = NpArray a.
Proof.
  intros Hx H.
  destruct x as [z|f|l|a|o]; try (exfalso; eapply Hx; reflexivity);
    unfold tensor.__add__, tensor.__sub__, tensor.__mul__ in H;
    destruct H as [H|[H|H]];
    inv_bind H; injection H as <-; eauto.
Qed.

(** With an operand that is not a Tensor, [/] wraps the result. *)
Lemma raw_operand_div_wraps (t : Tensor) (x : pyobj) (r : pyobj) :
  tensor.__truediv__ t x = Ok r -> exists q, r = TensorObj q.
Proof.
  unfold tensor.__truediv__. intros H.
  destruct x as [z|f|l|a|o]; inv_bind H; injection H as <-; eauto.
Qed.

(** C2 (the code departs from it). [Tensor([1,2,3])] combined with the raw
    scalar [1]: [+], [-] and [*] return the bare backend arrays [2,3,4],
    [0,1,2] and [1,2,3]; only [/] returns a Tensor, here of
    [1/2, 2/2, 3/2] with the scalar [2]. *)
Theorem raw_scalar_operators_at_123 :
  tensor.__add__ t_123 (PyInt 1)
    = Ok (NpArray (mk_ndarray float32 [3%nat] [f32 2; f32 3; f32 4])) /\
  tensor.__sub__ t_123 (PyInt 1)
    = Ok (NpArray (mk_ndarray float32 [3%nat] [f32 0; f32 1; f32 2])) /\
  tensor.__mul__ t_123 (PyInt 1)
    = Ok (NpArray (mk_ndarray float32 [3%nat] [f32 1; f32 2; f32 3])) /\
  tensor.__truediv__ t_123 (PyInt 2)
    = Ok (TensorObj
            (mkTensor
               (mk_ndarray float32 [3%nat]
                  [fdiv float32 (f32 1) (f32 2); f32 1; fdiv float32 (f32 3) (f32 2)])
               [3%nat] 3 float32)).
Proof. repeat split; vm_compute; reflexivity. Qed.

(* ===================================================================== *)
(** ** Matrix multiplication: the error paths                             *)
(* ===================================================================== *)

Lemma broadcast_rev_nil_r (r : list nat) : np.broadcast_rev r [] = Some r.
Proof. destruct r; reflexivity. Qed.

Lemma broadcast_shapes_nil_r (s : list nat) : np.broadcast_shapes s [] = Some s.
Proof.
  unfold np.broadcast_shapes. cbn. rewrite broadcast_rev_nil_r. cbn.
  now rewrite rev_involutive.
Qed.

(** C4 (the code departs from it). For every Tensor [t] and every rank-0
    Tensor [s], [t.matmul(s)] returns no Tensor: the product [self * other]
    is already a Tensor, and wrapping it a second time is refused by the
    array constructor. *)
Theorem matmul_scalar_raises (t s : Tensor) :
  nd_shape (data s) = [] ->
  tensor.matmul t (TensorObj s)
  = Raise (Exn ValueError "setting an array element with a sequence.").
Proof.
  intros Hs. unfold tensor.matmul, np.ndim. rewrite Hs. cbn.
  unfold np.multiply, np.ufunc2. rewrite Hs, broadcast_shapes_nil_r. cbn.
  reflexivity.
Qed.

Lemma matmul_scalar_raises_witness :
  nd_shape (data t_scalar) = [] /\
  tensor.matmul t_1234 (TensorObj t_scalar)
  = Raise (Exn ValueError "setting an array element with a sequence.").
Proof.
  split; [reflexivity | apply (matmul_scalar_raises t_1234 t_scalar); reflexivity].
Defined.

(** The check of [matmul] itself: with an operand of rank at least 2 whose
    last-but-one extent differs from the last extent of [self], the error
    is the ValueError built on line 78, naming both extents. *)
Lemma matmul_inner_mismatch (self o : Tensor) (k1 k2 : nat) :
  (2 <= np.ndim (data o))%nat ->
  tuple_getitem (shape self) (-1) = Ok k1 ->
  tuple_getitem (shape o) (-2) = Ok k2 ->
  k1 <> k2 ->
  tensor.matmul self (TensorObj o)
  = Raise (Exn ValueError
             ("Inner dimensions must match. " ++ str_int (Z.of_nat k1)
              ++ " ≠ " ++ str_int (Z.of_nat k2))).
Proof.
  intros Hn H1 H2 Hne. unfold tensor.matmul.
  destruct (np.ndim (data o)) as [|[|n]] eqn:E; try lia. cbn [Nat.eqb].
  rewrite H1, H2. cbn [Py.bind].
  apply Nat.eqb_neq in Hne. rewrite Hne. reflexivity.
Qed.

(** C1 (as the code has it). [Tensor([[1,2],[3,4]]).matmul(Tensor([1,2,3]))]
    raises a ValueError, but the one of the backend's matmul, to which a
    rank-1 operand is handed before any check: its message names the two
    sizes as "size 3 is different from 2". The message "... 2 ≠ 3" of the
    Tensor's own check is what an operand of rank at least 2 gets, for
    instance one of shape (3,2). *)
Theorem matmul_vector_mismatch :
  tensor.matmul t_1234 (TensorObj t_123) = Raise (np.core_mismatch 2 3) /\
  exn_type (np.core_mismatch 2 3) = ValueError /\
  contains "size 3 is different from 2" (exn_msg (np.core_mismatch 2 3)) = true /\
  tensor.matmul t_1234 (TensorObj t_3x2)
  = Raise (Exn ValueError "Inner dimensions must match. 2 ≠ 3").
Proof. repeat split; vm_compute; reflexivity. Qed.

(** C1, as stated, fails: the error raised for the rank-1 operand [1,2,3]
    has no message citing "2 ≠ 3". *)
Lemma matmul_vector_mismatch_not_cited :
  ~ exists msg,
      tensor.matmul t_1234 (TensorObj t_123) = Raise (Exn ValueError msg) /\
      contains "2 ≠ 3" msg = true.
Proof.
  intros (msg & H & Hc). vm_compute in H. injection H as <-.
  vm_compute in Hc. discriminate.
Qed.

(* ===================================================================== *)
(** ** Reshape: the wildcard                                              *)
(* ===================================================================== *)

(** C3 (the code departs from it). On the six elements of [range(6)],
    [reshape(2, -1)] yields shape (2,3); [reshape(-1, 3)] is not resolved
    and fails the element-count check with -3; and on 24 elements
    [reshape(2, 3, -1)] divides by the first dimension only and yields
    shape (2,12). *)
Theorem reshape_wildcard_cases :
  tensor.reshape t_range6 [tensor.ArgInt 2; tensor.ArgInt (-1)]
    = Ok (lit [2%nat; 3%nat] [0; 1; 2; 3; 4; 5]) /\
  tensor.reshape t_range6 [tensor.ArgInt (-1); tensor.ArgInt 3]
    = Raise (Exn ValueError "Total elements must match. 6 ≠ -3") /\
  (tensor.reshape (lit [24%nat] (tensor.range 24))
     [tensor.ArgInt 2; tensor.ArgInt 3; tensor.ArgInt (-1)]
   |> (fun r => Ok (shape r)))
    = Ok [2%nat; 12%nat].
Proof. repeat split; vm_compute; reflexivity. Qed.

(* ===================================================================== *)
(** ** Reductions                                                         *)
(* ===================================================================== *)

Lemma filter_none {A} (p : A -> bool) (l : list A) :
  (forall x, In x l -> p x = false) -> List.filter p l = [].
Proof.
  induction l as [|x l IH]; cbn; intros H; [reflexivity|].
  rewrite (H x) by auto. apply IH. auto.
Qed.

Lemma filter_all {A} (p : A -> bool) (l : list A) :
  (forall x, In x l -> p x = true) -> List.filter p l = l.
Proof.
  induction l as [|x l IH]; cbn; intros H; [reflexivity|].
  rewrite (H x) by auto. f_equal. apply IH. auto.
Qed.

Lemma existsb_self (i : nat) (l : list nat) :
  In i l -> existsb (Nat.eqb i) l = true.
Proof.
  intros H. apply existsb_exists. exists i. split; [assumption|apply Nat.eqb_refl].
Qed.

Lemma map_nth_seq (s : list nat) :
  map (fun i => nth i s 0%nat) (seq 0 (length s)) = s.
Proof.
  apply nth_ext with (d := 0%nat) (d' := 0%nat).
  - now rewrite length_map, length_seq.
  - intros n Hn. rewrite length_map, length_seq in Hn.
    rewrite (nth_indep _ 0%nat (nth 0 s 0%nat)) by now rewrite length_map, length_seq.
    rewrite (map_nth (fun i => nth i s 0%nat)), seq_nth by assumption.
    reflexivity.
Qed.

(** A reduction over all the axes is 0-dimensional. *)
Lemma reduce_all_shape f (a : ndarray) :
  nd_shape (np.reduce f (seq 0 (np.ndim a)) false a) = [].
Proof.
  unfold np.reduce, np.ndim. cbn.
  rewrite filter_none; [reflexivity|].
  intros x Hx. now rewrite existsb_self.
Qed.

Lemma reduced_count_all (a : ndarray) :
  np.reduced_count (seq 0 (np.ndim a)) a = np.size a.
Proof.
  unfold np.reduced_count, np.size, np.ndim.
  rewrite filter_all by (intros x Hx; now apply existsb_self).
  now rewrite map_nth_seq.
Qed.

Lemma init_shape (a : ndarray) :
  exists r, tensor.__init__ (NpArray a) = Ok r /\ shape r = nd_shape a.
Proof.
  unfold tensor.__init__. rewrite array_ndarray. cbn. eexists. split; [reflexivity|].
  cbn. unfold np.astype. now destruct (dtype_eqb _ _).
Qed.

(** C8 (as the code has it). For every Tensor, [sum] and [mean] with
    [axis=None] return a 0-dimensional Tensor, and so does [max] on every
    Tensor that has at least one element; [Tensor([[1,2],[3,4]]).sum(axis=0)]
    is [4, 6] with shape (2,), and with [keepdims=True] it is [[4, 6]] with
    shape (1,2). *)
Theorem full_reductions_are_scalars :
  (forall t, exists r, tensor.sum t np.AxisNone false = Ok r /\ shape r = []) /\
  (forall t, exists r, tensor.mean t np.AxisNone false = Ok r /\ shape r = []) /\
  (forall t, np.size (data t) <> 0%nat ->
             exists r, tensor.max t np.AxisNone false = Ok r /\ shape r = []) /\
  tensor.sum t_1234 (np.AxisInt 0) false = Ok (lit [2%nat] [4; 6]) /\
  tensor.sum t_1234 (np.AxisInt 0) true = Ok (lit [1%nat; 2%nat] [4; 6]).
Proof.
  split; [|split; [|split; [|split]]].
  - intros t. unfold tensor.sum, np.sum, np.reduced_axes. cbn [Py.bind].
    match goal with
    | |- context [tensor.__init__ (NpArray ?x)] =>
        destruct (init_shape x) as (r & Hr & Hs)
    end.
    exists r. split; [exact Hr|]. rewrite Hs. apply reduce_all_shape.
  - intros t. unfold tensor.mean, np.mean, np.counted_axes, np.reduced_axes.
    cbn [Py.bind].
    match goal with
    | |- context [tensor.__init__ (NpArray ?x)] =>
        destruct (init_shape x) as (r & Hr & Hs)
    end.
    exists r. split; [exact Hr|]. rewrite Hs. apply reduce_all_shape.
  - intros t Hn. unfold tensor.max, np.max, np.reduced_axes. cbn [Py.bind].
    rewrite reduced_count_all.
    apply Nat.eqb_neq in Hn. rewrite Hn. cbn [Py.bind].
    match goal with
    | |- context [tensor.__init__ (NpArray ?x)] =>
        destruct (init_shape x) as (r & Hr & Hs)
    end.
    exists r. split; [exact Hr|]. rewrite Hs. apply reduce_all_shape.
  - vm_compute. reflexivity.
  - vm_compute. reflexivity.
Qed.

Lemma full_reductions_are_scalars_witness :
  np.size (data t_1234) <> 0%nat /\
  exists r, tensor.max t_1234 np.AxisNone false = Ok r /\ shape r = [].
Proof.
  split; [cbn; lia|].
  apply (proj1 (proj2 (proj2 full_reductions_are_scalars)) t_1234). cbn; lia.
Defined.

(** C8, as stated, fails: [Tensor([]).max()] returns no Tensor at all; the
    backend refuses to take the maximum of no element. *)
Lemma max_of_empty_raises :
  ~ exists r, tensor.max t_empty np.AxisNone false = Ok r /\ shape r = [].
Proof. intros (r & H & _). vm_compute in H. discriminate. Qed.

(* ===================================================================== *)
(** ** Reshape: the round trip                                            *)
(* ===================================================================== *)

Section Reshape.

(** *** Products of extents *)

Lemma wrap64_small (z : Z) :
  - 9223372036854775808 <= z < 9223372036854775808 -> np.wrap64 z = z.
Proof. unfold np.wrap64. intros H. rewrite Z.mod_small by lia. lia. Qed.

Lemma wrap64_mul (a d : Z) : np.wrap64 (np.wrap64 a * d) = np.wrap64 (a * d).
Proof.
  unfold np.wrap64. f_equal.
  set (h := 9223372036854775808). set (m := 18446744073709551616).
  pose proof (Z.div_mod (a + h) m ltac:(subst m; lia)) as E.
  replace (((a + h) mod m - h) * d + h)
    with (a * d + h + (- ((a + h) / m) * d) * m) by lia.
  apply Z_mod_plus_full.
Qed.

Lemma prod_from (l : list Z) (acc : Z) :
  fold_left (fun acc d => np.wrap64 (acc * d)) l (np.wrap64 acc)
  = np.wrap64 (acc * fold_right Z.mul 1 l).
Proof.
  revert acc. induction l as [|d l IH]; intros acc; cbn [fold_left fold_right].
  - f_equal. lia.
  - rewrite wrap64_mul, IH. f_equal. lia.
Qed.

(** [np.prod] is the exact product, wrapped once. *)
Lemma prod_wrap (l : list Z) : np.prod l = np.wrap64 (fold_right Z.mul 1 l).
Proof.
  unfold np.prod. change 1 with (np.wrap64 1) at 1.
  rewrite prod_from. f_equal. lia.
Qed.

(** The exact product of non-negative extents is the element count. *)
Lemma zprod_numel (s : list Z) :
  nonneg s -> fold_right Z.mul 1 s = Z.of_nat (numel (map Z.to_nat s)).
Proof.
  unfold nonneg. intros H.
  induction H as [|d s Hd Hs IH]; cbn [fold_right map numel]; [reflexivity|].
  rewrite IH, Nat2Z.inj_mul, Z2Nat.id by assumption. reflexivity.
Qed.

Lemma nzprod_pos (s : list Z) :
  nonneg s -> 1 <= fold_right Z.mul 1 (List.filter (fun x => negb (x =? 0)) s).
Proof.
  unfold nonneg. intros H.
  induction H as [|d s Hd Hs IH]; cbn [List.filter fold_right]; [lia|].
  destruct (Z.eqb_spec d 0); cbn [negb fold_right]; [assumption | nia].
Qed.

(** Counting an extent of 0 as 1 can only enlarge a product. *)
Lemma zprod_le_nzprod (s : list Z) :
  nonneg s ->
  0 <= fold_right Z.mul 1 s
    <= fold_right Z.mul 1 (List.filter (fun x => negb (x =? 0)) s).
Proof.
  unfold nonneg. intros H.
  induction H as [|d s Hd Hs IH]; cbn [List.filter fold_right]; [lia|].
  pose proof (nzprod_pos s Hs).
  destruct (Z.eqb_spec d 0); cbn [negb fold_right]; [subst; lia | nia].
Qed.

(** A shape whose float32 array the backend can address. *)
Lemma allocatable_bounds (d : DType) (s : list Z) :
  nonneg s -> np.alloc_bytes d s <= np.max_intp ->
  fold_right Z.mul 1 (List.filter (fun x => negb (x =? 0)) s) <= np.max_intp /\
  0 <= fold_right Z.mul 1 s <= np.max_intp.
Proof.
  intros Hs. unfold np.alloc_bytes. intros H.
  pose proof (zprod_le_nzprod s Hs). pose proof (nzprod_pos s Hs).
  assert (1 <= Z.of_nat (itemsize d)) by (destruct d; cbn; lia).
  split; nia.
Qed.

(** On extents of an addressable shape [np.prod] is the element count. *)
Lemma prod_numel (d : DType) (s : list Z) :
  nonneg s -> np.alloc_bytes d s <= np.max_intp ->
  np.prod s = Z.of_nat (numel (map Z.to_nat s)).
Proof.
  intros Hs Ha. rewrite prod_wrap, <- zprod_numel by assumption.
  apply wrap64_small. pose proof (allocatable_bounds d s Hs Ha).
  unfold np.max_intp in *. lia.
Qed.

Lemma to_nat_shape_Z (s : list nat) : map Z.to_nat (shape_Z s) = s.
Proof.
  unfold shape_Z. rewrite map_map. rewrite <- (map_id s) at 2.
  apply map_ext. intros d. apply Nat2Z.id.
Qed.

Lemma nonneg_shape_Z (s : list nat) : nonneg (shape_Z s).
Proof. unfold nonneg, shape_Z. apply List.Forall_map, List.Forall_forall. intros; lia. Qed.

(** *** The backend's reshape *)

(** The scan of non-negative extents of an addressable shape finds their
    product and no unknown. *)
Lemma known_size_nonneg (m : exn) (s : list Z) (acc : Z) :
  nonneg s -> 0 <= acc ->
  acc * fold_right Z.mul 1 (List.filter (fun x => negb (x =? 0)) s) <= np.max_intp ->
  np.known_size m s acc false = Ok (acc * fold_right Z.mul 1 s, false).
Proof.
  unfold nonneg. intros H. revert acc.
  induction H as [|d s Hd Hs IH]; intros acc Hacc Hmax;
    cbn [np.known_size List.filter fold_right] in *.
  - f_equal. f_equal. lia.
  - pose proof (nzprod_pos s Hs) as Hp.
    replace (d <? 0) with false by (symmetry; apply Z.ltb_ge; lia).
    destruct (Z.eqb_spec d 0) as [->|Hd0]; cbn [negb fold_right] in Hmax.
    + replace (np.max_intp <? acc * 0) with false
        by (symmetry; apply Z.ltb_ge; unfold np.max_intp; lia).
      rewrite IH by (unfold np.max_intp; lia). f_equal. f_equal. lia.
    + replace (np.max_intp <? acc * d) with false by (symmetry; apply Z.ltb_ge; nia).
      rewrite IH by nia. f_equal. f_equal. lia.
Qed.

Lemma index_sized_nonneg (s : list Z) :
  nonneg s ->
  fold_right Z.mul 1 (List.filter (fun x => negb (x =? 0)) s) <= np.max_intp ->
  forallb index_sized s = true.
Proof.
  unfold nonneg. intros H.
  induction H as [|d s Hd Hs IH]; cbn [List.filter fold_right forallb]; [reflexivity|].
  pose proof (nzprod_pos s Hs) as Hp. intros Hmax.
  destruct (Z.eqb_spec d 0) as [->|Hd0]; cbn [negb fold_right] in Hmax.
  - rewrite IH by assumption. reflexivity.
  - rewrite IH by nia. rewrite andb_true_r.
    unfold index_sized. apply andb_true_intro. unfold np.max_intp in Hmax.
    split; [apply Z.leb_le | apply Z.ltb_lt]; nia.
Qed.

(** The backend's reshape to explicit extents with the right count. *)
Lemma np_reshape_exact (a : ndarray) (s : list Z) :
  (length s <= np.maxdims)%nat ->
  nonneg s -> np.alloc_bytes (nd_dtype a) s <= np.max_intp ->
  fold_right Z.mul 1 s = Z.of_nat (np.size a) ->
  np.reshape a s = Ok (mk_ndarray (nd_dtype a) (map Z.to_nat s) (nd_data a)).
Proof.
  intros Hlen Hs Ha Hp. pose proof (allocatable_bounds _ s Hs Ha) as [Hnz Hz].
  unfold np.reshape.
  replace (Nat.ltb np.maxdims (length s)) with false
    by (symmetry; apply Nat.ltb_ge; exact Hlen).
  rewrite (index_sized_nonneg s Hs Hnz). cbn [negb].
  rewrite (known_size_nonneg _ s 1 Hs) by lia. cbn [Py.bind fst snd].
  rewrite Z.mul_1_l, Hp, Z.eqb_refl. cbn [Py.bind].
  replace (np.alloc_bytes (nd_dtype a) s <=? np.max_intp) with true
    by (symmetry; now apply Z.leb_le).
  reflexivity.
Qed.

Lemma tuple_getitem_In {A} (l : list A) (i : Z) (x : A) :
  tuple_getitem l i = Ok x -> In x l.
Proof.
  unfold tuple_getitem.
  destruct (norm_index _ _) as [k|]; [|intros H; now apply no_element_raises in H].
  destruct (l !! k) eqn:E; [|intros H; now apply no_element_raises in H].
  intros [= <-].
  apply list_elem_of_In. eapply list_elem_of_lookup_2. exact E.
Qed.

Lemma tuple_getitem_last {A} (l : list A) :
  l <> [] -> exists x, tuple_getitem l (-1) = Ok x.
Proof.
  intros Hl. unfold tuple_getitem, norm_index.
  assert (0 < length l)%nat by (destruct l; [congruence | cbn; lia]).
  replace (0 <=? -1) with false by reflexivity. cbn [andb].
  replace (- Z.of_nat (length l) <=? -1) with true by (symmetry; apply Z.leb_le; lia).
  cbn [andb Z.ltb Z.compare].
  destruct (lookup_lt_is_Some_2 l (Z.to_nat (-1 + Z.of_nat (length l)))) as [x Hx];
    [lia|].
  rewrite Hx. eauto.
Qed.

Lemma ints_of_ints (e : exn) (s : list Z) :
  tensor.ints_of e (map tensor.ArgInt s) = Ok s.
Proof. induction s as [|d s IH]; cbn; [reflexivity | now rewrite IH]. Qed.

(** Either spelling leaves [shape] bound to the dimensions of [s]. *)
Lemma spelled_unwrap (s : list Z) (args : list tensor.arg) :
  s <> [] -> spelled s args ->
  exists first,
    tuple_getitem args 0 = Ok first /\
    match first with
    | tensor.ArgSeq l => map tensor.ArgInt l
    | tensor.ArgInt _ => args
    end = map tensor.ArgInt s.
Proof.
  intros Hne [|].
  - eexists. split; reflexivity.
  - destruct s as [|d s]; [congruence|]. eexists. split; reflexivity.
Qed.

(** [reshape] to an explicit, non-empty and addressable shape with the
    right count. *)
Lemma reshape_exact (t : Tensor) (s : list Z) (args : list tensor.arg) :
  valid t -> s <> [] -> nonneg s -> allocatable s ->
  np.prod s = Z.of_nat (size t) ->
  spelled s args ->
  tensor.reshape t args
  = Ok (mkTensor (mk_ndarray float32 (map Z.to_nat s) (nd_data (data t)))
          (map Z.to_nat s) (numel (map Z.to_nat s)) float32).
Proof.
  intros (Hwf & Hd & Hsh & Hn & Hdt) Hne Hs [Hlen Ha] Hp Hargs.
  pose proof Hs as Hs'. unfold nonneg in Hs.
  unfold tensor.reshape.
  destruct (spelled_unwrap s args Hne Hargs) as (first & -> & Hm).
  cbn [Py.bind]. rewrite Hm.
  destruct (tuple_getitem_last (map tensor.ArgInt s)) as [l Hl].
  { destruct s; [congruence | discriminate]. }
  rewrite Hl. cbn [Py.bind].
  apply tuple_getitem_In in Hl. apply in_map_iff in Hl. destruct Hl as (z & <- & Hz).
  rewrite List.Forall_forall in Hs.
  replace (tensor.is_minus_one (tensor.ArgInt z)) with false
    by (symmetry; apply Z.eqb_neq; specialize (Hs z Hz); lia).
  cbn [Py.bind]. rewrite ints_of_ints. cbn [Py.bind].
  rewrite <- Hn, <- Hp, Z.eqb_refl. cbn [negb].
  rewrite np_reshape_exact;
    [|unfold np.maxdims; lia | exact Hs' | now rewrite Hd |].
  - cbn [Py.bind]. rewrite init_array by (cbn; assumption).
    cbn. now rewrite Hd.
  - rewrite zprod_numel, <- (prod_numel float32) by assumption.
    now rewrite Hp, Hn.
Qed.

(** The round trip of [reshape]. For every Tensor [t] of rank at least 1
    and every non-empty shape [s] of non-negative integers with
    [product(s) == t.size], both shapes being within the size the backend
    can address, [t.reshape(s)] succeeds with shape [s] and reshaping the
    result to [t.shape] gives back [t], in shape and in elements; this
    holds for both spellings of the arguments. *)
Theorem reshape_round_trip (t : Tensor) (s : list Z) (args back : list tensor.arg) :
  valid t -> shape t <> [] -> allocatable (shape_Z (shape t)) ->
  s <> [] -> nonneg s -> allocatable s -> np.prod s = Z.of_nat (size t) ->
  spelled s args -> spelled (shape_Z (shape t)) back ->
  exists r,
    tensor.reshape t args = Ok r /\ shape_Z (shape r) = s /\
    tensor.reshape r back = Ok t.
Proof.
  intros Hv Hrank Hat Hne Hs Ha Hp Hargs Hback.
  pose proof Hv as (Hwf & Hd & Hsh & Hn & Hdt).
  eexists. split; [apply reshape_exact; eassumption|]. split.
  - cbn. unfold shape_Z. rewrite map_map. rewrite <- (map_id s) at 2.
    apply map_ext_in. intros d Hd'. unfold nonneg in Hs.
    rewrite List.Forall_forall in Hs. apply Z2Nat.id. auto.
  - assert (Hcount : numel (map Z.to_nat s) = size t).
    { apply Nat2Z.inj. rewrite <- (prod_numel float32) by (assumption || apply Ha).
      exact Hp. }
    match goal with |- tensor.reshape ?x _ = _ => set (r := x) end.
    assert (Hvr : valid r).
    { unfold valid, wf, r, np.size;
        cbn [data shape size dtype nd_dtype nd_shape nd_data].
      repeat split. rewrite Hcount, Hn. exact Hwf. }
    assert (Hnil : shape_Z (shape t) <> []).
    { destruct (shape t); [congruence | discriminate]. }
    assert (Hprod : np.prod (shape_Z (shape t)) = Z.of_nat (size r)).
    { unfold r; cbn [size].
      rewrite (prod_numel float32) by (apply nonneg_shape_Z || apply Hat).
      now rewrite to_nat_shape_Z, Hcount, Hn, Hsh. }
    rewrite (reshape_exact r (shape_Z (shape t)) back Hvr Hnil
               (nonneg_shape_Z _) Hat Hprod Hback).
    rewrite to_nat_shape_Z. unfold r; cbn [data nd_data].
    destruct t as [[d sh l] sh' n dt]. cbn in *. subst. reflexivity.
Qed.

End Reshape.

Lemma reshape_round_trip_witness :
  exists r,
    tensor.reshape t_range6 [tensor.ArgSeq [2; 3]] = Ok r /\
    shape_Z (shape r) = [2; 3] /\
    tensor.reshape r [tensor.ArgSeq [6]] = Ok t_range6.
Proof.
  apply (reshape_round_trip t_range6 [2; 3] [tensor.ArgSeq [2; 3]] [tensor.ArgSeq [6]]).
  - repeat split.
  - discriminate.
  - split; [cbn; lia | vm_compute; discriminate].
  - discriminate.
  - repeat constructor; lia.
  - split; [cbn; lia | vm_compute; discriminate].
  - reflexivity.
  - constructor.
  - apply (spelled_tuple [6]).
Defined.

(** C6 (the code departs from it). The round trip fails on a rank-0
    Tensor: the product of [(1,)] is the size of [Tensor(5)] and
    [Tensor(5).reshape((1,))] succeeds, but reshaping the result back to
    the shape of [Tensor(5)], the empty tuple, raises IndexError, because
    [reshape] subscripts its shape argument without a guard for the empty
    one. *)
Lemma reshape_round_trip_scalar :
  np.prod [1] = Z.of_nat (size t_scalar) /\
  tensor.reshape t_scalar [tensor.ArgSeq [1]] = Ok (lit [1%nat] [5]) /\
  tensor.reshape (lit [1%nat] [5]) [tensor.ArgSeq (shape_Z (shape t_scalar))]
  = Raise (Exn IndexError "tuple index out of range").
Proof. repeat split; vm_compute; reflexivity. Qed.

(* ===================================================================== *)
(** ** Matrix multiplication: the 2x2 path                                *)
(* ===================================================================== *)

(** The branch taken when [self] is 2x2 calls [np.dot] once per cell,
    where the general path calls [np.matmul] once. Whether the two agree
    to the last bit is a matter of the rounding inside the backend's
    routines (see [np.kernel]) and is not stated here; the shapes and the
    errors of the branch are, further below. *)

(** A valid Tensor of shape (2,2) holds exactly four float32 elements. *)
Lemma valid_2x2 (t : Tensor) :
  valid t -> shape t = [2%nat; 2%nat] ->
  exists a b c d, t = mkTensor (mk_ndarray float32 [2%nat; 2%nat] [a; b; c; d])
                        [2%nat; 2%nat] 4 float32.
Proof.
  intros (Hwf & Hd & Hsh & Hn & Hdt) Hs.
  destruct t as [[dt sh l] sh' n dt']. unfold wf, np.size in *. cbn in *. subst.
  destruct l as [|a [|b [|c [|d [|e l]]]]]; try discriminate.
  now exists a, b, c, d.
Qed.

(* ===================================================================== *)
(** ** Row-major index arithmetic                                         *)
(* ===================================================================== *)

Section Indexing.

(** A multi-index within the bounds of a shape. *)
#[local] Abbreviation within := (Forall2 lt).

Lemma unravel_within (s : list nat) (k : nat) :
  (k < numel s)%nat -> within (unravel s k) s.
Proof.
  revert k. induction s as [|d s IH]; intros k Hk; cbn [unravel]; constructor.
  - rewrite numel_cons in Hk.
    apply Nat.Div0.div_lt_upper_bound. lia.
  - apply IH. rewrite numel_cons in Hk.
    apply Nat.mod_upper_bound. intros E. rewrite E in Hk. lia.
Qed.

Lemma ravel_lt (idx s : list nat) :
  within idx s -> (dotp idx (strides s) < numel s)%nat.
Proof.
  induction 1 as [|i d idx s Hi _ IH]; cbn [dotp strides].
  - cbn. lia.
  - rewrite numel_cons. nia.
Qed.

Lemma ravel_unravel (s : list nat) (k : nat) :
  (k < numel s)%nat -> dotp (unravel s k) (strides s) = k.
Proof.
  revert k. induction s as [|d s IH]; intros k Hk; cbn [unravel strides dotp].
  - cbn in Hk. lia.
  - rewrite numel_cons in Hk.
    assert (numel s <> 0)%nat by (intros E; rewrite E in Hk; lia).
    rewrite IH by (now apply Nat.mod_upper_bound).
    pose proof (Nat.div_mod_eq k (numel s)). lia.
Qed.

Lemma unravel_ravel (idx s : list nat) :
  within idx s -> unravel s (dotp idx (strides s)) = idx.
Proof.
  induction 1 as [|i d idx s Hi Hw IH]; cbn [dotp strides unravel]; [reflexivity|].
  pose proof (ravel_lt idx s Hw) as Hr.
  assert (numel s <> 0)%nat by lia.
  f_equal.
  - rewrite Nat.div_add_l by assumption.
    rewrite Nat.div_small by assumption. lia.
  - rewrite Nat.add_comm, Nat.Div0.mod_add, Nat.mod_small by assumption.
    exact IH.
Qed.

Lemma within_length (idx s : list nat) : within idx s -> length idx = length s.
Proof. induction 1; cbn; congruence. Qed.

Lemma within_nth (idx s : list nat) (i : nat) :
  within idx s -> (i < length s)%nat -> (nth i idx 0 < nth i s 0)%nat.
Proof.
  intros H. revert i. induction H as [|x d idx s Hx _ IH]; intros i Hi; cbn in Hi.
  - lia.
  - destruct i as [|i]; cbn; [assumption | apply IH; lia].
Qed.

Lemma length_strides (s : list nat) : length (strides s) = length s.
Proof. induction s; cbn; congruence. Qed.

Lemma length_gather (s st : list nat) (d : list spec_float) :
  length (gather s st d) = numel s.
Proof. unfold gather. now rewrite length_map, length_seq. Qed.

Lemma nth_gather (s st : list nat) (d : list spec_float) (k : nat) :
  (k < numel s)%nat ->
  nth k (gather s st d) fzero = nth (dotp (unravel s k) st) d fzero.
Proof.
  intros Hk. unfold gather.
  rewrite (nth_indep _ fzero
             ((fun k => nth (dotp (unravel s k) st) d fzero) 0%nat))
    by now rewrite length_map, length_seq.
  rewrite (map_nth (fun k => nth (dotp (unravel s k) st) d fzero)).
  now rewrite seq_nth.
Qed.

End Indexing.

(* ===================================================================== *)
(** ** Axis permutations                                                  *)
(* ===================================================================== *)

Section Permute.

Variable n : nat.
Variable axes : list nat.
Hypothesis Hinv : involution n axes.

Lemma permute_length (l : list nat) : length (permute axes l) = n.
Proof. unfold permute. rewrite length_map. apply Hinv. Qed.

Lemma permute_nth (l : list nat) (i : nat) :
  (i < n)%nat -> nth i (permute axes l) 0%nat = nth (nth i axes 0%nat) l 0%nat.
Proof.
  intros Hi. unfold permute.
  rewrite (nth_indep _ 0%nat ((fun ax => nth ax l 0%nat) 0%nat))
    by (rewrite length_map, (inv_length _ _ Hinv); exact Hi).
  apply (map_nth (fun ax => nth ax l 0%nat)).
Qed.

Lemma permute_twice (l : list nat) :
  length l = n -> permute axes (permute axes l) = l.
Proof.
  intros Hl. apply nth_ext with (d := 0%nat) (d' := 0%nat).
  - now rewrite permute_length.
  - rewrite permute_length. intros i Hi.
    rewrite permute_nth by assumption.
    rewrite permute_nth by (now apply Hinv).
    now rewrite (inv_twice _ _ Hinv).
Qed.

Lemma involution_In (ax : nat) : In ax axes -> (ax < n)%nat.
Proof.
  intros H. apply (In_nth _ _ 0%nat) in H. destruct H as (i & Hi & <-).
  rewrite (inv_length _ _ Hinv) in Hi. now apply Hinv.
Qed.

Lemma involution_NoDup : List.NoDup axes.
Proof.
  apply (List.NoDup_nth axes 0%nat). rewrite (inv_length _ _ Hinv).
  intros i j Hi Hj E.
  rewrite <- (inv_twice _ _ Hinv i Hi), <- (inv_twice _ _ Hinv j Hj).
  now rewrite E.
Qed.

Lemma involution_Permutation : Permutation axes (seq 0 n).
Proof.
  apply NoDup_Permutation_bis.
  - apply involution_NoDup.
  - rewrite length_seq, (inv_length _ _ Hinv). lia.
  - intros ax H. apply in_seq. apply involution_In in H. lia.
Qed.

Lemma list_sum_cons (x : nat) (l : list nat) :
  list_sum (x :: l) = (x + list_sum l)%nat.
Proof. reflexivity. Qed.

Lemma dotp_permute_sum (x y : list nat) (l : list nat) :
  dotp (permute l x) (permute l y)
  = list_sum (map (fun ax => nth ax x 0 * nth ax y 0)%nat l).
Proof.
  induction l as [|ax l IH]; [reflexivity|].
  cbn [permute map dotp]. rewrite list_sum_cons. unfold permute in IH.
  now rewrite IH.
Qed.

Lemma dotp_sum (x y : list nat) :
  length x = length y ->
  dotp x y = list_sum (map (fun i => nth i x 0 * nth i y 0)%nat (seq 0 (length x))).
Proof.
  revert y. induction x as [|a x IH]; intros [|b y] Hl; try discriminate;
    [reflexivity|].
  cbn [dotp length seq map]. rewrite list_sum_cons.
  rewrite <- seq_shift, map_map. cbn [nth].
  rewrite <- IH by (cbn in Hl; lia). reflexivity.
Qed.

Lemma list_sum_Permutation (l l' : list nat) :
  Permutation l l' -> list_sum l = list_sum l'.
Proof. induction 1; rewrite ?list_sum_cons; lia. Qed.

Lemma dotp_permute (x y : list nat) :
  length x = n -> length y = n ->
  dotp (permute axes x) (permute axes y) = dotp x y.
Proof.
  intros Hx Hy. rewrite dotp_permute_sum, dotp_sum by congruence.
  apply list_sum_Permutation, Permutation_map.
  rewrite Hx. apply involution_Permutation.
Qed.

Lemma within_permute_list (l idx s : list nat) :
  Forall2 lt idx s -> Forall (fun ax => ax < length s)%nat l ->
  Forall2 lt (permute l idx) (permute l s).
Proof.
  intros Hw H. unfold permute.
  induction H as [|ax l Hax _ IH]; cbn [map]; constructor; [|exact IH].
  now apply within_nth.
Qed.

Lemma within_permute (idx s : list nat) :
  Forall2 lt idx s -> length s = n ->
  Forall2 lt (permute axes idx) (permute axes s).
Proof.
  intros Hw Hl. apply within_permute_list; [assumption|].
  apply List.Forall_forall. intros ax H. rewrite Hl. now apply involution_In.
Qed.

(** The backend accepts [axes]. *)
Lemma np_transpose_ok (a : ndarray) :
  np.ndim a = n ->
  np.transpose a axes
  = Ok (mk_ndarray (nd_dtype a) (permute axes (nd_shape a))
          (gather (permute axes (nd_shape a))
                  (permute axes (strides (nd_shape a))) (nd_data a))).
Proof.
  intros Hn. unfold np.transpose.
  rewrite Hn, (inv_length _ _ Hinv), Nat.eqb_refl. cbn [negb].
  replace (existsb (fun ax => Nat.leb n ax) axes) with false.
  2:{ symmetry. apply not_true_is_false. intros H.
      apply existsb_exists in H. destruct H as (ax & Hin & Hle).
      apply involution_In in Hin. apply Nat.leb_le in Hle. lia. }
  rewrite bool_decide_eq_true_2
    by (apply NoDup_ListNoDup; exact involution_NoDup).
  reflexivity.
Qed.

(** Transposing twice by [axes] restores a well-formed array. *)
Lemma np_transpose_twice (a : ndarray) :
  wf a -> np.ndim a = n ->
  exists a',
    np.transpose a axes = Ok a' /\ np.ndim a' = n /\
    nd_dtype a' = nd_dtype a /\ np.transpose a' axes = Ok a.
Proof.
  intros Hwf Hn. eexists. split; [now apply np_transpose_ok|].
  split; [apply permute_length|]. split; [reflexivity|].
  rewrite np_transpose_ok by apply permute_length.
  cbn [nd_dtype nd_shape nd_data].
  destruct a as [d s l]. unfold wf, np.ndim in *. cbn [nd_dtype nd_shape nd_data] in *.
  rewrite permute_twice by assumption. f_equal. f_equal.
  apply nth_ext with (d := fzero) (d' := fzero).
  - now rewrite length_gather.
  - rewrite length_gather. intros k Hk.
    rewrite nth_gather by assumption.
    pose proof (unravel_within s k Hk) as Hw.
    pose proof (within_permute _ _ Hw Hn) as Hw'.
    assert (Hlen : length (unravel s k) = n) by (rewrite (within_length _ _ Hw); exact Hn).
    (* the offset read in the transposed array is the flat position of the
       permuted index *)
    assert (Hoff : dotp (unravel s k) (permute axes (strides (permute axes s)))
                   = dotp (permute axes (unravel s k)) (strides (permute axes s))).
    { rewrite <- (permute_twice (unravel s k)) at 1 by exact Hlen.
      apply dotp_permute.
      - apply permute_length.
      - rewrite length_strides. apply permute_length. }
    rewrite Hoff.
    rewrite nth_gather by (now apply ravel_lt).
    rewrite unravel_ravel by assumption.
    rewrite dotp_permute by (rewrite ?length_strides; assumption).
    now rewrite ravel_unravel.
Qed.

End Permute.

(* ===================================================================== *)
(** ** Transpose                                                          *)
(* ===================================================================== *)

Section Transpose.

Lemma swapped_length (n i j : nat) : length (swapped n i j) = n.
Proof. unfold swapped. now rewrite !length_insert, length_seq. Qed.

Lemma swapped_nth (n i j k : nat) :
  (i < n)%nat -> (j < n)%nat -> (k < n)%nat ->
  nth k (swapped n i j) 0%nat
  = if decide (k = j) then i else if decide (k = i) then j else k.
Proof.
  intros Hi Hj Hk. apply nth_lookup_Some. unfold swapped.
  destruct (decide (k = j)) as [->|Hkj].
  - apply list_lookup_insert_eq. now rewrite length_insert, length_seq.
  - rewrite list_lookup_insert_ne by congruence.
    destruct (decide (k = i)) as [->|Hki].
    + apply list_lookup_insert_eq. now rewrite length_seq.
    + rewrite list_lookup_insert_ne by congruence. now apply lookup_seq_lt.
Qed.

(** Exchanging two axes is its own inverse. *)
Lemma swapped_involution (n i j : nat) :
  (i < n)%nat -> (j < n)%nat -> involution n (swapped n i j).
Proof.
  intros Hi Hj. split.
  - apply swapped_length.
  - intros k Hk. rewrite swapped_nth by assumption.
    repeat case_decide; lia.
  - intros k Hk.
    assert (nth k (swapped n i j) 0 < n)%nat as Hlt
        by (rewrite swapped_nth by assumption; repeat case_decide; lia).
    rewrite (swapped_nth n i j (nth k (swapped n i j) 0%nat)) by assumption.
    rewrite swapped_nth by assumption.
    repeat case_decide; lia.
Qed.

Lemma norm_index_lt (n : nat) (z : Z) (k : nat) :
  norm_index n z = Some k -> (k < n)%nat.
Proof.
  unfold norm_index.
  destruct (0 <=? z) eqn:E1, (z <? Z.of_nat n) eqn:E2; cbn [andb];
    try (intros [= <-]; lia);
    destruct (- Z.of_nat n <=? z) eqn:E3, (z <? 0) eqn:E4; cbn [andb];
    try discriminate; intros [= <-]; lia.
Qed.

Lemma norm_index_Some (n : nat) (z : Z) :
  - Z.of_nat n <= z < Z.of_nat n -> exists k, norm_index n z = Some k.
Proof.
  intros Hz. unfold norm_index.
  destruct (0 <=? z) eqn:E1, (z <? Z.of_nat n) eqn:E2; cbn [andb]; eauto;
    destruct (- Z.of_nat n <=? z) eqn:E3, (z <? 0) eqn:E4; cbn [andb]; eauto; lia.
Qed.

Lemma list_getitem_range (n : nat) (z : Z) (k : nat) :
  norm_index n z = Some k -> list_getitem (seq 0 n) z = Ok k.
Proof.
  intros H. unfold list_getitem. rewrite length_seq, H.
  rewrite lookup_seq_lt by (eapply norm_index_lt; eassumption). reflexivity.
Qed.

Lemma list_setitem_at {A} (l : list A) (z : Z) (k : nat) (x : A) :
  norm_index (length l) z = Some k -> list_setitem l z x = Ok (<[k := x]> l).
Proof. intros H. unfold list_setitem. now rewrite H. Qed.

(** The two subscripted assignments of [transpose] build [swapped]. *)
Lemma transpose_swaps (t : Tensor) (n : nat) (d0 d1 : Z) (i j : nat) :
  length (shape t) = n -> n <> 1%nat ->
  norm_index n d0 = Some i -> norm_index n d1 = Some j ->
  tensor.transpose t (Some d0) (Some d1)
  = (np.transpose (data t) (swapped n i j)
     |> (fun r => tensor.__init__ (NpArray r))).
Proof.
  intros Hn Hn1 H0 H1. unfold tensor.transpose.
  rewrite length_seq, Hn.
  apply Nat.eqb_neq in Hn1. rewrite Hn1.
  cbn [list_getitem_opt list_setitem_opt].
  rewrite (list_getitem_range n d1 j H1), (list_getitem_range n d0 i H0).
  cbn [Py.bind].
  rewrite (list_setitem_at (seq 0 n) d0 i j) by (now rewrite length_seq).
  cbn [Py.bind].
  rewrite (list_setitem_at _ d1 j i) by (now rewrite length_insert, length_seq).
  reflexivity.
Qed.

(** With no argument, the last two axes are exchanged. *)
Lemma transpose_default (t : Tensor) (n : nat) :
  length (shape t) = n -> n <> 1%nat ->
  tensor.transpose t None None = tensor.transpose t (Some (-2)) (Some (-1)).
Proof.
  intros Hn Hn1. unfold tensor.transpose.
  rewrite length_seq, Hn. apply Nat.eqb_neq in Hn1. rewrite Hn1.
  reflexivity.
Qed.

(** Transposing twice by the same two in-range axes. *)
Lemma transpose_twice_at (t : Tensor) (d0 d1 : Z) :
  valid t -> (2 <= length (shape t))%nat ->
  - Z.of_nat (length (shape t)) <= d0 < Z.of_nat (length (shape t)) ->
  - Z.of_nat (length (shape t)) <= d1 < Z.of_nat (length (shape t)) ->
  exists t',
    tensor.transpose t (Some d0) (Some d1) = Ok t' /\
    length (shape t') = length (shape t) /\
    tensor.transpose t' (Some d0) (Some d1) = Ok t.
Proof.
  intros Hv Hrank H0 H1. pose proof Hv as (Hwf & Hd & Hsh & Hsz & Hdt).
  set (n := length (shape t)) in *.
  destruct (norm_index_Some n d0 H0) as [i Hi].
  destruct (norm_index_Some n d1 H1) as [j Hj].
  pose proof (swapped_involution n i j
                (norm_index_lt _ _ _ Hi) (norm_index_lt _ _ _ Hj)) as Hinv.
  assert (Hnd : np.ndim (data t) = n) by (unfold np.ndim; now rewrite <- Hsh).
  destruct (np_transpose_twice n _ Hinv (data t) Hwf Hnd)
    as (a' & Ha' & Hnd' & Hd' & Hback).
  exists (mkTensor a' (nd_shape a') (np.size a') float32). split; [|split].
  - rewrite (transpose_swaps t n d0 d1 i j) by (auto; lia).
    rewrite Ha'. cbn [Py.bind]. apply init_array. congruence.
  - exact Hnd'.
  - rewrite (transpose_swaps _ n d0 d1 i j) by (auto; lia).
    cbn [data]. rewrite Hback. cbn [Py.bind]. now apply valid_init.
Qed.

(** C7. For every Tensor [t] of rank at least 2, and for every pair of
    in-range axes as well as for the no-argument default that exchanges the
    last two axes, transposing twice with the same arguments gives back
    [t], in shape and in elements. *)
Theorem transpose_involutive (t : Tensor) (dim0 dim1 : option Z) :
  valid t -> (2 <= length (shape t))%nat ->
  axis_pair (length (shape t)) dim0 dim1 ->
  exists t',
    tensor.transpose t dim0 dim1 = Ok t' /\
    tensor.transpose t' dim0 dim1 = Ok t.
Proof.
  intros Hv Hrank Hpair.
  destruct dim0 as [d0|], dim1 as [d1|]; cbn in Hpair; try contradiction.
  - destruct Hpair as [H0 H1].
    destruct (transpose_twice_at t d0 d1 Hv Hrank H0 H1) as (t' & ? & _ & ?).
    eauto.
  - destruct (transpose_twice_at t (-2) (-1) Hv Hrank) as (t' & H1 & Hlen & H2);
      [lia | lia |].
    exists t'.
    rewrite (transpose_default t (length (shape t))) by (auto; lia).
    rewrite (transpose_default t' (length (shape t))) by (auto; lia).
    auto.
Qed.

End Transpose.

Lemma transpose_involutive_witness :
  exists t',
    tensor.transpose t_3x2 (Some 0) (Some (-1)) = Ok t' /\
    tensor.transpose t' (Some 0) (Some (-1)) = Ok t_3x2.
Proof.
  apply (transpose_involutive t_3x2 (Some 0) (Some (-1))).
  - repeat split.
  - cbn. lia.
  - cbn. lia.
Defined.

(* ===================================================================== *)
(** * Further properties of the class                                     *)
(* ===================================================================== *)

(* ===================================================================== *)
(** ** Reading an array through its own strides                           *)
(* ===================================================================== *)

(** Through the row-major strides of [s], the first [numel s] elements
    are read in order. *)
Lemma gather_strides (s : list nat) (d : list spec_float) :
  (numel s <= length d)%nat -> gather s (strides s) d = firstn (numel s) d.
Proof.
  intros Hl. apply nth_ext with (d := fzero) (d' := fzero).
  - rewrite length_gather, length_firstn. lia.
  - rewrite length_gather. intros k Hk.
    rewrite nth_gather, ravel_unravel by assumption.
    rewrite nth_firstn. apply Nat.ltb_lt in Hk. now rewrite Hk.
Qed.

Lemma gather_strides_all (s : list nat) (d : list spec_float) :
  length d = numel s -> gather s (strides s) d = d.
Proof.
  intros Hl. rewrite gather_strides by lia. rewrite <- Hl. apply firstn_all.
Qed.

Lemma astype_same (a : ndarray) : np.astype (nd_dtype a) a = a.
Proof. unfold np.astype. now destruct (nd_dtype a). Qed.

Lemma astype_float32 (a : ndarray) : nd_dtype a = float32 -> np.astype float32 a = a.
Proof. intros H. rewrite <- H. apply astype_same. Qed.

(* ===================================================================== *)
(** ** The constructor on nested lists                                    *)
(* ===================================================================== *)

Lemma float_of_int_f32 (z : Z) (x : spec_float) :
  float_of_int z = Ok x -> cast float32 x = f32 z.
Proof.
  unfold float_of_int, f32.
  destruct (binary_normalize 53 1024 z 0 false); intros [= <-]; reflexivity.
Qed.

(** *** Shape discovery on lists of ints *)

Section Discovery.

(** Once the depth is fixed, a scalar at that depth changes nothing. *)
Lemma visit_int_reached (c : nat) (z : Z) (sh : list nat) (rg : bool) :
  np.visit c (PyInt z) (np.mk_discovery (Some c) sh true rg)
  = np.mk_discovery (Some c) sh true rg.
Proof.
  cbn [np.visit]. unfold np.visit_leaf, np.update_shape.
  cbn [np.dc_max np.dc_reached np.dc_shape np.dc_ragged length].
  rewrite Nat.add_0_r, Nat.leb_refl, Nat.eqb_refl, Nat.sub_diag. reflexivity.
Qed.

Lemma fold_ints_reached (c : nat) (l : list Z) (sh : list nat) (rg : bool) :
  fold_left (fun st o => np.visit c o st) (map PyInt l)
    (np.mk_discovery (Some c) sh true rg)
  = np.mk_discovery (Some c) sh true rg.
Proof.
  induction l as [|z l IH]; [reflexivity|].
  cbn [map fold_left]. now rewrite visit_int_reached.
Qed.

Lemma store_end (pre : list nat) (v : nat) :
  np.store (length pre) v pre = (pre ++ [v])%list.
Proof.
  unfold np.store. rewrite Nat.ltb_irrefl, Nat.sub_diag. reflexivity.
Qed.

(** The first list of ints met, at depth [c]: it records its length and
    fixes the depth at [c + 1]. *)
Lemma visit_ints_first (c : nat) (l : list Z) (pre : list nat) (rg : bool) :
  length pre = c ->
  np.visit c (ints l) (np.mk_discovery None pre false rg)
  = np.mk_discovery (Some (S c)) (pre ++ [length l]) true rg.
Proof.
  intros <-. unfold ints. cbn [np.visit np.dc_max].
  unfold np.update_shape.
  cbn [np.dc_max np.dc_reached np.dc_shape np.dc_ragged andb negb fst snd np.record].
  rewrite store_end, length_map.
  destruct l as [|z l]; [reflexivity|].
  cbn [map fold_left np.visit]. unfold np.visit_leaf, np.update_shape.
  cbn [np.dc_max np.dc_reached np.dc_shape np.dc_ragged andb negb fst snd
       np.record length].
  rewrite Nat.add_0_r. apply fold_ints_reached.
Qed.

(** A later list of ints at depth [c]: it is compared with the recorded
    extent, and a difference cuts the depth back to [c]. *)
Lemma visit_ints_next (c : nat) (l : list Z) (sh : list nat) (rg : bool) :
  np.visit c (ints l) (np.mk_discovery (Some (S c)) sh true rg)
  = if Nat.eqb (length l) (nth c sh 0%nat)
    then np.mk_discovery (Some (S c)) sh true rg
    else np.mk_discovery (Some c) sh true true.
Proof.
  unfold ints. cbn [np.visit np.dc_max].
  replace (Nat.eqb c (S c)) with false by (symmetry; apply Nat.eqb_neq; lia).
  unfold np.update_shape.
  cbn [np.dc_max np.dc_reached np.dc_shape np.dc_ragged length].
  replace (S c - c)%nat with 1%nat by lia.
  cbn [firstn np.first_clash]. rewrite length_map.
  destruct (Nat.eqb (length l) (nth c sh 0%nat)).
  - replace (Nat.leb (c + 1) (S c)) with true by (symmetry; apply Nat.leb_le; lia).
    cbn [andb negb fst snd].
    destruct l as [|z l]; [reflexivity|].
    cbn [map]. apply (fold_ints_reached (S c) (z :: l)).
  - reflexivity.
Qed.

(** After the depth was cut back to [c], a list at depth [c] counts as a
    leaf. *)
Lemma visit_ints_cut (c : nat) (l : list Z) (sh : list nat) :
  np.visit c (ints l) (np.mk_discovery (Some c) sh true true)
  = np.mk_discovery (Some c) sh true true.
Proof.
  unfold ints. cbn [np.visit np.dc_max]. rewrite Nat.eqb_refl.
  unfold np.visit_leaf, np.update_shape.
  cbn [np.dc_max np.dc_reached np.dc_shape np.dc_ragged length].
  rewrite Nat.add_0_r, Nat.leb_refl, Nat.eqb_refl, Nat.sub_diag. reflexivity.
Qed.

Lemma fold_rows_cut (rows : list (list Z)) (sh : list nat) :
  fold_left (fun st o => np.visit 1 o st) (map ints rows)
    (np.mk_discovery (Some 1%nat) sh true true)
  = np.mk_discovery (Some 1%nat) sh true true.
Proof.
  induction rows as [|r rows IH]; [reflexivity|].
  cbn [map fold_left]. now rewrite visit_ints_cut.
Qed.

Lemma fold_rows (n : nat) (rows : list (list Z)) (sh : list nat) :
  nth 1 sh 0%nat = n ->
  fold_left (fun st o => np.visit 1 o st) (map ints rows)
    (np.mk_discovery (Some 2%nat) sh true false)
  = if forallb (fun r => Nat.eqb (length r) n) rows
    then np.mk_discovery (Some 2%nat) sh true false
    else np.mk_discovery (Some 1%nat) sh true true.
Proof.
  intros Hn. induction rows as [|r rows IH]; [reflexivity|].
  cbn [map fold_left forallb]. rewrite visit_ints_next, Hn.
  destruct (Nat.eqb (length r) n); cbn [andb]; [exact IH | apply fold_rows_cut].
Qed.

(** A flat list of ints is not ragged. *)
Lemma discovered_ints (l : list Z) :
  np.discovered (ints l) = np.mk_discovery (Some 1%nat) [length l] true false.
Proof. unfold np.discovered. now rewrite (visit_ints_first 0 l []). Qed.

(** Rows of ints: the nesting is ragged exactly when some row differs in
    length from the first one, and then the extents agree down to depth 1
    only. *)
Lemma discovered_rows (r1 : list Z) (rest : list (list Z)) :
  np.discovered (rows_obj (r1 :: rest))
  = if forallb (fun r => Nat.eqb (length r) (length r1)) rest
    then np.mk_discovery (Some 2%nat) [S (length rest); length r1] true false
    else np.mk_discovery (Some 1%nat) [S (length rest); length r1] true true.
Proof.
  unfold np.discovered, rows_obj. cbn [np.visit np.dc_max map].
  unfold np.update_shape.
  cbn [np.dc_max np.dc_reached np.dc_shape np.dc_ragged andb negb fst snd
       np.record length].
  rewrite (store_end [] _). cbn [app fold_left]. rewrite length_map.
  rewrite (visit_ints_first 1 r1 [S (length rest)]) by reflexivity.
  cbn [app]. now apply fold_rows.
Qed.

End Discovery.

Lemma array_not_ragged (o : pyobj) (d : DType) :
  np.dc_ragged (np.discovered o) = false ->
  np.array o (Some d)
  = (let! a := np.discover (np.inhomogeneous o)
                 (Exn ValueError "setting an array element with a sequence.") o in
     Ok (np.astype d a)).
Proof. intros H. unfold np.array. now rewrite H. Qed.

(** The doubles of a list of convertible ints. *)
Lemma discover_each_ints (e e' : exn) (l : list Z) :
  Forall convertible l ->
  exists xs,
    (fix each (l : list pyobj) : result (list ndarray) :=
       match l with
       | [] => Ok []
       | o :: r => let! a := np.discover e e' o in
                   let! r' := each r in Ok (a :: r')
       end) (map PyInt l)
    = Ok (map (fun x => mk_ndarray float64 [] [x]) xs) /\
    length xs = length l /\ map (cast float32) xs = map f32 l.
Proof.
  induction 1 as [|z l [x Hx] _ (xs & IH & Hlen & Hc)].
  - exists []. repeat split.
  - exists (x :: xs). cbn [map np.discover]. rewrite Hx. cbn [Py.bind].
    rewrite IH. cbn [Py.bind map length]. repeat split.
    + congruence.
    + now rewrite (float_of_int_f32 z x Hx), Hc.
Qed.

Lemma concat_scalars (l : list spec_float) :
  concat (map (fun b => nd_data (np.astype float64 b))
            (map (fun x => mk_ndarray float64 [] [x]) l)) = l.
Proof. induction l as [|y l IH]; [reflexivity|]. cbn. now rewrite IH. Qed.

Lemma stack_scalars (e : exn) (xs : list spec_float) :
  np.stack e (map (fun x => mk_ndarray float64 [] [x]) xs)
  = Ok (mk_ndarray float64 [length xs] xs).
Proof.
  destruct xs as [|x xs]; [reflexivity|].
  unfold np.stack. cbn [map].
  replace (forallb _ _) with true.
  2:{ symmetry. apply forallb_forall. intros b Hb.
      apply in_map_iff in Hb. destruct Hb as (y & <- & _). reflexivity. }
  assert (Hd : fold_right (fun b acc => result_type (nd_dtype b) acc) float64
                 (map (fun x => mk_ndarray float64 [] [x]) xs) = float64).
  { induction xs as [|y ys IH]; [reflexivity|].
    cbn [map fold_right nd_dtype]. now destruct (fold_right _ _ _). }
  cbn [nd_dtype nd_shape]. rewrite Hd. cbn [length]. rewrite length_map.
  f_equal. f_equal. apply (concat_scalars (x :: xs)).
Qed.

Lemma concat_rows (n : nat) (l : list (list spec_float)) :
  concat (map (fun b => nd_data (np.astype float64 b))
            (map (fun xs => mk_ndarray float64 [n] xs) l)) = concat l.
Proof. induction l as [|y l IH]; [reflexivity|]. cbn. now rewrite IH. Qed.

Lemma stack_rows (e : exn) (n : nat) (xss : list (list spec_float)) :
  xss <> [] ->
  np.stack e (map (fun xs => mk_ndarray float64 [n] xs) xss)
  = Ok (mk_ndarray float64 [length xss; n] (concat xss)).
Proof.
  destruct xss as [|xs xss]; [congruence|]. intros _.
  unfold np.stack. cbn [map].
  replace (forallb _ _) with true.
  2:{ symmetry. apply forallb_forall. intros b Hb.
      apply in_map_iff in Hb. destruct Hb as (y & <- & _). cbn.
      now rewrite Nat.eqb_refl. }
  assert (Hd : fold_right (fun b acc => result_type (nd_dtype b) acc) float64
                 (map (fun xs => mk_ndarray float64 [n] xs) xss) = float64).
  { induction xss as [|y ys IH]; [reflexivity|].
    cbn [map fold_right nd_dtype]. now destruct (fold_right _ _ _). }
  cbn [nd_dtype nd_shape]. rewrite Hd. cbn [length]. rewrite length_map.
  f_equal. f_equal. apply (concat_rows n (xs :: xss)).
Qed.

(** A flat list of ints is converted to a float64 vector. *)
Lemma discover_ints (e e' : exn) (l : list Z) :
  Forall convertible l ->
  exists xs,
    np.discover e e' (ints l) = Ok (mk_ndarray float64 [length l] xs) /\
    length xs = length l /\ map (cast float32) xs = map f32 l.
Proof.
  intros H. destruct (discover_each_ints e e' l H) as (xs & Hx & Hlen & Hc).
  exists xs. unfold ints. cbn [np.discover]. rewrite Hx. cbn [Py.bind].
  rewrite stack_scalars, Hlen. auto.
Qed.

(** [Tensor([z1, ..., zn])] and [Tensor([[...], ..., [...]])]: a list of
    [n] ints that [float()] accepts gives shape (n,), and [m >= 1] such
    lists of one length [n] give shape (m, n); the elements are the ints
    rounded to float32, row after row. *)
Theorem init_nested_ints (l : list Z) (rows : list (list Z)) (n : nat) :
  Forall convertible l ->
  rows <> [] -> Forall (fun r => length r = n) rows ->
  Forall (Forall convertible) rows ->
  tensor.__init__ (ints l) = Ok (lit [length l] l) /\
  tensor.__init__ (rows_obj rows) = Ok (lit [length rows; n] (concat rows)).
Proof.
  intros Hl Hne Hn Hc. split.
  - unfold tensor.__init__.
    rewrite array_not_ragged by (now rewrite discovered_ints).
    destruct (discover_ints (np.inhomogeneous (ints l))
                (Exn ValueError "setting an array element with a sequence.") l Hl)
      as (xs & Hx & Hlen & Hcast).
    rewrite Hx. cbn.
    unfold lit. rewrite Hcast. cbn. now rewrite Nat.mul_1_r.
  - assert (Hrag : np.dc_ragged (np.discovered (rows_obj rows)) = false).
    { destruct rows as [|r1 rest]; [congruence|]. rewrite discovered_rows.
      inversion Hn as [|? ? Hr1 Hrest]; subst.
      replace (forallb _ rest) with true; [reflexivity|].
      symmetry. apply forallb_forall. intros r Hr. apply Nat.eqb_eq.
      rewrite List.Forall_forall in Hrest. now apply Hrest. }
    set (e0 := np.inhomogeneous (rows_obj rows)).
    set (e := Exn ValueError "setting an array element with a sequence.").
    assert (Hrows : exists xss,
      (fix each (l : list pyobj) : result (list ndarray) :=
         match l with
         | [] => Ok []
         | o :: r => let! a := np.discover e0 e o in
                     let! r' := each r in Ok (a :: r')
         end) (map ints rows)
      = Ok (map (fun xs => mk_ndarray float64 [n] xs) xss) /\
      length xss = length rows /\
      map (cast float32) (concat xss) = map f32 (concat rows)).
    { clear Hne Hrag. generalize e0. intros e1.
      induction rows as [|r rows IH].
      - exists []. repeat split.
      - inversion Hn as [|? ? Hr Hn']; inversion Hc as [|? ? Hcr Hc']; subst.
        destruct (IH Hn' Hc') as (xss & IHx & Hlen & Hcast).
        destruct (discover_ints e1 e r Hcr) as (xs & Hx & Hlx & Hcx).
        exists (xs :: xss). cbn [map]. rewrite Hx. cbn [Py.bind].
        rewrite IHx. cbn [Py.bind map length concat]. repeat split.
        + congruence.
        + now rewrite !map_app, Hcx, Hcast. }
    destruct Hrows as (xss & Hx & Hlen & Hcast).
    unfold tensor.__init__. rewrite array_not_ragged by exact Hrag.
    fold e0 e. unfold rows_obj. cbn [np.discover].
    fold (rows_obj rows). rewrite Hx. cbn [Py.bind].
    rewrite stack_rows
      by (intros ->; destruct rows; [congruence | discriminate]).
    rewrite Hlen.
    cbn [Py.bind]. unfold lit, np.astype, np.size.
    cbn [dtype_eqb nd_dtype nd_shape nd_data data].
    now rewrite Hcast.
Qed.

Lemma init_nested_ints_witness :
  tensor.__init__ (ints [1; 2; 3]) = Ok (lit [length [1; 2; 3]] [1; 2; 3]) /\
  tensor.__init__ (rows_obj [[1; 2]; [3; 4]; [5; 6]])
  = Ok (lit [length [[1; 2]; [3; 4]; [5; 6]]; 2%nat] (concat [[1; 2]; [3; 4]; [5; 6]])).
Proof.
  apply (init_nested_ints [1; 2; 3] [[1; 2]; [3; 4]; [5; 6]] 2).
  - repeat constructor; eexists; reflexivity.
  - discriminate.
  - repeat constructor.
  - repeat constructor; eexists; reflexivity.
Defined.

(** Ragged nesting: when some row differs in length from the first one,
    [Tensor(rows)] raises the backend's ValueError, before any element is
    converted; the message says that the extents agree after 1 dimension
    only and gives the detected shape, the number of rows. *)
Theorem init_ragged (r1 : list Z) (rest : list (list Z)) :
  Exists (fun r => length r <> length r1) rest ->
  tensor.__init__ (rows_obj (r1 :: rest))
  = Raise (Exn ValueError
             ("setting an array element with a sequence. The requested array has an inhomogeneous shape after 1 dimensions. The detected shape was "
              ++ np.repr_tuple [S (length rest)] ++ " + inhomogeneous part.")).
Proof.
  intros Hex.
  assert (Hall : forallb (fun r => Nat.eqb (length r) (length r1)) rest = false).
  { apply not_true_is_false. intros Hall. rewrite forallb_forall in Hall.
    apply List.Exists_exists in Hex. destruct Hex as (r & Hin & Hlen).
    apply Hlen, Nat.eqb_eq, Hall, Hin. }
  unfold tensor.__init__, np.array, np.inhomogeneous.
  rewrite discovered_rows, Hall. reflexivity.
Qed.

Lemma init_ragged_witness :
  tensor.__init__ (rows_obj [[1; 2]; [3]])
  = Raise (Exn ValueError
             "setting an array element with a sequence. The requested array has an inhomogeneous shape after 1 dimensions. The detected shape was (2,) + inhomogeneous part.").
Proof.
  apply (init_ragged [1; 2] [[3]]).
  apply Exists_cons_hd. cbn. lia.
Defined.

(* ===================================================================== *)
(** ** Element-wise operators on Tensors and numbers                      *)
(* ===================================================================== *)

Section Elementwise.

Variable f : DType -> spec_float -> spec_float -> spec_float.

Lemma broadcast_rev_same (r : list nat) : np.broadcast_rev r r = Some r.
Proof.
  induction r as [|d r IH]; [reflexivity|]. cbn. now rewrite IH, Nat.eqb_refl.
Qed.

Lemma broadcast_shapes_same (s : list nat) : np.broadcast_shapes s s = Some s.
Proof.
  unfold np.broadcast_shapes. rewrite broadcast_rev_same. cbn.
  now rewrite rev_involutive.
Qed.

(** The broadcast strides of a shape onto itself address every element
    where the plain strides do. *)
Lemma dotp_bstrides_same (s : list nat) (k : nat) :
  (k < numel s)%nat -> dotp (unravel s k) (np.bstrides s s) = k.
Proof.
  unfold np.bstrides. rewrite Nat.sub_diag. cbn [repeat app].
  revert k. induction s as [|d s IH]; intros k Hk.
  - cbn in *. lia.
  - rewrite numel_cons in Hk. cbn [unravel strides combine map dotp fst snd].
    assert (numel s <> 0)%nat by (intros E; rewrite E in Hk; lia).
    rewrite IH by (now apply Nat.mod_upper_bound).
    pose proof (Nat.div_mod_eq k (numel s)) as Hdm.
    destruct (Nat.eqb d 1) eqn:E.
    + apply Nat.eqb_eq in E. subst d.
      rewrite Nat.div_small by lia. rewrite Nat.mod_small by lia. lia.
    + lia.
Qed.

Lemma broadcast_to_same (a : ndarray) :
  wf a -> np.broadcast_to (nd_shape a) a = nd_data a.
Proof.
  intros Hwf. unfold np.broadcast_to.
  apply nth_ext with (d := fzero) (d' := fzero).
  - now rewrite length_gather.
  - rewrite length_gather. intros k Hk.
    now rewrite nth_gather, dotp_bstrides_same.
Qed.

Lemma dotp_zeros (idx : list nat) (n : nat) : dotp idx (repeat 0%nat n) = 0%nat.
Proof.
  revert n. induction idx as [|i idx IH]; intros [|n]; cbn; try reflexivity.
  rewrite IH. lia.
Qed.

Lemma broadcast_to_scalar (s : list nat) (d : DType) (c : spec_float) :
  np.broadcast_to s (mk_ndarray d [] [c]) = repeat c (numel s).
Proof.
  unfold np.broadcast_to, np.bstrides, gather. cbn [nd_shape nd_data length strides combine map].
  rewrite Nat.sub_0_r, app_nil_r.
  generalize (numel s) at 1 2. intros n.
  assert (H : forall m, map (fun k => nth (dotp (unravel s k) (repeat 0%nat (length s)))
                                   [c] fzero) (seq m n) = repeat c n).
  { induction n as [|n IH]; intros m; [reflexivity|].
    cbn [seq map repeat]. rewrite dotp_zeros, IH. reflexivity. }
  apply H.
Qed.

Lemma pointwise_repeat (g : spec_float -> spec_float -> spec_float)
    (l : list spec_float) (c : spec_float) :
  pointwise g l (repeat c (length l)) = map (fun e => g e c) l.
Proof.
  unfold pointwise. induction l as [|x l IH]; [reflexivity|].
  cbn. now rewrite IH.
Qed.

(** Arrays of one shape are combined position by position. *)
Lemma ufunc2_same_shape (a b : ndarray) :
  wf a -> wf b -> nd_dtype a = float32 -> nd_dtype b = float32 ->
  nd_shape a = nd_shape b ->
  np.ufunc2 f a b
  = Ok (mk_ndarray float32 (nd_shape a)
          (pointwise (f float32) (nd_data a) (nd_data b))).
Proof.
  intros Ha Hb Hda Hdb Hs. unfold np.ufunc2.
  rewrite <- Hs, broadcast_shapes_same, Hda, Hdb. cbn [result_type].
  rewrite !astype_float32 by assumption.
  rewrite broadcast_to_same by assumption.
  rewrite Hs, broadcast_to_same by assumption. reflexivity.
Qed.

(** A 0-dimensional operand is combined with every element. *)
Lemma ufunc2_scalar (a : ndarray) (c : spec_float) :
  wf a -> nd_dtype a = float32 ->
  np.ufunc2 f a (mk_ndarray float32 [] [c])
  = Ok (mk_ndarray float32 (nd_shape a) (map (fun e => f float32 e c) (nd_data a))).
Proof.
  intros Ha Hda. unfold np.ufunc2. cbn [nd_shape nd_dtype].
  rewrite broadcast_shapes_nil_r, Hda. cbn [result_type].
  rewrite astype_float32 by assumption.
  rewrite broadcast_to_same by assumption.
  unfold np.astype. cbn [dtype_eqb nd_dtype].
  rewrite broadcast_to_scalar. rewrite <- Ha.
  fold (pointwise (f float32) (nd_data a) (repeat c (length (nd_data a)))).
  now rewrite pointwise_repeat.
Qed.

(** Whatever the operands, a binary ufunc that succeeds returns a
    well-formed array of the broadcast shape. *)
Lemma ufunc2_wf (a b r : ndarray) :
  np.ufunc2 f a b = Ok r ->
  wf r /\ np.broadcast_shapes (nd_shape a) (nd_shape b) = Some (nd_shape r) /\
  nd_dtype r = result_type (nd_dtype a) (nd_dtype b).
Proof.
  unfold np.ufunc2. destruct (np.broadcast_shapes _ _) as [s|]; [|discriminate].
  intros [= <-]. unfold wf, np.broadcast_to. cbn [nd_data nd_shape nd_dtype].
  rewrite length_map, length_combine, !length_gather. repeat split. lia.
Qed.

(** Trailing extents that differ, neither being 1, do not broadcast. *)
Lemma broadcast_shapes_clash (p1 p2 : list nat) (d1 d2 : nat) :
  d1 <> d2 -> d1 <> 1%nat -> d2 <> 1%nat ->
  np.broadcast_shapes (p1 ++ [d1]) (p2 ++ [d2]) = None.
Proof.
  intros H12 H1 H2. unfold np.broadcast_shapes. rewrite !rev_app_distr. cbn.
  apply Nat.eqb_neq in H12, H1, H2. rewrite H12, H1, H2.
  now destruct (np.broadcast_rev _ _).
Qed.

End Elementwise.

(** One Tensor-Tensor operator, by its ufunc. *)
Lemma tensor_operator_same_shape f (a b : Tensor) :
  valid a -> valid b -> shape a = shape b ->
  (let! r := np.ufunc2 f (data a) (data b) in
   let! t := tensor.__init__ (NpArray r) in Ok (TensorObj t))
  = Ok (TensorObj (tensor_of (shape a)
                     (pointwise (f float32) (nd_data (data a)) (nd_data (data b))))).
Proof.
  intros (Hwa & Hda & Hsa & _) (Hwb & Hdb & Hsb & _) Hs.
  rewrite ufunc2_same_shape by congruence. cbn [Py.bind].
  rewrite init_array by reflexivity. cbn [Py.bind].
  unfold tensor_of, np.size. cbn [nd_shape]. now rewrite <- Hsa.
Qed.

(** On two Tensors of the same shape, [+], [-], [*] and [/] return the
    Tensor of that shape whose elements are the float32 sum, difference,
    product and quotient of the elements at the same position. *)
Theorem operators_same_shape (a b : Tensor) :
  valid a -> valid b -> shape a = shape b ->
  tensor.__add__ a (TensorObj b)
  = Ok (TensorObj (tensor_of (shape a)
          (pointwise (fadd float32) (nd_data (data a)) (nd_data (data b))))) /\
  tensor.__sub__ a (TensorObj b)
  = Ok (TensorObj (tensor_of (shape a)
          (pointwise (fsub float32) (nd_data (data a)) (nd_data (data b))))) /\
  tensor.__mul__ a (TensorObj b)
  = Ok (TensorObj (tensor_of (shape a)
          (pointwise (fmul float32) (nd_data (data a)) (nd_data (data b))))) /\
  tensor.__truediv__ a (TensorObj b)
  = Ok (TensorObj (tensor_of (shape a)
          (pointwise (fdiv float32) (nd_data (data a)) (nd_data (data b))))).
Proof.
  intros Ha Hb Hs.
  repeat split; now apply tensor_operator_same_shape.
Qed.

Lemma operators_same_shape_witness :
  tensor.__add__ t_1234 (TensorObj t_1234)
  = Ok (TensorObj (tensor_of (shape t_1234)
          (pointwise (fadd float32) (nd_data (data t_1234)) (nd_data (data t_1234))))).
Proof.
  apply (operators_same_shape t_1234 t_1234); repeat split.
Defined.

(** A valid rank-0 Tensor holds one element. *)
Lemma valid_scalar (s : Tensor) :
  valid s -> shape s = [] ->
  exists c, data s = mk_ndarray float32 [] [c].
Proof.
  intros (Hw & Hd & Hs & _) H0. rewrite Hs in H0.
  destruct (data s) as [d sh l]. unfold wf in Hw. cbn in *. subst.
  rewrite H0 in *. cbn in Hw.
  destruct l as [|c [|? ?]]; cbn in Hw; try lia. now exists c.
Qed.

Lemma tensor_operator_scalar f (a : Tensor) (c : spec_float) :
  valid a ->
  (let! r := np.ufunc2 f (data a) (mk_ndarray float32 [] [c]) in
   let! t := tensor.__init__ (NpArray r) in Ok (TensorObj t))
  = Ok (TensorObj (tensor_of (shape a)
                     (map (fun e => f float32 e c) (nd_data (data a))))).
Proof.
  intros (Hwa & Hda & Hsa & _).
  rewrite ufunc2_scalar by assumption. cbn [Py.bind].
  rewrite init_array by reflexivity. cbn [Py.bind].
  unfold tensor_of, np.size. cbn [nd_shape]. now rewrite <- Hsa.
Qed.

(** With a rank-0 Tensor as right operand, every operator succeeds and
    combines each element of [self] with the one element of the operand;
    the shape of [self] is kept. *)
Theorem operators_scalar_tensor (a s : Tensor) :
  valid a -> valid s -> shape s = [] ->
  exists c, nd_data (data s) = [c] /\
    tensor.__add__ a (TensorObj s)
    = Ok (TensorObj (tensor_of (shape a)
            (map (fun e => fadd float32 e c) (nd_data (data a))))) /\
    tensor.__sub__ a (TensorObj s)
    = Ok (TensorObj (tensor_of (shape a)
            (map (fun e => fsub float32 e c) (nd_data (data a))))) /\
    tensor.__mul__ a (TensorObj s)
    = Ok (TensorObj (tensor_of (shape a)
            (map (fun e => fmul float32 e c) (nd_data (data a))))) /\
    tensor.__truediv__ a (TensorObj s)
    = Ok (TensorObj (tensor_of (shape a)
            (map (fun e => fdiv float32 e c) (nd_data (data a))))).
Proof.
  intros Ha Hs H0. destruct (valid_scalar s Hs H0) as [c Hc].
  exists c. unfold tensor.__add__, tensor.__sub__, tensor.__mul__,
    tensor.__truediv__, np.add, np.subtract, np.multiply, np.divide.
  rewrite Hc. cbn [nd_data].
  repeat split; now apply tensor_operator_scalar.
Qed.

Lemma operators_scalar_tensor_witness :
  exists c, nd_data (data t_scalar) = [c] /\
    tensor.__mul__ t_1234 (TensorObj t_scalar)
    = Ok (TensorObj (tensor_of (shape t_1234)
            (map (fun e => fmul float32 e c) (nd_data (data t_1234))))).
Proof.
  destruct (operators_scalar_tensor t_1234 t_scalar) as (c & Hc & _ & _ & Hm & _);
    [repeat split | repeat split | reflexivity |].
  exists c. split; assumption.
Defined.

Lemma binop_weak_scalar f (a : Tensor) (o : pyobj) (c : spec_float) :
  valid a -> weak_scalar o c ->
  np.binop f (data a) o
  = Ok (mk_ndarray float32 (shape a) (map (fun e => f float32 e c) (nd_data (data a)))).
Proof.
  intros (Hwa & Hda & Hsa & _) [(z & x & -> & Hx & ->)|(x & -> & ->)];
    unfold np.binop; rewrite ?Hx; cbn [Py.bind]; rewrite Hda;
    rewrite ufunc2_scalar by assumption; now rewrite Hsa.
Qed.

(** With a Python number as right operand, every element of [self] is
    combined with the number rounded to float32: [+], [-] and [*] return
    the backend array of the results, [/] returns the Tensor of them. *)
Theorem operators_number (a : Tensor) (o : pyobj) (c : spec_float) :
  valid a -> weak_scalar o c ->
  tensor.__add__ a o
  = Ok (NpArray (mk_ndarray float32 (shape a)
                   (map (fun e => fadd float32 e c) (nd_data (data a))))) /\
  tensor.__sub__ a o
  = Ok (NpArray (mk_ndarray float32 (shape a)
                   (map (fun e => fsub float32 e c) (nd_data (data a))))) /\
  tensor.__mul__ a o
  = Ok (NpArray (mk_ndarray float32 (shape a)
                   (map (fun e => fmul float32 e c) (nd_data (data a))))) /\
  tensor.__truediv__ a o
  = Ok (TensorObj (tensor_of (shape a)
                     (map (fun e => fdiv float32 e c) (nd_data (data a))))).
Proof.
  intros Ha Ho. pose proof Ho as Ho'.
  unfold tensor.__add__, tensor.__sub__, tensor.__mul__, tensor.__truediv__.
  destruct Ho' as [(z & x & -> & _)|(x & -> & _)];
    rewrite !(binop_weak_scalar _ a _ c Ha Ho); cbn [Py.bind];
    rewrite init_array by reflexivity; cbn [Py.bind];
    unfold tensor_of, np.size; cbn [nd_shape]; repeat split.
Qed.

Lemma operators_number_witness :
  tensor.__truediv__ t_123 (PyInt 0)
  = Ok (TensorObj (tensor_of (shape t_123)
                     (map (fun e => fdiv float32 e (f32 0)) (nd_data (data t_123))))).
Proof.
  apply (operators_number t_123 (PyInt 0) (f32 0)).
  - repeat split.
  - left. exists 0, (S754_zero false). repeat split.
Defined.

(** The shape recorded by the constructor for a backend array. *)
Lemma init_array_shape (a : ndarray) (t : Tensor) :
  tensor.__init__ (NpArray a) = Ok t -> shape t = nd_shape a.
Proof.
  intros H. destruct (init_shape a) as (r & Hr & Hs). congruence.
Qed.

(** When the last extents of the two Tensors differ and neither is 1, all
    four operators raise the backend's ValueError, which shows both
    shapes. *)
Theorem operators_shape_clash (a b : Tensor) (p1 p2 : list nat) (d1 d2 : nat) :
  nd_shape (data a) = (p1 ++ [d1])%list -> nd_shape (data b) = (p2 ++ [d2])%list ->
  d1 <> d2 -> d1 <> 1%nat -> d2 <> 1%nat ->
  let e := Exn ValueError
             ("operands could not be broadcast together with shapes "
              ++ np.repr_shape (shape_Z (p1 ++ [d1])) ++ " "
              ++ np.repr_shape (shape_Z (p2 ++ [d2])) ++ " ") in
  tensor.__add__ a (TensorObj b) = Raise e /\
  tensor.__sub__ a (TensorObj b) = Raise e /\
  tensor.__mul__ a (TensorObj b) = Raise e /\
  tensor.__truediv__ a (TensorObj b) = Raise e.
Proof.
  intros Ha Hb H12 H1 H2 e.
  unfold tensor.__add__, tensor.__sub__, tensor.__mul__, tensor.__truediv__,
    np.add, np.subtract, np.multiply, np.divide, np.ufunc2.
  rewrite Ha, Hb, broadcast_shapes_clash by assumption.
  repeat split.
Qed.

Lemma operators_shape_clash_witness :
  tensor.__add__ t_3x2 (TensorObj t_123)
  = Raise (Exn ValueError
             "operands could not be broadcast together with shapes (3,2) (3,) ").
Proof.
  apply (operators_shape_clash t_3x2 t_123 [3%nat] [] 2 3); try reflexivity; lia.
Defined.

(** Whenever an operator on two Tensors returns, it returns a Tensor that
    satisfies the constructor's invariant and has the broadcast of the two
    shapes as its shape. *)
Theorem operators_return_valid (a b : Tensor) (r : pyobj) :
  valid a -> valid b ->
  tensor.__add__ a (TensorObj b) = Ok r \/ tensor.__sub__ a (TensorObj b) = Ok r \/
  tensor.__mul__ a (TensorObj b) = Ok r \/ tensor.__truediv__ a (TensorObj b) = Ok r ->
  exists q, r = TensorObj q /\ valid q /\
            np.broadcast_shapes (shape a) (shape b) = Some (shape q).
Proof.
  intros (_ & _ & Hsa & _) (_ & _ & Hsb & _) H.
  unfold tensor.__add__, tensor.__sub__, tensor.__mul__, tensor.__truediv__,
    np.add, np.subtract, np.multiply, np.divide in H.
  destruct H as [H|[H|[H|H]]];
    apply bind_Ok_inv in H; destruct H as (x & Hx & H);
    apply bind_Ok_inv in H; destruct H as (q & Hq & [= <-]);
    apply ufunc2_wf in Hx; destruct Hx as (Hw & Hb & _);
    (exists q; split; [reflexivity|]; split;
     [ apply (init_valid (NpArray x)); [exact Hw | exact Hq]
     | rewrite init_array_shape with (a := x) (t := q) by exact Hq;
       now rewrite Hsa, Hsb ]).
Qed.

Lemma operators_return_valid_witness :
  exists q, TensorObj (lit [2%nat; 3%nat] [11; 12; 13; 21; 22; 23]) = TensorObj q /\
            valid q /\
            np.broadcast_shapes (shape (lit [2%nat; 1%nat] [10; 20])) (shape t_123)
            = Some (shape q).
Proof.
  apply (operators_return_valid (lit [2%nat; 1%nat] [10; 20]) t_123).
  - repeat split.
  - repeat split.
  - left. vm_compute. reflexivity.
Defined.

(* ===================================================================== *)
(** ** Matrix multiplication: operands and shapes                          *)
(* ===================================================================== *)

(** [matmul] refuses any operand that is not a Tensor with a TypeError;
    and with a rank-0 [self] and an operand of rank at least 2 the
    subscript [self.shape[-1]] fails with an IndexError. *)
Theorem matmul_operand_errors (self : Tensor) :
  (forall o, (forall t, o <> TensorObj t) ->
     tensor.matmul self o = Raise (Exn TypeError "Both elements must be tensors")) /\
  (forall other, shape self = [] -> (2 <= np.ndim (data other))%nat ->
     tensor.matmul self (TensorObj other)
     = Raise (Exn IndexError "tuple index out of range")).
Proof.
  split.
  - intros o Ho. destruct o; try reflexivity. exfalso. now apply (Ho t).
  - intros other Hs Hn. unfold tensor.matmul.
    destruct (np.ndim (data other)) as [|[|n]]; try lia.
    cbn [Nat.eqb]. rewrite Hs. reflexivity.
Qed.

Lemma matmul_operand_errors_witness :
  tensor.matmul t_scalar (TensorObj t_1234)
  = Raise (Exn IndexError "tuple index out of range").
Proof.
  apply (proj2 (matmul_operand_errors t_scalar) t_1234); [reflexivity | cbn; lia].
Defined.

Lemma matmul_inner_mismatch_witness :
  tensor.matmul t_1234 (TensorObj t_3x2)
  = Raise (Exn ValueError
             ("Inner dimensions must match. " ++ str_int (Z.of_nat 2)
              ++ " ≠ " ++ str_int (Z.of_nat 3))).
Proof.
  apply (matmul_inner_mismatch t_1234 t_3x2 2 3); [cbn; lia | reflexivity | reflexivity | lia].
Defined.

Section Matrices.

Lemma length_flat_map_rows {A} (g : nat -> nat -> A) (m n a : nat) :
  length (flat_map (fun i => map (g i) (seq 0 m)) (seq a n)) = (n * m)%nat.
Proof.
  revert a. induction n as [|n IH]; intros a; [reflexivity|].
  cbn [seq flat_map]. rewrite length_app, length_map, length_seq, IH. lia.
Qed.

Lemma length_mat_mul (d : DType) (n K m : nat) (A B : list spec_float) :
  length (np.mat_mul d n K m A B) = (n * m)%nat.
Proof. unfold np.mat_mul. apply length_flat_map_rows. Qed.

Lemma chunk_0_all (len : nat) (l : list spec_float) :
  length l = len -> chunk 0 len l = l.
Proof. intros <-. unfold chunk. cbn. apply firstn_all. Qed.

(** The backend's product of two float32 matrices. *)
Lemma np_matmul_2d (a b : ndarray) (n k m : nat) :
  wf a -> wf b -> nd_dtype a = float32 -> nd_dtype b = float32 ->
  nd_shape a = [n; k] -> nd_shape b = [k; m] ->
  np.matmul a b
  = Ok (mk_ndarray float32 [n; m] (np.mat_mul float32 n k m (nd_data a) (nd_data b))).
Proof.
  intros Ha Hb Hda Hdb Hsa Hsb. unfold wf in Ha, Hb.
  unfold np.matmul, np.ndim. rewrite Hsa, Hsb, Hda, Hdb.
  cbn [np.split_last2 rev app length Nat.eqb result_type].
  rewrite Nat.eqb_refl. cbn [negb np.broadcast_shapes np.broadcast_rev rev option_map].
  rewrite !astype_float32 by assumption.
  cbn [numel fold_right seq flat_map unravel np.bstrides length Nat.sub repeat
       strides combine map app dotp].
  rewrite !chunk_0_all, app_nil_r.
  - reflexivity.
  - rewrite Hb, Hsb. cbn. lia.
  - rewrite Ha, Hsa. cbn. lia.
Qed.

End Matrices.

(** The general path on two matrices: for an (n,k) Tensor other than a
    2x2 one and a (k,m) Tensor, [matmul] succeeds and returns a valid
    Tensor of shape (n,m) (a shape the backend can address: the model of
    the product itself sets no bound on the size of its result). *)
Theorem matmul_matrices (A B : Tensor) (n k m : nat) :
  valid A -> valid B -> shape A = [n; k] -> shape B = [k; m] ->
  n <> 2%nat \/ k <> 2%nat ->
  allocatable (shape_Z [n; m]) ->
  exists t,
    tensor.matmul A (TensorObj B) = Ok t /\ valid t /\ shape t = [n; m].
Proof.
  intros (Hwa & Hda & Hsa & _) (Hwb & Hdb & Hsb & _) HA HB Hne _.
  rewrite Hsa in HA. rewrite Hsb in HB.
  exists (tensor_of [n; m]
            (np.mat_mul float32 n k m (nd_data (data A)) (nd_data (data B)))).
  split; [|split].
  - unfold tensor.matmul, np.ndim. rewrite Hsa, Hsb, HA, HB.
    cbn [length Nat.eqb].
    replace (tuple_getitem [n; k] (-1)) with (Ok k) by reflexivity.
    replace (tuple_getitem [k; m] (-2)) with (Ok k) by reflexivity.
    cbn [Py.bind]. rewrite Nat.eqb_refl. cbn [negb].
    replace (np.shape_eqb [n; k] [2%nat; 2%nat]) with false.
    2:{ symmetry. cbn. destruct Hne as [H|H]; apply Nat.eqb_neq in H; rewrite H;
          [reflexivity | now rewrite andb_false_r]. }
    rewrite (np_matmul_2d _ _ n k m) by assumption. cbn [Py.bind].
    now rewrite init_array.
  - unfold valid, tensor_of, wf, np.size. cbn [data shape size dtype nd_data nd_shape nd_dtype].
    rewrite length_mat_mul. cbn. repeat split. lia.
  - reflexivity.
Qed.

Lemma matmul_matrices_witness :
  exists t,
    tensor.matmul (lit [2%nat; 3%nat] [1; 2; 3; 4; 5; 6]) (TensorObj t_3x2) = Ok t /\
    valid t /\ shape t = [2%nat; 2%nat].
Proof.
  apply (matmul_matrices (lit [2%nat; 3%nat] [1; 2; 3; 4; 5; 6]) t_3x2 2 3 2);
    try (repeat split; fail); try reflexivity.
  - right. lia.
  - split; [cbn; lia | vm_compute; discriminate].
Defined.

Section TwoByTwo.

Lemma norm_index_nonneg (n : nat) (z : Z) :
  0 <= z < Z.of_nat n -> norm_index n z = Some (Z.to_nat z).
Proof.
  intros Hz. unfold norm_index.
  replace (0 <=? z) with true by (symmetry; apply Z.leb_le; lia).
  replace (z <? Z.of_nat n) with true by (symmetry; apply Z.ltb_lt; lia).
  reflexivity.
Qed.

(** Row [i] of a 2x2 array. *)
Lemma getitem_row_2x2 (d : DType) (a0 a1 a2 a3 : spec_float) :
  np.getitem (mk_ndarray d [2%nat; 2%nat] [a0; a1; a2; a3]) [np.Idx 0; np.Slice_all]
  = Ok (mk_ndarray d [2%nat] [a0; a1]) /\
  np.getitem (mk_ndarray d [2%nat; 2%nat] [a0; a1; a2; a3]) [np.Idx 1; np.Slice_all]
  = Ok (mk_ndarray d [2%nat] [a2; a3]).
Proof. split; reflexivity. Qed.

(** Column [j] of a (2,m) array. *)
Lemma getitem_col_2xm (d : DType) (m : nat) (l : list spec_float) (j : Z) :
  0 <= j < Z.of_nat m ->
  np.getitem (mk_ndarray d [2%nat; m] l) [np.Slice_all; np.Idx j]
  = Ok (mk_ndarray d [2%nat]
          [nth (Z.to_nat j) l fzero; nth (m + Z.to_nat j) l fzero]).
Proof.
  intros Hj. unfold np.getitem, np.ndim.
  cbn [nd_shape nd_dtype nd_data length Nat.ltb Nat.leb strides np.index_view].
  rewrite norm_index_nonneg by assumption. cbn [Py.bind fst snd].
  unfold gather.
  cbn [numel fold_right Nat.mul Nat.add seq map unravel dotp].
  rewrite !nth_skipn. cbn [Nat.div Nat.divmod fst Nat.mul Nat.add].
  do 3 f_equal; [f_equal; lia | f_equal; f_equal; lia].
Qed.

End TwoByTwo.

(** A valid Tensor of shape (2,m) and its 2m elements. *)
Lemma valid_2xm (t : Tensor) (m : nat) :
  valid t -> shape t = [2%nat; m] ->
  exists l, length l = (2 * m)%nat /\
            t = mkTensor (mk_ndarray float32 [2%nat; m] l) [2%nat; m] (2 * m) float32.
Proof.
  intros (Hw & Hd & Hs & Hn & Hdt) H.
  destruct t as [[d sh l] sh' n dt]. unfold wf, np.size in *. cbn in *.
  subst sh' d dt n. subst sh. cbn in Hw. exists l. split; [lia|].
  cbn. repeat f_equal; lia.
Qed.

(** The 2x2 path against a (2,m) operand with [m >= 2]: four cells. *)
Lemma matmul_2x2_cells (a0 a1 a2 a3 : spec_float) (m n : nat) (l : list spec_float) :
  (2 <= m)%nat ->
  exists c00 c01 c10 c11,
    tensor.matmul_2x2
      (mkTensor (mk_ndarray float32 [2%nat; 2%nat] [a0; a1; a2; a3])
         [2%nat; 2%nat] 4 float32)
      (mkTensor (mk_ndarray float32 [2%nat; m] l) [2%nat; m] n float32)
    = Ok (tensor_of [2%nat; 2%nat] [c00; c01; c10; c11]).
Proof.
  intros Hm. unfold tensor.matmul_2x2, tensor.range.
  cbn [seq map tensor.for_in data].
  change (Z.of_nat 0) with 0. change (Z.of_nat 1) with 1.
  destruct (getitem_row_2x2 float32 a0 a1 a2 a3) as [-> ->].
  rewrite !(getitem_col_2xm float32 m l 0) by lia.
  rewrite !(getitem_col_2xm float32 m l 1) by lia.
  change (Z.to_nat 0) with 0%nat. change (Z.to_nat 1) with 1%nat.
  generalize (nth 0 l fzero) (nth (m + 0) l fzero)
             (nth 1 l fzero) (nth (m + 1) l fzero).
  intros b00 b10 b01 b11.
  do 4 eexists. cbv -[fadd fmul fzero]. reflexivity.
Qed.

(** The 2x2 path does not look at the width of the operand: for a 2x2
    [self] and a (2,m) operand with [m >= 2], [matmul] returns a valid
    Tensor of shape (2,2), where the backend's matrix product of the two
    arrays has shape (2,m). *)
Theorem matmul_2x2_wide (A B : Tensor) (m : nat) :
  valid A -> valid B -> shape A = [2%nat; 2%nat] -> shape B = [2%nat; m] ->
  (2 <= m)%nat ->
  (exists r, np.matmul (data A) (data B) = Ok r /\ nd_shape r = [2%nat; m]) /\
  (exists t, tensor.matmul A (TensorObj B) = Ok t /\ valid t /\
             shape t = [2%nat; 2%nat]).
Proof.
  intros HA HB HsA HsB Hm.
  destruct (valid_2x2 A HA HsA) as (a0 & a1 & a2 & a3 & ->).
  destruct (valid_2xm B m HB HsB) as (l & Hl & ->).
  split.
  - eexists. split.
    + apply (np_matmul_2d _ _ 2 2 m); try reflexivity.
      unfold wf. cbn. lia.
    + reflexivity.
  - destruct (matmul_2x2_cells a0 a1 a2 a3 m (2 * m) l Hm)
      as (c00 & c01 & c10 & c11 & Hc).
    eexists. split; [|split].
    + unfold tensor.matmul, np.ndim. cbn [data nd_shape length Nat.eqb shape].
      replace (tuple_getitem [2%nat; 2%nat] (-1)) with (Ok 2%nat) by reflexivity.
      replace (tuple_getitem [2%nat; m] (-2)) with (Ok 2%nat) by reflexivity.
      cbn [Py.bind Nat.eqb negb np.shape_eqb andb].
      exact Hc.
    + repeat split.
    + reflexivity.
Qed.

Lemma matmul_2x2_wide_witness :
  (exists r, np.matmul (data t_1234) (data (lit [2%nat; 3%nat] [1; 2; 3; 4; 5; 6])) = Ok r /\
             nd_shape r = [2%nat; 3%nat]) /\
  (exists t, tensor.matmul t_1234 (TensorObj (lit [2%nat; 3%nat] [1; 2; 3; 4; 5; 6])) = Ok t /\
             valid t /\ shape t = [2%nat; 2%nat]).
Proof.
  apply (matmul_2x2_wide t_1234 (lit [2%nat; 3%nat] [1; 2; 3; 4; 5; 6]) 3);
    try (repeat split; fail); try reflexivity.
  lia.
Defined.

(** Against a (2,1) operand the 2x2 path asks for a second column and
    fails with the backend's IndexError. *)
Theorem matmul_2x2_column (A B : Tensor) :
  valid A -> valid B -> shape A = [2%nat; 2%nat] -> shape B = [2%nat; 1%nat] ->
  tensor.matmul A (TensorObj B)
  = Raise (Exn IndexError "index 1 is out of bounds for axis 1 with size 1").
Proof.
  intros HA HB HsA HsB.
  destruct (valid_2x2 A HA HsA) as (a0 & a1 & a2 & a3 & ->).
  destruct (valid_2xm B 1 HB HsB) as (l & Hl & ->).
  destruct l as [|b0 [|b1 [|? ?]]]; try discriminate.
  cbv -[fadd fmul fzero]. reflexivity.
Qed.

Lemma matmul_2x2_column_witness :
  tensor.matmul t_1234 (TensorObj (lit [2%nat; 1%nat] [1; 2]))
  = Raise (Exn IndexError "index 1 is out of bounds for axis 1 with size 1").
Proof.
  apply (matmul_2x2_column t_1234 (lit [2%nat; 1%nat] [1; 2])); repeat split.
Defined.

(* ===================================================================== *)
(** ** Reshape: contents, count check and trailing wildcard               *)
(* ===================================================================== *)

Section ReshapeMore.

Lemma lookup_last {A} (l : list A) (d : A) :
  l <> [] -> l !! (length l - 1)%nat = Some (List.last l d).
Proof.
  induction l as [|x l IH]; [congruence|]. intros _.
  destruct l as [|y l]; [reflexivity|].
  cbn [length List.last]. replace (S (S (length l)) - 1)%nat with (S (length (y :: l) - 1))
    by (cbn; lia).
  cbn [lookup list_lookup]. apply IH. discriminate.
Qed.

Lemma last_map_f {A B} (g : A -> B) (l : list A) (d : A) :
  List.last (map g l) (g d) = g (List.last l d).
Proof.
  induction l as [|x l IH]; [reflexivity|].
  destruct l as [|y l]; [reflexivity|]. exact IH.
Qed.

Lemma tuple_getitem_last_eq {A} (l : list A) (d : A) :
  l <> [] -> tuple_getitem l (-1) = Ok (List.last l d).
Proof.
  intros Hl. unfold tuple_getitem, norm_index.
  assert (0 < length l)%nat by (destruct l; [congruence | cbn; lia]).
  replace (0 <=? -1) with false by reflexivity. cbn [andb].
  replace (- Z.of_nat (length l) <=? -1) with true by (symmetry; apply Z.leb_le; lia).
  cbn [andb Z.ltb Z.compare].
  replace (Z.to_nat (-1 + Z.of_nat (length l))) with (length l - 1)%nat by lia.
  now rewrite (lookup_last l d Hl).
Qed.

(** When the product of the dimensions asked for, taken in int64 as the
    backend takes it, differs from the element count, and the last
    dimension is not [-1], [reshape] raises its own ValueError, which
    shows the count and that product. *)
Theorem reshape_count_mismatch (t : Tensor) (s : list Z) (args : list tensor.arg) :
  s <> [] -> int64s s -> List.last s 0 <> -1 -> spelled s args ->
  np.prod s <> Z.of_nat (np.size (data t)) ->
  tensor.reshape t args
  = Raise (Exn ValueError
             ("Total elements must match. " ++ str_int (Z.of_nat (np.size (data t)))
              ++ " ≠ " ++ str_int (np.prod s))).
Proof.
  intros Hne _ Hlast Hargs Hp. unfold tensor.reshape.
  destruct (spelled_unwrap s args Hne Hargs) as (first & -> & Hm).
  cbn [Py.bind]. rewrite Hm.
  rewrite (tuple_getitem_last_eq _ (tensor.ArgInt 0))
    by (destruct s; [congruence | discriminate]).
  cbn [Py.bind].
  rewrite last_map_f. cbn [tensor.is_minus_one].
  apply Z.eqb_neq in Hlast. rewrite Hlast. cbn [Py.bind].
  rewrite ints_of_ints. cbn [Py.bind].
  replace (Z.of_nat (np.size (data t)) =? np.prod s) with false
    by (symmetry; apply Z.eqb_neq; congruence).
  reflexivity.
Qed.

(** With a trailing [-1], [reshape] reads the first dimension only. *)
Lemma reshape_wildcard_steps (t : Tensor) (d0 : Z) (args : list tensor.arg) :
  trailing_wildcard d0 args ->
  tensor.reshape t args
  = (let! unknown_dim := floordiv (Z.of_nat (size t)) d0 in
     let dims := [d0; unknown_dim] in
     if negb (Z.of_nat (np.size (data t)) =? np.prod dims) then
       raise ValueError
         ("Total elements must match. " ++ str_int (Z.of_nat (np.size (data t)))
          ++ " ≠ " ++ str_int (np.prod dims))
     else
       let! r := np.reshape (data t) dims in tensor.__init__ (NpArray r)).
Proof.
  intros [(mid & ->)|(l & ->)]; unfold tensor.reshape.
  - replace (tuple_getitem (tensor.ArgInt d0 :: mid ++ [tensor.ArgInt (-1)]) 0)
      with (Ok (tensor.ArgInt d0)) by reflexivity.
    cbn [Py.bind].
    rewrite (tuple_getitem_last_eq _ (tensor.ArgInt 0)) by discriminate.
    rewrite app_comm_cons, last_last. cbn [Py.bind tensor.is_minus_one Z.eqb Pos.eqb].
    replace (tuple_getitem ((tensor.ArgInt d0 :: mid) ++ [tensor.ArgInt (-1)]) 0)
      with (Ok (tensor.ArgInt d0)) by reflexivity.
    cbn [Py.bind tensor.floordiv_arg].
    destruct (floordiv (Z.of_nat (size t)) d0); reflexivity.
  - replace (tuple_getitem [tensor.ArgSeq (d0 :: l ++ [-1])] 0)
      with (Ok (tensor.ArgSeq (d0 :: l ++ [-1]))) by reflexivity.
    cbn [Py.bind].
    rewrite (tuple_getitem_last_eq _ (tensor.ArgInt 0)) by discriminate.
    cbn [map]. rewrite map_app. cbn [map].
    rewrite app_comm_cons, last_last. cbn [Py.bind tensor.is_minus_one Z.eqb Pos.eqb].
    replace (tuple_getitem ((tensor.ArgInt d0 :: map tensor.ArgInt l)
                            ++ [tensor.ArgInt (-1)]) 0)
      with (Ok (tensor.ArgInt d0)) by reflexivity.
    cbn [Py.bind tensor.floordiv_arg].
    destruct (floordiv (Z.of_nat (size t)) d0); reflexivity.
Qed.

(** A trailing [-1] after a first dimension [d0 > 0] that divides the
    size: the result has the two dimensions [(d0, size // d0)], whatever
    stands between [d0] and [-1], and the contents of [t] in order. (The
    shape must be one the backend can address, which rules out a huge
    [d0] on a Tensor without elements.) *)
Theorem reshape_trailing_wildcard (t : Tensor) (d0 : Z) (args : list tensor.arg) :
  valid t -> trailing_wildcard d0 args ->
  0 < d0 -> (Z.of_nat (size t) mod d0 = 0) ->
  allocatable [d0; Z.of_nat (size t) / d0] ->
  tensor.reshape t args
  = Ok (tensor_of [Z.to_nat d0; Z.to_nat (Z.of_nat (size t) / d0)]
          (nd_data (data t))).
Proof.
  intros (Hw & Hd & Hs & Hn & _) Hargs Hpos Hdiv [_ Ha].
  rewrite (reshape_wildcard_steps t d0 args Hargs).
  unfold floordiv. replace (d0 =? 0) with false by (symmetry; apply Z.eqb_neq; lia).
  cbn [Py.bind]. cbv zeta.
  assert (Hnn : nonneg [d0; Z.of_nat (size t) / d0]).
  { repeat constructor; [lia|]. apply Z.div_pos; lia. }
  assert (Hz : fold_right Z.mul 1 [d0; Z.of_nat (size t) / d0]
               = Z.of_nat (np.size (data t))).
  { cbn [fold_right]. rewrite <- Hn.
    pose proof (Z.div_mod (Z.of_nat (size t)) d0). lia. }
  assert (Hprod : np.prod [d0; Z.of_nat (size t) / d0] = Z.of_nat (np.size (data t))).
  { rewrite (prod_numel float32), <- zprod_numel by assumption. exact Hz. }
  rewrite Hprod, Z.eqb_refl. cbn [negb].
  rewrite np_reshape_exact;
    [|unfold np.maxdims; cbn; lia | exact Hnn | now rewrite Hd | exact Hz].
  cbn [Py.bind]. rewrite init_array by (cbn; assumption).
  unfold tensor_of, np.size. cbn [nd_shape map]. now rewrite Hd.
Qed.

Lemma reshape_trailing_wildcard_witness :
  tensor.reshape (lit [24%nat] (tensor.range 24))
    [tensor.ArgInt 2; tensor.ArgInt 3; tensor.ArgInt (-1)]
  = Ok (tensor_of [Z.to_nat 2; Z.to_nat (Z.of_nat (size (lit [24%nat] (tensor.range 24))) / 2)]
          (nd_data (data (lit [24%nat] (tensor.range 24))))).
Proof.
  apply (reshape_trailing_wildcard (lit [24%nat] (tensor.range 24)) 2).
  - repeat split.
  - left. exists [tensor.ArgInt 3]. reflexivity.
  - lia.
  - reflexivity.
  - split; [cbn; lia | vm_compute; discriminate].
Defined.

(** A trailing [-1] that cannot be resolved: a first dimension 0 raises
    ZeroDivisionError, and a non-zero first dimension (an int64, on a
    Tensor whose size is one) that does not divide the size fails the
    count check, which shows the int64 product of [d0] and
    [size // d0]. *)
Theorem reshape_wildcard_fails (t : Tensor) (d0 : Z) (args : list tensor.arg) :
  valid t -> trailing_wildcard d0 args ->
  (d0 = 0 ->
   tensor.reshape t args
   = Raise (Exn ZeroDivisionError "integer division or modulo by zero")) /\
  (d0 <> 0 -> index_sized d0 = true -> Z.of_nat (size t) <= np.max_intp ->
   Z.of_nat (size t) mod d0 <> 0 ->
   tensor.reshape t args
   = Raise (Exn ValueError
              ("Total elements must match. " ++ str_int (Z.of_nat (size t))
               ++ " ≠ " ++ str_int (np.prod [d0; Z.of_nat (size t) / d0])))).
Proof.
  intros (Hw & Hd & Hs & Hn & _) Hargs.
  rewrite (reshape_wildcard_steps t d0 args Hargs). split.
  - intros ->. reflexivity.
  - intros Hd0 Hfit Hsz Hmod.
    unfold floordiv. replace (d0 =? 0) with false by (symmetry; apply Z.eqb_neq; lia).
    cbn [Py.bind]. cbv zeta. rewrite <- Hn.
    replace (Z.of_nat (size t) =? np.prod [d0; Z.of_nat (size t) / d0]) with false;
      [reflexivity|].
    symmetry. apply Z.eqb_neq. rewrite prod_wrap. cbn [fold_right].
    unfold np.wrap64. unfold index_sized in Hfit. unfold np.max_intp in Hsz.
    apply andb_prop in Hfit. destruct Hfit as [Hlo Hhi].
    apply Z.leb_le in Hlo. apply Z.ltb_lt in Hhi.
    set (n := Z.of_nat (size t)) in *.
    set (h := 9223372036854775808) in *. set (m := 18446744073709551616).
    pose proof (Z.div_mod n d0 Hd0) as E.
    pose proof (Z.mod_pos_bound n d0) as Bp.
    pose proof (Z.mod_neg_bound n d0) as Bn.
    set (p := d0 * (n / d0 * 1)).
    assert (Hp : p = n - n mod d0) by (subst p; lia).
    pose proof (Z.div_mod (p + h) m ltac:(subst m; lia)) as E2.
    pose proof (Z.mod_pos_bound (p + h) m ltac:(subst m; lia)) as B2.
    intros Heq.
    assert (Hk : n mod d0 = - m * ((p + h) / m)) by lia.
    assert (- h < n mod d0 < h) by (subst h; lia).
    assert ((p + h) / m = 0) by (subst m h; nia).
    lia.
Qed.

Lemma reshape_wildcard_fails_witness :
  tensor.reshape t_range6 [tensor.ArgInt 4; tensor.ArgInt (-1)]
  = Raise (Exn ValueError "Total elements must match. 6 ≠ 4") /\
  tensor.reshape t_range6 [tensor.ArgInt (- 2 ^ 63); tensor.ArgInt (-1)]
  = Raise (Exn ValueError "Total elements must match. 6 ≠ -9223372036854775808").
Proof.
  split.
  - apply (proj2 (reshape_wildcard_fails t_range6 4
                    [tensor.ArgInt 4; tensor.ArgInt (-1)]
                    ltac:(repeat split)
                    ltac:(left; exists []; reflexivity)));
      [lia | reflexivity | vm_compute; discriminate | vm_compute; discriminate].
  - apply (proj2 (reshape_wildcard_fails t_range6 (- 2 ^ 63)
                    [tensor.ArgInt (- 2 ^ 63); tensor.ArgInt (-1)]
                    ltac:(repeat split)
                    ltac:(left; exists []; reflexivity)));
      [lia | reflexivity | vm_compute; discriminate | vm_compute; discriminate].
Defined.

End ReshapeMore.

Lemma reshape_count_mismatch_witness :
  tensor.reshape t_range6 [tensor.ArgSeq [4; 2]]
  = Raise (Exn ValueError "Total elements must match. 6 ≠ 8") /\
  tensor.reshape t_range6 [tensor.ArgInt (2 ^ 32); tensor.ArgInt (2 ^ 32)]
  = Raise (Exn ValueError "Total elements must match. 6 ≠ 0").
Proof.
  split.
  - apply (reshape_count_mismatch t_range6 [4; 2] [tensor.ArgSeq [4; 2]]).
    + discriminate.
    + repeat constructor.
    + cbn. lia.
    + constructor.
    + vm_compute. discriminate.
  - apply (reshape_count_mismatch t_range6 [2 ^ 32; 2 ^ 32]
             (map tensor.ArgInt [2 ^ 32; 2 ^ 32])).
    + discriminate.
    + repeat constructor.
    + cbn. lia.
    + constructor.
    + vm_compute. discriminate.
Defined.

(* ===================================================================== *)
(** ** Transpose: where the elements go                                   *)
(* ===================================================================== *)

Section TransposeCells.

Lemma numel_Permutation (l l' : list nat) :
  Permutation l l' -> numel l = numel l'.
Proof.
  induction 1 as [|x l l' _ IH|x y l|l l' l'' _ IH1 _ IH2];
    rewrite ?numel_cons; try congruence.
  rewrite !Nat.mul_assoc, (Nat.mul_comm y x). reflexivity.
Qed.

(** Permuting the axes keeps the number of elements. *)
Lemma numel_permute (n : nat) (axes s : list nat) :
  involution n axes -> length s = n -> numel (permute axes s) = numel s.
Proof.
  intros Hinv Hl. unfold permute.
  rewrite (numel_Permutation _ (map (fun ax => nth ax s 0%nat) (seq 0 n))).
  - rewrite <- Hl. now rewrite map_nth_seq.
  - apply Permutation_map. now apply involution_Permutation.
Qed.

(** The element of [a] at a multi-index is found, after the transposition,
    at the permuted multi-index. *)
Lemma np_transpose_cell (n : nat) (axes : list nat) (a : ndarray) (idx : list nat) :
  involution n axes -> np.ndim a = n -> Forall2 lt idx (nd_shape a) ->
  nth (dotp (permute axes idx) (strides (permute axes (nd_shape a))))
      (gather (permute axes (nd_shape a))
              (permute axes (strides (nd_shape a))) (nd_data a)) fzero
  = nth (dotp idx (strides (nd_shape a))) (nd_data a) fzero.
Proof.
  intros Hinv Hn Hw. unfold np.ndim in Hn.
  pose proof (within_permute n axes Hinv _ _ Hw Hn) as Hw'.
  rewrite nth_gather by (now apply ravel_lt).
  rewrite unravel_ravel by assumption.
  rewrite (dotp_permute n axes Hinv); [reflexivity | |].
  - rewrite (within_length _ _ Hw). exact Hn.
  - now rewrite length_strides.
Qed.

(** [transpose] on two in-range axes [i] and [j]: shape, validity, size
    and cells of the result. *)
Lemma transpose_swaps_spec (t : Tensor) (d0 d1 : Z) (i j : nat) :
  valid t -> (2 <= length (shape t))%nat ->
  norm_index (length (shape t)) d0 = Some i ->
  norm_index (length (shape t)) d1 = Some j ->
  let axes := swapped (length (shape t)) i j in
  exists t',
    tensor.transpose t (Some d0) (Some d1) = Ok t' /\ valid t' /\
    shape t' = permute axes (shape t) /\ size t' = size t /\
    forall idx, Forall2 lt idx (shape t) ->
      nth (dotp (permute axes idx) (strides (shape t'))) (nd_data (data t')) fzero
      = nth (dotp idx (strides (shape t))) (nd_data (data t)) fzero.
Proof.
  intros Hv Hrank Hi Hj axes. pose proof Hv as (Hwf & Hd & Hsh & Hsz & Hdt).
  set (n := length (shape t)) in *.
  pose proof (swapped_involution n i j
                (norm_index_lt _ _ _ Hi) (norm_index_lt _ _ _ Hj)) as Hinv.
  fold axes in Hinv.
  assert (Hnd : np.ndim (data t) = n) by (unfold np.ndim; now rewrite <- Hsh).
  eexists. split; [|split; [|split; [|split]]].
  - rewrite (transpose_swaps t n d0 d1 i j) by (auto; lia).
    fold axes. rewrite (np_transpose_ok n axes Hinv) by assumption.
    cbn [Py.bind]. apply init_array. exact Hd.
  - unfold valid, wf, np.size. cbn [data shape size dtype nd_data nd_shape nd_dtype].
    rewrite length_gather. repeat split. exact Hd.
  - cbn [shape]. now rewrite Hsh.
  - cbn [size]. unfold np.size. cbn [nd_shape].
    rewrite (numel_permute n) by (auto; unfold np.ndim in Hnd; exact Hnd).
    now rewrite Hsz.
  - intros idx Hw. cbn [shape data nd_data]. rewrite Hsh in Hw |- *.
    now apply (np_transpose_cell n).
Qed.

(** For in-range axes [dim0] and [dim1] of a Tensor of rank at least 2,
    [transpose] returns a valid Tensor of the same size whose shape is the
    shape of [t] with the two extents exchanged, and the element of [t] at
    any multi-index sits in the result at the multi-index with the two
    positions exchanged. *)
Theorem transpose_moves_elements (t : Tensor) (d0 d1 : Z) (i j : nat) :
  valid t -> (2 <= length (shape t))%nat ->
  norm_index (length (shape t)) d0 = Some i ->
  norm_index (length (shape t)) d1 = Some j ->
  exists t',
    tensor.transpose t (Some d0) (Some d1) = Ok t' /\ valid t' /\
    shape t' = permute (swapped (length (shape t)) i j) (shape t) /\
    size t' = size t /\
    forall idx, Forall2 lt idx (shape t) ->
      nth (dotp (permute (swapped (length (shape t)) i j) idx) (strides (shape t')))
          (nd_data (data t')) fzero
      = nth (dotp idx (strides (shape t))) (nd_data (data t)) fzero.
Proof. intros. now apply transpose_swaps_spec. Qed.

(** The transpose of a matrix: for a Tensor of shape (m,n), [transpose()]
    has shape (n,m) and its element at [c, r] is the element of [t] at
    [r, c]. *)
Theorem transpose_matrix (t : Tensor) (m n : nat) :
  valid t -> shape t = [m; n] ->
  exists t',
    tensor.transpose t None None = Ok t' /\ shape t' = [n; m] /\
    forall r c, (r < m)%nat -> (c < n)%nat ->
      nth (c * m + r) (nd_data (data t')) fzero
      = nth (r * n + c) (nd_data (data t)) fzero.
Proof.
  intros Hv Hs.
  destruct (transpose_swaps_spec t (-2) (-1) 0 1 Hv) as (t' & Ht & _ & Hs' & _ & Hc);
    try (rewrite Hs; cbn; first [lia | reflexivity]).
  exists t'. rewrite Hs in Hs'. cbn in Hs'. split; [|split].
  - rewrite (transpose_default t 2) by (rewrite ?Hs; cbn; lia). exact Ht.
  - exact Hs'.
  - intros r c Hr Hc'. specialize (Hc [r; c]).
    rewrite Hs, Hs' in Hc. cbn in Hc.
    replace (r * n + c)%nat with (r * (n * 1) + (c * 1 + 0))%nat by lia.
    rewrite <- Hc by (repeat constructor; assumption).
    f_equal. lia.
Qed.

Lemma transpose_matrix_witness :
  exists t',
    tensor.transpose t_3x2 None None = Ok t' /\ shape t' = [2%nat; 3%nat] /\
    forall r c, (r < 3)%nat -> (c < 2)%nat ->
      nth (c * 3 + r) (nd_data (data t')) fzero
      = nth (r * 2 + c) (nd_data (data t_3x2)) fzero.
Proof.
  apply (transpose_matrix t_3x2 3 2); [repeat split | reflexivity].
Defined.

End TransposeCells.

Lemma transpose_moves_elements_witness :
  exists t',
    tensor.transpose (lit [2%nat; 3%nat; 4%nat] (tensor.range 24)) (Some 0) (Some (-1))
    = Ok t' /\ valid t' /\
    shape t' = permute (swapped 3 0 2) [2%nat; 3%nat; 4%nat] /\
    size t' = 24%nat /\
    forall idx, Forall2 lt idx [2%nat; 3%nat; 4%nat] ->
      nth (dotp (permute (swapped 3 0 2) idx) (strides (shape t')))
          (nd_data (data t')) fzero
      = nth (dotp idx (strides [2%nat; 3%nat; 4%nat]))
          (nd_data (data (lit [2%nat; 3%nat; 4%nat] (tensor.range 24)))) fzero.
Proof.
  apply (transpose_moves_elements (lit [2%nat; 3%nat; 4%nat] (tensor.range 24))
           0 (-1) 0 2).
  - repeat split.
  - cbn. lia.
  - reflexivity.
  - reflexivity.
Defined.

Lemma swapped_same (n i : nat) : (i < n)%nat -> swapped n i i = seq 0 n.
Proof.
  intros Hi. unfold swapped.
  rewrite (list_insert_id (seq 0 n) i i) by (now apply lookup_seq_lt).
  apply list_insert_id. now apply lookup_seq_lt.
Qed.

(** Naming one axis twice (by the same or by different subscripts)
    exchanges nothing: [transpose] returns a Tensor equal to [t]. *)
Theorem transpose_same_axis (t : Tensor) (d0 d1 : Z) (i : nat) :
  valid t ->
  norm_index (length (shape t)) d0 = Some i ->
  norm_index (length (shape t)) d1 = Some i ->
  tensor.transpose t (Some d0) (Some d1) = Ok t.
Proof.
  intros Hv H0 H1. pose proof Hv as (Hwf & Hd & Hsh & Hsz & Hdt).
  pose proof (norm_index_lt _ _ _ H0) as Hi.
  destruct (Nat.eq_dec (length (shape t)) 1%nat) as [E|E].
  - unfold tensor.transpose. now rewrite length_seq, E.
  - rewrite (transpose_swaps t (length (shape t)) d0 d1 i i) by auto.
    pose proof (swapped_involution _ i i Hi Hi) as Hinv.
    rewrite (np_transpose_ok _ _ Hinv) by (unfold np.ndim; now rewrite <- Hsh).
    rewrite swapped_same by assumption.
    unfold permute. rewrite Hsh.
    rewrite map_nth_seq.
    rewrite <- (length_strides (nd_shape (data t))), map_nth_seq.
    rewrite gather_strides_all by exact Hwf.
    cbn [Py.bind].
    replace (mk_ndarray (nd_dtype (data t)) (nd_shape (data t)) (nd_data (data t)))
      with (data t) by (now destruct (data t)).
    now apply valid_init.
Qed.

Lemma transpose_same_axis_witness :
  tensor.transpose t_3x2 (Some 1) (Some (-1)) = Ok t_3x2.
Proof.
  apply (transpose_same_axis t_3x2 1 (-1) 1); [repeat split | reflexivity | reflexivity].
Defined.

(** Arguments [transpose] rejects, on a Tensor whose rank is not 1: a
    [dim1] out of range, or a [dim0] out of range next to a good [dim1],
    raises IndexError ("list index out of range", or, for an int beyond
    the machine index, "cannot fit 'int' into an index-sized integer");
    one axis given without the other raises TypeError. [dim1] is looked
    at first. *)
Theorem transpose_bad_axes (t : Tensor) (d : Z) :
  length (shape t) <> 1%nat ->
  (norm_index (length (shape t)) d = None ->
   forall dim0, tensor.transpose t dim0 (Some d)
                = Raise (Exn IndexError
                           (if index_sized d then "list index out of range"
                            else "cannot fit 'int' into an index-sized integer"))) /\
  (norm_index (length (shape t)) d = None ->
   forall d1 j, norm_index (length (shape t)) d1 = Some j ->
     tensor.transpose t (Some d) (Some d1)
     = Raise (Exn IndexError
                (if index_sized d then "list index out of range"
                 else "cannot fit 'int' into an index-sized integer"))) /\
  tensor.transpose t (Some d) None
  = Raise (Exn TypeError "list indices must be integers or slices, not NoneType") /\
  (forall j, norm_index (length (shape t)) d = Some j ->
     tensor.transpose t None (Some d)
     = Raise (Exn TypeError "list indices must be integers or slices, not NoneType")).
Proof.
  intros Hn. apply Nat.eqb_neq in Hn.
  unfold tensor.transpose. rewrite length_seq, Hn.
  assert (E : norm_index (length (shape t)) d = None ->
              list_getitem (seq 0 (length (shape t))) d
              = Raise (Exn IndexError
                         (if index_sized d then "list index out of range"
                          else "cannot fit 'int' into an index-sized integer"))).
  { intros Hd. unfold list_getitem, no_element. rewrite length_seq, Hd.
    now destruct (index_sized d). }
  split; [|split; [|split]].
  - intros Hd dim0. cbn [list_getitem_opt]. rewrite (E Hd). now destruct dim0.
  - intros Hd d1 j Hj. cbn [list_getitem_opt].
    rewrite (list_getitem_range _ d1 j Hj). cbn [Py.bind].
    now rewrite (E Hd).
  - reflexivity.
  - intros j Hj. cbn [list_getitem_opt].
    now rewrite (list_getitem_range _ d j Hj).
Qed.

Lemma transpose_bad_axes_witness :
  tensor.transpose t_3x2 (Some 0) (Some 2)
  = Raise (Exn IndexError "list index out of range") /\
  tensor.transpose t_3x2 None (Some (2 ^ 63))
  = Raise (Exn IndexError "cannot fit 'int' into an index-sized integer").
Proof.
  split.
  - apply (proj1 (transpose_bad_axes t_3x2 2 ltac:(cbn; lia)) eq_refl (Some 0)).
  - apply (proj1 (transpose_bad_axes t_3x2 (2 ^ 63) ltac:(cbn; lia)) eq_refl None).
Defined.

(* ===================================================================== *)
(** ** Reductions: values, shapes and errors                              *)
(* ===================================================================== *)

Section Reductions.

(** A reduction over all the axes hands the per-cell function the whole
    contents, in row-major order. *)
Lemma reduce_all_value f (a : ndarray) :
  wf a ->
  np.reduce f (seq 0 (np.ndim a)) false a
  = mk_ndarray (nd_dtype a) [] [f (nd_data a)].
Proof.
  intros Hwf. unfold np.reduce, np.ndim.
  rewrite filter_none by (intros x Hx; now rewrite existsb_self).
  rewrite filter_all by (intros x Hx; now apply existsb_self).
  cbn [map numel fold_right seq unravel dotp Nat.add].
  rewrite map_nth_seq.
  assert (Hst : map (fun i => nth i (strides (nd_shape a)) 0%nat)
                  (seq 0 (length (nd_shape a))) = strides (nd_shape a)).
  { rewrite <- (length_strides (nd_shape a)). apply map_nth_seq. }
  rewrite Hst.
  fold (gather (nd_shape a) (strides (nd_shape a)) (nd_data a)).
  now rewrite gather_strides_all.
Qed.

(** On a Tensor without elements, [sum()] is 0, [mean()] is NaN and
    [max()] raises the backend's ValueError. *)
Theorem empty_reductions (t : Tensor) :
  valid t -> size t = 0%nat ->
  tensor.sum t np.AxisNone false = Ok (tensor_of [] [S754_zero false]) /\
  tensor.mean t np.AxisNone false = Ok (tensor_of [] [S754_nan]) /\
  tensor.max t np.AxisNone false
  = Raise (Exn ValueError
             "zero-size array to reduction operation maximum which has no identity").
Proof.
  intros Hv Hz. pose proof Hv as (Hwf & Hd & Hsh & Hsz & Hdt).
  assert (Hdata : nd_data (data t) = []).
  { unfold wf in Hwf. unfold np.size in Hsz.
    rewrite <- Hsz, Hz in Hwf. now destruct (nd_data (data t)). }
  unfold tensor.sum, tensor.mean, tensor.max, np.sum, np.mean, np.max,
    np.counted_axes, np.reduced_axes.
  cbn [Py.bind]. rewrite !reduce_all_value by assumption.
  rewrite reduced_count_all, Hd, <- Hsz, Hz, Hdata.
  repeat split.
Qed.

Lemma empty_reductions_witness :
  tensor.sum t_empty np.AxisNone false = Ok (tensor_of [] [S754_zero false]) /\
  tensor.mean t_empty np.AxisNone false = Ok (tensor_of [] [S754_nan]) /\
  tensor.max t_empty np.AxisNone false
  = Raise (Exn ValueError
             "zero-size array to reduction operation maximum which has no identity").
Proof.
  apply (empty_reductions t_empty); [repeat split | reflexivity].
Defined.

Lemma filter_map_S (p : nat -> bool) (l : list nat) :
  List.filter p (map S l) = map S (List.filter (fun i => p (S i)) l).
Proof.
  induction l as [|x l IH]; [reflexivity|].
  cbn. destruct (p (S x)); cbn; now rewrite IH.
Qed.

(** The extents that stay when axis [k] is reduced. *)
Lemma kept_extents (s : list nat) (k : nat) :
  map (fun i => nth i s 0%nat)
    (List.filter (fun i => negb (existsb (Nat.eqb i) [k])) (seq 0 (length s)))
  = drop_axis k s.
Proof.
  unfold drop_axis. revert k. induction s as [|a s IH]; intros k.
  - now destruct k.
  - cbn [length seq]. rewrite <- seq_shift. destruct k as [|k].
    + cbn [List.filter existsb Nat.eqb orb negb firstn skipn app].
      rewrite filter_map_S, map_map.
      cbn [existsb Nat.eqb orb negb].
      rewrite filter_all by (intros; reflexivity).
      cbn [nth]. apply map_nth_seq.
    + cbn [List.filter existsb Nat.eqb orb negb firstn skipn app map nth].
      rewrite filter_map_S, map_map. cbn [existsb Nat.eqb orb negb nth].
      f_equal. apply (IH k).
Qed.

(** The shape kept by [keepdims=True] when axis [k] is reduced. *)
Lemma unit_extents (s : list nat) (k : nat) :
  (k < length s)%nat ->
  map (fun i => if existsb (Nat.eqb i) [k] then 1%nat else nth i s 0%nat)
    (seq 0 (length s))
  = unit_axis k s.
Proof.
  unfold unit_axis. revert k. induction s as [|a s IH]; intros k Hk; [cbn in Hk; lia|].
  cbn [length seq]. rewrite <- seq_shift. cbn [map]. rewrite map_map.
  destruct k as [|k].
  - cbn [existsb Nat.eqb orb firstn skipn app nth]. f_equal.
    apply map_nth_seq.
  - cbn [existsb Nat.eqb orb firstn skipn app nth]. f_equal.
    apply (IH k). cbn in Hk. lia.
Qed.

Lemma reduced_count_axis (a : ndarray) (k : nat) :
  (k < np.ndim a)%nat -> np.reduced_count [k] a = nth k (nd_shape a) 0%nat.
Proof.
  unfold np.reduced_count, np.ndim. generalize (nd_shape a). intros s.
  assert (H : forall s k, (k < length s)%nat ->
            map (fun i => nth i s 0%nat)
              (List.filter (fun i => existsb (Nat.eqb i) [k]) (seq 0 (length s)))
            = [nth k s 0%nat]).
  { clear. induction s as [|x s IH]; intros k Hk; [cbn in Hk; lia|].
    cbn [length seq]. rewrite <- seq_shift. destruct k as [|k].
    - cbn [List.filter existsb Nat.eqb orb map nth].
      rewrite filter_map_S, map_map. cbn [existsb Nat.eqb orb].
      rewrite filter_none by (intros; reflexivity). reflexivity.
    - cbn [List.filter existsb Nat.eqb orb nth].
      rewrite filter_map_S, map_map. cbn [existsb Nat.eqb orb nth].
      apply (IH k). cbn in Hk. lia. }
  intros Hk. rewrite H by assumption. cbn. lia.
Qed.

Lemma reduce_axis_shape f (a : ndarray) (k : nat) (kd : bool) :
  (k < np.ndim a)%nat ->
  nd_shape (np.reduce f [k] kd a)
  = if kd then unit_axis k (nd_shape a) else drop_axis k (nd_shape a).
Proof.
  intros Hk. unfold np.reduce. cbn [nd_shape].
  destruct kd; [now apply unit_extents | apply kept_extents].
Qed.

(** Reducing along one in-range axis [k]: [sum] and [mean] return a Tensor
    whose shape is that of [t] without axis [k], or with extent 1 there
    when [keepdims] is set; [max] does the same when the extent of axis
    [k] is not 0, and raises ValueError when it is. *)
Theorem reduction_shapes (t : Tensor) (z : Z) (k : nat) (kd : bool) :
  valid t -> norm_index (length (shape t)) z = Some k ->
  let out := if kd then unit_axis k (shape t) else drop_axis k (shape t) in
  (exists r, tensor.sum t (np.AxisInt z) kd = Ok r /\ shape r = out) /\
  (exists r, tensor.mean t (np.AxisInt z) kd = Ok r /\ shape r = out) /\
  (nth k (shape t) 0%nat <> 0%nat ->
   exists r, tensor.max t (np.AxisInt z) kd = Ok r /\ shape r = out) /\
  (nth k (shape t) 0%nat = 0%nat ->
   tensor.max t (np.AxisInt z) kd
   = Raise (Exn ValueError
              "zero-size array to reduction operation maximum which has no identity")).
Proof.
  intros (Hwf & Hd & Hsh & Hsz & Hdt) Hz out.
  pose proof (norm_index_lt _ _ _ Hz) as Hk.
  assert (Hk' : (k < np.ndim (data t))%nat) by (unfold np.ndim; now rewrite <- Hsh).
  unfold tensor.sum, tensor.mean, tensor.max, np.sum, np.mean, np.max,
    np.counted_axes, np.reduced_axes, np.norm_axes, np.ndim.
  rewrite <- Hsh, Hz.
  replace (Nat.eqb (length (shape t)) 0) with false
    by (symmetry; apply Nat.eqb_neq; lia).
  cbn [andb Py.bind].
  rewrite (reduced_count_axis _ _ Hk'), <- Hsh.
  assert (Hout : forall f, exists r,
            tensor.__init__ (NpArray (np.reduce f [k] kd (data t))) = Ok r /\
            shape r = out).
  { intros f. destruct (init_shape (np.reduce f [k] kd (data t))) as (r & Hr & Hs).
    exists r. split; [exact Hr|]. rewrite Hs, reduce_axis_shape by assumption.
    unfold out. now rewrite Hsh. }
  split; [apply Hout|]. split; [apply Hout|]. split.
  - intros Hn. apply Nat.eqb_neq in Hn. rewrite Hn. cbn [Py.bind]. apply Hout.
  - intros ->. reflexivity.
Qed.

Lemma reduction_shapes_witness :
  exists r, tensor.sum t_3x2 (np.AxisInt (-1)) true = Ok r /\
            shape r = unit_axis 1 (shape t_3x2).
Proof.
  apply (proj1 (reduction_shapes t_3x2 (-1) 1 true ltac:(repeat split) eq_refl)).
Defined.

(** An int [axis] (a C int) outside [-rank, rank): [mean] raises the
    backend's AxisError, which names the axis and the rank, and so do
    [sum] and [max], except on a rank-0 Tensor with axis 0 or -1, which
    they accept: they then return a rank-0 Tensor. *)
Theorem reduction_axis_out_of_range (t : Tensor) (z : Z) (kd : bool) :
  c_int z = true -> norm_index (np.ndim (data t)) z = None ->
  tensor.mean t (np.AxisInt z) kd = Raise (np.axis_error z (np.ndim (data t))) /\
  (np.ndim (data t) <> 0%nat \/ (z <> 0 /\ z <> -1) ->
   tensor.sum t (np.AxisInt z) kd = Raise (np.axis_error z (np.ndim (data t))) /\
   tensor.max t (np.AxisInt z) kd = Raise (np.axis_error z (np.ndim (data t)))) /\
  (np.ndim (data t) = 0%nat -> z = 0 \/ z = -1 ->
   (exists r, tensor.sum t (np.AxisInt z) kd = Ok r /\ shape r = []) /\
   (exists r, tensor.max t (np.AxisInt z) kd = Ok r /\ shape r = [])).
Proof.
  intros _ Hz.
  unfold tensor.sum, tensor.mean, tensor.max, np.sum, np.mean, np.max,
    np.counted_axes, np.reduced_axes, np.norm_axes.
  rewrite Hz. split; [reflexivity|]. split.
  - intros H.
    replace (Nat.eqb (np.ndim (data t)) 0 && ((z =? 0) || (z =? -1))) with false;
      [split; reflexivity|].
    symmetry. destruct H as [H|[H0 H1]].
    + apply Nat.eqb_neq in H. now rewrite H.
    + apply Z.eqb_neq in H0, H1. rewrite H0, H1. apply andb_false_r.
  - intros Hn Hz01.
    replace (Nat.eqb (np.ndim (data t)) 0 && ((z =? 0) || (z =? -1))) with true
      by (rewrite Hn; destruct Hz01; subst; reflexivity).
    cbn [Py.bind].
    assert (Hs : forall f, nd_shape (np.reduce f [] kd (data t)) = []).
    { intros f. unfold np.reduce, np.ndim in *. cbn [nd_shape].
      destruct (nd_shape (data t)); [now destruct kd | discriminate]. }
    assert (Hc : np.reduced_count [] (data t) = 1%nat).
    { unfold np.reduced_count. rewrite Hn. reflexivity. }
    rewrite Hc. cbn [Nat.eqb Py.bind].
    split.
    + destruct (init_shape (np.reduce (np.sum_cell (nd_dtype (data t))) [] kd (data t)))
        as (r & Hr & Hsr).
      exists r. split; [exact Hr | now rewrite Hsr, Hs].
    + destruct (init_shape (np.reduce np.max_cell [] kd (data t))) as (r & Hr & Hsr).
      exists r. split; [exact Hr | now rewrite Hsr, Hs].
Qed.

Lemma reduction_axis_out_of_range_witness :
  tensor.sum t_3x2 (np.AxisInt 2) false
  = Raise (Exn AxisError "axis 2 is out of bounds for array of dimension 2") /\
  tensor.mean t_scalar (np.AxisInt 0) false
  = Raise (Exn AxisError "axis 0 is out of bounds for array of dimension 0") /\
  exists r, tensor.max t_scalar (np.AxisInt (-1)) false = Ok r /\ shape r = [].
Proof.
  split; [|split].
  - apply (proj1 (proj1 (proj2 (reduction_axis_out_of_range t_3x2 2 false eq_refl eq_refl))
                    ltac:(left; discriminate))).
  - apply (proj1 (reduction_axis_out_of_range t_scalar 0 false eq_refl eq_refl)).
  - apply (proj2 (proj2 (proj2 (reduction_axis_out_of_range t_scalar (-1) false
                                  eq_refl eq_refl))
                    eq_refl ltac:(right; reflexivity))).
Defined.

End Reductions.

(* ===================================================================== *)
(** ** Subscripts                                                         *)
(* ===================================================================== *)

Section Getitem.

(** [t[z]] on a Tensor of rank at least 1, for an in-range int [z]
    (negative ones count from the end): the Tensor of the trailing shape
    that holds the [k]-th block of [t], [k] being [z] normalised. *)
Theorem getitem_int (t : Tensor) (d : nat) (s' : list nat) (z : Z) (k : nat) :
  valid t -> shape t = d :: s' -> norm_index d z = Some k ->
  tensor.__getitem__ t [np.Idx z]
  = Ok (tensor_of s' (chunk k (numel s') (nd_data (data t)))).
Proof.
  intros (Hwf & Hd & Hsh & Hsz & Hdt) Hs Hz.
  pose proof (norm_index_lt _ _ _ Hz) as Hk.
  rewrite Hsh in Hs. unfold wf in Hwf. rewrite Hs, numel_cons in Hwf.
  unfold tensor.__getitem__, np.getitem, np.ndim. rewrite Hs.
  cbn [length Nat.ltb Nat.leb strides np.index_view]. rewrite Hz.
  cbn [Py.bind fst snd]. rewrite Nat.add_0_r.
  rewrite gather_strides by (rewrite length_skipn; nia).
  fold (chunk k (numel s') (nd_data (data t))).
  rewrite array_ndarray. cbn [Py.bind].
  rewrite init_array by (cbn; exact Hd).
  unfold tensor_of, np.size. cbn [nd_shape]. now rewrite Hd.
Qed.

Lemma getitem_int_witness :
  tensor.__getitem__ t_3x2 [np.Idx (-1)]
  = Ok (tensor_of [2%nat] (chunk 2 (numel [2%nat]) (nd_data (data t_3x2)))).
Proof.
  apply (getitem_int t_3x2 3 [2%nat] (-1) 2); [repeat split | reflexivity | reflexivity].
Defined.

(** [t[:]] on a Tensor of rank at least 1 is a Tensor equal to [t]. *)
Theorem getitem_full_slice (t : Tensor) :
  valid t -> shape t <> [] -> tensor.__getitem__ t [np.Slice_all] = Ok t.
Proof.
  intros Hv Hne. pose proof Hv as (Hwf & Hd & Hsh & Hsz & Hdt).
  rewrite Hsh in Hne.
  unfold tensor.__getitem__, np.getitem, np.ndim.
  destruct (nd_shape (data t)) as [|d s'] eqn:Hs; [congruence|].
  cbn [length Nat.ltb Nat.leb strides np.index_view Py.bind fst snd].
  change (skipn 0 (nd_data (data t))) with (nd_data (data t)).
  change (numel s' :: strides s') with (strides (d :: s')).
  rewrite gather_strides_all by (unfold wf in Hwf; now rewrite Hs in Hwf).
  rewrite array_ndarray. cbn [Py.bind].
  rewrite <- Hs.
  replace (mk_ndarray (nd_dtype (data t)) (nd_shape (data t)) (nd_data (data t)))
    with (data t) by (now destruct (data t)).
  now apply valid_init.
Qed.

Lemma getitem_full_slice_witness :
  tensor.__getitem__ t_3x2 [np.Slice_all] = Ok t_3x2.
Proof.
  apply (getitem_full_slice t_3x2); [repeat split | discriminate].
Defined.

(** Subscripts (of ints that fit the index type) the backend rejects with
    an IndexError: one with more components than the Tensor has axes (the
    message gives both numbers), and one whose leading int is outside the
    first extent (the message names the index, the axis and the
    extent). *)
Theorem getitem_errors (t : Tensor) :
  (forall key, machine_key key -> (np.ndim (data t) < length key)%nat ->
     tensor.__getitem__ t key
     = Raise (Exn IndexError
                ("too many indices for array: array is "
                 ++ str_int (Z.of_nat (np.ndim (data t)))
                 ++ "-dimensional, but " ++ str_int (Z.of_nat (length key))
                 ++ " were indexed"))) /\
  (forall d s' z rest,
     nd_shape (data t) = d :: s' -> machine_key (np.Idx z :: rest) ->
     norm_index d z = None -> (length rest <= length s')%nat ->
     tensor.__getitem__ t (np.Idx z :: rest)
     = Raise (Exn IndexError
                ("index " ++ str_int z ++ " is out of bounds for axis "
                 ++ str_int (Z.of_nat 0) ++ " with size " ++ str_int (Z.of_nat d)))).
Proof.
  split.
  - intros key _ Hk. unfold tensor.__getitem__, np.getitem.
    apply Nat.ltb_lt in Hk. now rewrite Hk.
  - intros d s' z rest Hs _ Hz Hlen.
    unfold tensor.__getitem__, np.getitem, np.ndim. rewrite Hs.
    replace (Nat.ltb (length (d :: s')) (length (np.Idx z :: rest))) with false
      by (symmetry; apply Nat.ltb_ge; cbn; lia).
    cbn [strides np.index_view]. now rewrite Hz.
Qed.

Lemma getitem_errors_witness :
  tensor.__getitem__ t_3x2 [np.Idx 0; np.Idx 0; np.Idx 0]
  = Raise (Exn IndexError
             "too many indices for array: array is 2-dimensional, but 3 were indexed") /\
  tensor.__getitem__ t_3x2 [np.Idx (-4); np.Slice_all]
  = Raise (Exn IndexError "index -4 is out of bounds for axis 0 with size 3").
Proof.
  split.
  - apply (proj1 (getitem_errors t_3x2)); [repeat constructor | cbn; lia].
  - apply (proj2 (getitem_errors t_3x2) 3%nat [2%nat] (-4) [np.Slice_all]);
      [reflexivity | repeat constructor | reflexivity | cbn; lia].
Defined.

End Getitem.

(* ===================================================================== *)
(** ** The invariant of the data model                                    *)
(* ===================================================================== *)

(** Whatever it is built from, a Tensor that the constructor returns has
    float32 data, records the shape and the size of that data, and holds
    exactly [product(shape)] elements. *)
Theorem constructor_invariant (o : pyobj) (t : Tensor) :
  obj_wf o -> tensor.__init__ o = Ok t ->
  valid t /\ size t = numel (shape t) /\ length (nd_data (data t)) = size t.
Proof.
  intros Ho H. pose proof (init_valid o t Ho H) as Hv.
  split; [exact Hv|]. destruct Hv as (Hw & _ & Hs & Hn & _).
  unfold wf, np.size in *. rewrite Hs, Hn. auto.
Qed.

Lemma constructor_invariant_witness :
  valid t_3x2 /\ size t_3x2 = numel (shape t_3x2) /\
  length (nd_data (data t_3x2)) = size t_3x2.
Proof.
  apply (constructor_invariant (rows_obj [[1; 2]; [3; 4]; [5; 6]]) t_3x2).
  - cbn. repeat split.
  - vm_compute. reflexivity.
Defined.

(** [reshape] to an explicit shape of the right count, one the backend
    can address, changes the shape only: the result is valid, has the
    shape asked for, and keeps the contents, the size and the memory
    footprint of [t]. *)
Theorem reshape_keeps_contents (t : Tensor) (s : list Z) (args : list tensor.arg) :
  valid t -> s <> [] -> nonneg s -> allocatable s ->
  np.prod s = Z.of_nat (size t) ->
  spelled s args ->
  exists r,
    tensor.reshape t args = Ok r /\ valid r /\ shape_Z (shape r) = s /\
    nd_data (data r) = nd_data (data t) /\ size r = size t /\
    tensor.memory_footprint r = tensor.memory_footprint t.
Proof.
  intros Hv Hne Hs Ha Hp Hargs. pose proof Hv as (Hwf & Hd & Hsh & Hn & Hdt).
  assert (Hcount : numel (map Z.to_nat s) = size t).
  { apply Nat2Z.inj. rewrite <- (prod_numel float32) by (assumption || apply Ha).
    exact Hp. }
  eexists. split; [apply (reshape_exact t s args); assumption|].
  unfold valid, wf, np.size, tensor.memory_footprint, np.nbytes, np.size.
  cbn [data shape size dtype nd_data nd_shape nd_dtype].
  rewrite Hd, Hcount. repeat split.
  - unfold wf, np.size in *. now rewrite Hn.
  - unfold shape_Z. rewrite map_map. rewrite <- (map_id s) at 2.
    apply map_ext_in. intros d Hd'. unfold nonneg in Hs.
    rewrite List.Forall_forall in Hs. apply Z2Nat.id. auto.
  - now rewrite Hn.
Qed.

Lemma reshape_keeps_contents_witness :
  exists r,
    tensor.reshape t_range6 [tensor.ArgInt 3; tensor.ArgInt 2] = Ok r /\ valid r /\
    shape_Z (shape r) = [3; 2] /\
    nd_data (data r) = nd_data (data t_range6) /\ size r = size t_range6 /\
    tensor.memory_footprint r = tensor.memory_footprint t_range6.
Proof.
  apply (reshape_keeps_contents t_range6 [3; 2] [tensor.ArgInt 3; tensor.ArgInt 2]).
  - repeat split.
  - discriminate.
  - repeat constructor; lia.
  - split; [cbn; lia | vm_compute; discriminate].
  - reflexivity.
  - apply (spelled_flat [3; 2]).
Defined.

Section Closure.

Lemma numel_app (s1 s2 : list nat) : numel (s1 ++ s2) = (numel s1 * numel s2)%nat.
Proof.
  induction s1 as [|d s1 IH]; cbn [app]; rewrite ?numel_cons; [cbn; lia|].
  rewrite IH. lia.
Qed.

Lemma numel_keepdims (p : nat -> bool) (g : nat -> nat) (l : list nat) :
  numel (map (fun i => if p i then 1%nat else g i) l)
  = numel (map g (List.filter (fun i => negb (p i)) l)).
Proof.
  induction l as [|x l IH]; [reflexivity|].
  cbn [map List.filter]. destruct (p x); cbn [negb map]; rewrite !numel_cons, IH; lia.
Qed.

Lemma reduce_wf f (axes : list nat) (kd : bool) (a : ndarray) :
  wf (np.reduce f axes kd a).
Proof.
  unfold wf, np.reduce. cbn [nd_data nd_shape].
  rewrite length_map, length_seq.
  destruct kd; [|reflexivity]. now rewrite numel_keepdims.
Qed.

Lemma np_transpose_wf (a r : ndarray) (axes : list nat) :
  np.transpose a axes = Ok r -> wf r.
Proof.
  unfold np.transpose.
  repeat match goal with
         | |- (if ?c then _ else _) = _ -> _ => destruct c; [discriminate|]
         end.
  intros [= <-]. unfold wf. cbn [nd_data nd_shape]. apply length_gather.
Qed.

Lemma np_getitem_wf (a r : ndarray) (key : list np.index) :
  np.getitem a key = Ok r -> wf r.
Proof.
  unfold np.getitem. destruct (Nat.ltb _ _); [discriminate|].
  intros H. apply bind_Ok_inv in H. destruct H as (v & _ & [= <-]).
  unfold wf. cbn [nd_data nd_shape]. apply length_gather.
Qed.

(** What the scan of the extents returns: with [q] put in the place of
    the unknown extent, the product of the extents is the known size,
    times [q] if the unknown was met. *)
Lemma known_size_spec (m : exn) (q : Z) (dims : list Z) (acc : Z) (u : bool)
    (k : Z) (u' : bool) :
  np.known_size m dims acc u = Ok (k, u') ->
  acc * fold_right Z.mul 1 (map (fun d => if d <? 0 then q else d) dims)
    = k * (if negb u && u' then q else 1) /\
  (u = true -> u' = true) /\
  (u' = false -> nonneg dims) /\
  (0 <= acc -> 0 <= k).
Proof.
  revert acc u. induction dims as [|d dims IH]; intros acc u;
    cbn [np.known_size map fold_right].
  - intros [= <- <-]. split; [destruct u; cbn; lia|].
    split; [auto|]. split; [constructor | auto].
  - destruct (d <? 0) eqn:E.
    + destruct u; [discriminate|]. intros H.
      destruct (IH _ _ H) as (Hk & Hu & Hn & Hp).
      specialize (Hu eq_refl). subst u'. cbn [negb andb] in *.
      split; [lia|]. split; [discriminate|]. split; [discriminate | exact Hp].
    + destruct (np.max_intp <? acc * d); [discriminate|]. intros H.
      destruct (IH _ _ H) as (Hk & Hu & Hn & Hp).
      apply Z.ltb_ge in E.
      split; [lia|]. split; [exact Hu|]. split.
      * intros Hf. constructor; [exact E | now apply Hn].
      * intros Hacc. apply Hp. lia.
Qed.

(** The backend's reshape keeps an array well-formed. *)
Lemma np_reshape_wf (a r : ndarray) (s : list Z) :
  wf a -> np.reshape a s = Ok r -> wf r.
Proof.
  intros Hwf. unfold np.reshape.
  destruct (Nat.ltb np.maxdims (length s)); [discriminate|].
  destruct (negb (forallb index_sized s)); [discriminate|].
  intros H. apply bind_Ok_inv in H. destruct H as ([k u'] & Hk & H).
  apply bind_Ok_inv in H. destruct H as (dims & Hdims & H).
  destruct (np.alloc_bytes _ dims <=? np.max_intp); [|discriminate].
  injection H as <-. unfold wf in *. cbn [nd_data nd_shape fst snd] in *.
  rewrite Hwf. apply Nat2Z.inj. fold (np.size a).
  set (n := Z.of_nat (np.size a)) in *.
  destruct u'.
  - destruct ((k =? 0) || negb (n mod k =? 0)) eqn:Hc; [discriminate|].
    injection Hdims as <-.
    apply orb_false_elim in Hc. destruct Hc as [Hk0 Hkm].
    apply Z.eqb_neq in Hk0. apply negb_false_iff, Z.eqb_eq in Hkm.
    destruct (known_size_spec _ (n / k) _ _ _ _ _ Hk) as (Hp & _ & _ & Hpos).
    specialize (Hpos ltac:(lia)). cbn [negb andb] in Hp.
    assert (Hq : 0 <= n / k) by (apply Z.div_pos; lia).
    rewrite <- zprod_numel.
    + pose proof (Z.div_mod n k Hk0). lia.
    + unfold nonneg. apply List.Forall_map, List.Forall_forall. intros d _.
      destruct (d <? 0) eqn:E; [exact Hq | now apply Z.ltb_ge in E].
  - destruct (n =? k) eqn:Hc; [|discriminate]. injection Hdims as <-.
    apply Z.eqb_eq in Hc.
    destruct (known_size_spec _ 0 _ _ _ _ _ Hk) as (Hp & _ & Hn & _).
    specialize (Hn eq_refl). cbn [negb andb] in Hp.
    rewrite <- zprod_numel by exact Hn.
    replace (map (fun d => if d <? 0 then 0 else d) s) with s in Hp; [lia|].
    rewrite <- (map_id s) at 1. apply map_ext_in. intros d Hd.
    unfold nonneg in Hn. rewrite List.Forall_forall in Hn.
    replace (d <? 0) with false; [reflexivity|].
    symmetry. apply Z.ltb_ge. now apply Hn.
Qed.

Lemma length_flat_map_const {A} (g : nat -> list A) (len : nat) (l : list nat) :
  (forall k, length (g k) = len) -> length (flat_map g l) = (length l * len)%nat.
Proof.
  intros H. induction l as [|x l IH]; [reflexivity|].
  cbn [flat_map length]. rewrite length_app, H, IH. lia.
Qed.

(** The backend's matmul returns a well-formed array. *)
Lemma np_matmul_wf (a b r : ndarray) : np.matmul a b = Ok r -> wf r.
Proof.
  unfold np.matmul, np.ndim.
  destruct (nd_shape a) as [|x sa] eqn:Ea; [discriminate|].
  destruct (nd_shape b) as [|y sb] eqn:Eb; [discriminate|].
  set (sa2 := match sa with [] => [1%nat; x] | _ => x :: sa end).
  set (sb2 := match sb with [] => [y; 1%nat] | _ => y :: sb end).
  destruct (np.split_last2 sa2) as [[[ba n] ka]|] eqn:Hu; [|discriminate].
  destruct (np.split_last2 sb2) as [[[bb kb] m]|] eqn:Hv; [|discriminate].
  destruct (negb (Nat.eqb ka kb)); [discriminate|].
  destruct (np.broadcast_shapes ba bb) as [batch|]; [|discriminate].
  intros [= <-]. unfold wf. cbn [nd_data nd_shape].
  rewrite (length_flat_map_const _ (n * m)) by (intros; apply length_mat_mul).
  rewrite length_seq, numel_app. f_equal.
  unfold sa2, sb2, np.split_last2 in Hu, Hv.
  destruct sa as [|x' sa], sb as [|y' sb]; cbn [length Nat.eqb app];
    cbn [rev app] in Hu, Hv;
    try (injection Hu as <- <- <-); try (injection Hv as <- <- <-);
    cbn; lia.
Qed.

(** [np.dot] returns a well-formed array. *)
Lemma np_dot_wf (a b r : ndarray) : np.dot a b = Ok r -> wf r.
Proof.
  unfold np.dot.
  destruct (rev (nd_shape a)) as [|ka pa]; [intros H; now apply ufunc2_wf in H|].
  destruct (nd_shape b) as [|kb [|y sb]] eqn:Eb.
  - intros H. now apply ufunc2_wf in H.
  - destruct (Nat.eqb ka kb); [|discriminate]. intros [= <-].
    unfold wf. cbn [nd_data nd_shape]. now rewrite length_map, length_seq.
  - destruct (np.split_last2 _) as [[[pb kb'] m]|]; [|discriminate].
    destruct (Nat.eqb ka kb'); [|discriminate]. intros [= <-].
    unfold wf. cbn [nd_data nd_shape].
    rewrite (length_flat_map_const _ (numel pb * m)).
    + rewrite length_seq, !numel_app. cbn. lia.
    + intros k. rewrite (length_flat_map_const _ m).
      * now rewrite length_seq.
      * intros. now rewrite length_map, length_seq.
Qed.

(** A property of the loop state that every iteration keeps holds after
    the loop. *)
Lemma for_in_invariant {A S} (P : S -> Prop) (xs : list A)
    (body : A -> S -> result S) (s0 s : S) :
  (forall x s1 s2, P s1 -> body x s1 = Ok s2 -> P s2) ->
  P s0 -> tensor.for_in xs body s0 = Ok s -> P s.
Proof.
  intros Hbody. revert s0. induction xs as [|x xs IH]; intros s0 H0 H.
  - now injection H as <-.
  - cbn [tensor.for_in] in H. apply bind_Ok_inv in H. destruct H as (s1 & H1 & H).
    apply (IH s1); [eapply Hbody; eassumption | exact H].
Qed.

Lemma obj_wf_seq (l : list pyobj) : Forall obj_wf l -> obj_wf (PySeq l).
Proof. induction 1; cbn; auto. Qed.

(** The 2x2 path returns a Tensor that satisfies the invariant. *)
Lemma matmul_2x2_valid (A B r : Tensor) :
  tensor.matmul_2x2 A B = Ok r -> valid r.
Proof.
  unfold tensor.matmul_2x2. intros H.
  apply bind_Ok_inv in H. destruct H as (lst & Hlst & H).
  apply bind_Ok_inv in H. destruct H as (arr & Harr & H).
  apply bind_Ok_inv in H. destruct H as (arr' & Harr' & H).
  apply (init_valid (NpArray arr') r); [|exact H]. cbn [obj_wf].
  apply (np_reshape_wf arr arr' [2; 2]); [|exact Harr'].
  apply array_Ok in Harr. destruct Harr as (e1 & e2 & b & Harr & ->).
  eapply (discover_wf _ _ (PySeq lst) b); [|exact Harr].
  apply obj_wf_seq.
  apply (for_in_invariant (Forall obj_wf) _ _ _ _) with (3 := Hlst); [|constructor].
  intros i s1 s2 Hs1 Hi.
  apply (for_in_invariant (Forall obj_wf) _ _ _ _) with (3 := Hi); [|exact Hs1].
  intros j s3 s4 Hs3 Hj.
  apply bind_Ok_inv in Hj. destruct Hj as (row & _ & Hj).
  apply bind_Ok_inv in Hj. destruct Hj as (col & _ & Hj).
  apply bind_Ok_inv in Hj. destruct Hj as (res & Hres & [= <-]).
  apply Forall_app. split; [exact Hs3|]. constructor; [|constructor].
  cbn [obj_wf]. now apply (np_dot_wf row col).
Qed.

End Closure.

(** Whenever [matmul] returns, its result satisfies the invariant of the
    data model: float32 data, shape and size recorded, as many elements
    as the shape says. *)
Theorem matmul_returns_valid (self r : Tensor) (other : pyobj) :
  tensor.matmul self other = Ok r -> valid r.
Proof.
  unfold tensor.matmul. destruct other as [z|x|l|a|o]; try discriminate.
  destruct (Nat.eqb (np.ndim (data o)) 0).
  { intros H. apply bind_Ok_inv in H. destruct H as (p & Hp & H).
    unfold tensor.__mul__ in Hp.
    apply bind_Ok_inv in Hp. destruct Hp as (x & _ & Hp).
    apply bind_Ok_inv in Hp. destruct Hp as (q & _ & [= <-]).
    discriminate. }
  destruct (Nat.eqb (np.ndim (data o)) 1).
  { intros H. apply bind_Ok_inv in H. destruct H as (x & Hx & H).
    apply (init_valid (NpArray x) r); [|exact H]. now apply np_matmul_wf in Hx. }
  intros H.
  apply bind_Ok_inv in H. destruct H as (k1 & _ & H).
  apply bind_Ok_inv in H. destruct H as (k2 & _ & H).
  destruct (negb (Nat.eqb k1 k2)); [discriminate|].
  destruct (np.shape_eqb _ _).
  - now apply (matmul_2x2_valid self o).
  - apply bind_Ok_inv in H. destruct H as (x & Hx & H).
    apply (init_valid (NpArray x) r); [|exact H]. now apply np_matmul_wf in Hx.
Qed.

Lemma matmul_returns_valid_witness :
  valid (lit [2%nat; 1%nat; 2%nat] [1; 2; 3; 4]).
Proof.
  apply (matmul_returns_valid (lit [2%nat; 1%nat; 2%nat] [1; 0; 0; 1])
           (lit [2%nat; 1%nat; 2%nat] [1; 2; 3; 4]) (TensorObj t_1234)).
  vm_compute. reflexivity.
Defined.

(** Whenever [reshape], [transpose], a subscript, [sum], [mean] or [max]
    returns on a valid Tensor, its result satisfies the invariant of the
    data model. *)
Theorem shape_methods_return_valid (t r : Tensor) :
  valid t ->
  (exists args, tensor.reshape t args = Ok r) \/
  (exists dim0 dim1, tensor.transpose t dim0 dim1 = Ok r) \/
  (exists key, tensor.__getitem__ t key = Ok r) \/
  (exists axis kd, tensor.sum t axis kd = Ok r \/ tensor.mean t axis kd = Ok r
                   \/ tensor.max t axis kd = Ok r) ->
  valid r.
Proof.
  intros Hv. pose proof Hv as (Hwf & _).
  intros [(args & H)|[(dim0 & dim1 & H)|[(key & H)|(axis & kd & H)]]].
  - unfold tensor.reshape in H.
    apply bind_Ok_inv in H. destruct H as (first & _ & H).
    apply bind_Ok_inv in H. destruct H as (last & _ & H).
    apply bind_Ok_inv in H. destruct H as (sh & _ & H).
    apply bind_Ok_inv in H. destruct H as (dims & _ & H).
    destruct (negb _); [discriminate|].
    apply bind_Ok_inv in H. destruct H as (x & Hx & H).
    apply (init_valid (NpArray x) r); [|exact H].
    now apply (np_reshape_wf (data t) x dims).
  - unfold tensor.transpose in H.
    destruct (Nat.eqb _ 1); [now injection H as <-|].
    assert (Hx : exists axes x, np.transpose (data t) axes = Ok x /\
                                tensor.__init__ (NpArray x) = Ok r).
    { destruct dim0, dim1;
        apply bind_Ok_inv in H; destruct H as (? & _ & H);
        apply bind_Ok_inv in H; destruct H as (? & _ & H);
        apply bind_Ok_inv in H; destruct H as (? & _ & H);
        apply bind_Ok_inv in H; destruct H as (axes & _ & H);
        apply bind_Ok_inv in H; destruct H as (arr & Harr & H); eauto. }
    destruct Hx as (axes & x & Hx & Hr).
    apply (init_valid (NpArray x) r); [|exact Hr]. now apply np_transpose_wf in Hx.
  - unfold tensor.__getitem__ in H.
    apply bind_Ok_inv in H. destruct H as (v & Hv' & H).
    apply bind_Ok_inv in H. destruct H as (c & Hc & H).
    injection Hc as <-.
    apply (init_valid (NpArray v) r); [|exact H]. now apply np_getitem_wf in Hv'.
  - unfold tensor.sum, tensor.mean, tensor.max, np.sum, np.mean, np.max in H.
    destruct H as [H|[H|H]];
      apply bind_Ok_inv in H; destruct H as (x & Hx & H);
      apply bind_Ok_inv in Hx; destruct Hx as (axes & _ & Hx);
      try (apply bind_Ok_inv in Hx; destruct Hx as (axes' & _ & Hx));
      try (destruct (Nat.eqb _ 0); [discriminate|]);
      injection Hx as <-;
      (eapply init_valid; [|exact H]); apply reduce_wf.
Qed.

Lemma shape_methods_return_valid_witness :
  valid (lit [2%nat] [5; 6]).
Proof.
  apply (shape_methods_return_valid t_3x2 (lit [2%nat] [5; 6])).
  - repeat split.
  - do 3 right. exists (np.AxisInt 0), false. right. right. vm_compute. reflexivity.
Defined.
